(** * The RAD Lab console scripts, embedded and verified

    The repository holds four near-duplicate browser scripts:

    - [RagConsole]  : [static/rag_console.js]
    - [Console2]    : the script with [lastCaseId] and the text case viewer
                      (the first unnamed source file)
    - [Console3]    : the script with file ingest, Explain, MITRE and export
                      (the second unnamed source file, its first script)
    - [Console4]    : the script with the optional [caseId] input field
                      (the second unnamed source file, its second script)

    Every click handler is an [async] function that touches the page,
    possibly suspends on one [fetch] (or one clipboard write) and then
    touches the page again.  The embedding keeps that shape: a handler maps
    a page to a [proc], which is either finished or waits for one answer
    with its continuation.

    Modelling scope.  Strings are sequences of code units below 256.
    Numbers are the integer-valued doubles, the infinities and [NaN]: that
    is all the handlers compute with themselves ([parseInt], the HTTP
    status); fractions in server JSON are outside the model.  [JSON.parse] and
    [JSON.stringify] belong to the platform and are a parameter
    ([Platform]); a reference instance runs the examples. *)

From Stdlib Require Import String Ascii List ZArith Bool Lia.
From Stdlib Require Import DecimalString.
Import ListNotations.
Open Scope string_scope.
Set Warnings "-register-all".

(** ** JavaScript values and the platform functions the scripts call *)

Module JS.

(** The Number values the scripts compute: [Int z] is the double whose
    value is the integer [z] (the two zeros are one here: the scripts only
    print and send them). *)
Inductive number :=
| NaN
| Int (z : Z)
| Infinity (negative : bool).

(** The Number value for the integer [z]: [z] itself up to 2^53, beyond
    that the nearest double (53 significant bits, ties to the even one), and
    an infinity once that reaches 2^1024. *)
Definition to_number (z : Z) : number :=
  let a := Z.abs z in
  let e := (Z.log2 a - 52)%Z in
  if (e <=? 0)%Z then Int z
  else
    let q := Z.shiftr a e in
    let r := (a - Z.shiftl q e)%Z in
    let half := Z.shiftl 1 (e - 1) in
    let q' := if (r <? half)%Z then q
              else if (half <? r)%Z then (q + 1)%Z
              else if Z.even q then q else (q + 1)%Z in
    let m := Z.shiftl q' e in
    if (2 ^ 1024 <=? m)%Z then Infinity (z <? 0)%Z
    else Int (Z.sgn z * m).

(** Values a handler can hold: what [JSON.parse] yields, [undefined], and
    the [Error] instances the platform throws (an [Error] has no enumerable
    property of its own). *)
Inductive value :=
| VUndef
| VNull
| VBool (b : bool)
| VNum (n : number)
| VStr (s : string)
| VArr (items : list value)
| VObj (fields : list (string * value))
| VError (name : string).

Definition TypeError : value := VError "TypeError".

(** ToBoolean. *)
Definition truthy (v : value) : bool :=
  match v with
  | VUndef | VNull => false
  | VBool b => b
  | VNum NaN => false
  | VNum (Int z) => negb (z =? 0)%Z
  | VNum (Infinity _) => true
  | VStr s => negb (s =? "")
  | VArr _ | VObj _ | VError _ => true
  end.

Definition nonempty (s : string) : bool := negb (s =? "").

(** [a || b], [a && b] and [a ?? b] on values. *)
Definition or_else (a b : value) : value := if truthy a then a else b.
Definition and_then (a b : value) : value := if truthy a then b else a.
Definition nullish (v : value) : bool :=
  match v with VUndef | VNull => true | _ => false end.
Definition coalesce (a b : value) : value := if nullish a then b else a.

Fixpoint lookup (k : string) (fields : list (string * value)) : value :=
  match fields with
  | [] => VUndef
  | (k', v) :: rest => if k' =? k then v else lookup k rest
  end.

(** Property read [v.k] for the names the scripts read ([case_id],
    [summary], [tags], [cases], [status], [body], [length]); reading a
    property of [null] or [undefined] throws. *)
Definition get (v : value) (k : string) : value + value :=
  match v with
  | VUndef | VNull => inr TypeError
  | VObj fields => inl (lookup k fields)
  | VArr items =>
      inl (if k =? "length" then VNum (Int (Z.of_nat (length items))) else VUndef)
  | VStr s =>
      inl (if k =? "length" then VNum (Int (Z.of_nat (String.length s))) else VUndef)
  | _ => inl VUndef
  end.

Definition decimal (z : Z) : string := NilZero.string_of_int (Z.to_int z).

Fixpoint join (sep : string) (parts : list string) : string :=
  match parts with
  | [] => ""
  | [p] => p
  | p :: rest => p ++ sep ++ join sep rest
  end.

(** ToString, as template literals and string-typed DOM attributes apply
    it. *)
Fixpoint ToString (v : value) : string :=
  match v with
  | VUndef => "undefined"
  | VNull => "null"
  | VBool true => "true"
  | VBool false => "false"
  | VNum NaN => "NaN"
  | VNum (Int z) => decimal z
  | VNum (Infinity false) => "Infinity"
  | VNum (Infinity true) => "-Infinity"
  | VStr s => s
  | VArr items =>
      join "," (map (fun x => if nullish x then "" else ToString x) items)
  | VObj _ => "[object Object]"
  | VError name => name
  end.

(** [s] without its prefix [pre], when it starts with it. *)
Fixpoint strip_prefix (pre s : string) : option string :=
  match pre, s with
  | EmptyString, _ => Some s
  | String a pre', String b s' => if Ascii.eqb a b then strip_prefix pre' s' else None
  | String _ _, EmptyString => None
  end.

(** White space and line terminators among the code units below 256. *)
Definition is_space (c : ascii) : bool :=
  let n := nat_of_ascii c in
  (((9 <=? n) && (n <=? 13)) || (n =? 32) || (n =? 160))%nat.

Fixpoint trimStart (s : string) : string :=
  match s with
  | String c rest => if is_space c then trimStart rest else s
  | EmptyString => EmptyString
  end.

Fixpoint trimEnd (s : string) : string :=
  match s with
  | EmptyString => EmptyString
  | String c rest =>
      match trimEnd rest with
      | EmptyString => if is_space c then EmptyString else String c EmptyString
      | kept => String c kept
      end
  end.

Definition trim (s : string) : string := trimEnd (trimStart s).

(** [parseInt(string, radix)]; [None] is a missing radix.  The digits are
    read exactly and the integer they denote is then turned into a Number
    (an engine may, in radix 10, read digits after the twentieth significant
    one as zeros). *)
Definition digit_value (c : ascii) : option Z :=
  let n := Z.of_nat (nat_of_ascii c) in
  if ((48 <=? n) && (n <=? 57))%Z then Some (n - 48)%Z
  else if ((97 <=? n) && (n <=? 122))%Z then Some (n - 87)%Z
  else if ((65 <=? n) && (n <=? 90))%Z then Some (n - 55)%Z
  else None.

Fixpoint digits (R : Z) (s : string) (acc : option Z) : option Z :=
  match s with
  | EmptyString => acc
  | String c rest =>
      match digit_value c with
      | Some d =>
          if (d <? R)%Z
          then digits R rest (Some (match acc with Some a => a | None => 0 end * R + d)%Z)
          else acc
      | None => acc
      end
  end.

Definition strip_sign (s : string) : Z * string :=
  match s with
  | String "-"%char rest => ((-1)%Z, rest)
  | String "+"%char rest => (1%Z, rest)
  | _ => (1%Z, s)
  end.

Definition strip_hex (s : string) : option string :=
  match s with
  | String "0"%char (String "x"%char rest) => Some rest
  | String "0"%char (String "X"%char rest) => Some rest
  | _ => None
  end.

Definition parseInt (s : string) (radix : option Z) : number :=
  let '(sign, str) := strip_sign (trimStart s) in
  let R := match radix with Some r => r | None => 0%Z end in
  if (negb (R =? 0) && ((R <? 2) || (36 <? R)))%Z then NaN
  else
    let stripPrefix := ((R =? 0) || (R =? 16))%Z in
    let R := if (R =? 0)%Z then 10%Z else R in
    let '(R, str) :=
      match (if stripPrefix then strip_hex str else None) with
      | Some rest => (16%Z, rest)
      | None => (R, str)
      end in
    match digits R str None with
    | None => NaN
    | Some mathInt => to_number (sign * mathInt)
    end.

(** [JSON.parse] ([None]: it throws) and [JSON.stringify(v, null, indent)]
    ([None]: it returns [undefined]). *)
Class Platform := {
  JSON_parse : string -> option value;
  JSON_stringify : value -> nat -> option string
}.

End JS.
Import JS.

(** ** The page, its effects and asynchronous handlers *)

Module Dom.

(** Elements the scripts look up by id ([.value] of an input and
    [.textContent] of a region are both the element's text here). *)
Inductive elem :=
| ingestText | ingestMetadata | ingestStatus | ingestResult
| searchQuery | searchTopK | searchStatus | searchResult
| caseId
| ingestFileStatus | ingestFileResult
| caseList | caseListDisplay | caseDetails
| explainStatus | explainResult
| mitreStatus | mitreResult.

Inductive button :=
| ingestBtn | ingestFileBtn | searchBtn | explainCaseBtn | mitreExtractBtn.

Scheme Equality for elem.
Scheme Equality for button.

Record file := { file_name : string; file_content : string }.

Inductive payload :=
| JsonText (v : value)        (* the text [JSON.stringify(v)] *)
| FormData (field : string) (f : file).

Record request := {
  url : string;
  method : string;
  headers : list (string * string);
  body : option payload
}.

(** What a [fetch] settles to once the body text has been read. *)
Inductive fetch_result :=
| NetworkError
| Response (status : Z) (text : string).

Inductive event :=
| SetText (e : elem) (s : string)
| SetDisabled (b : button) (v : bool)
| AppendItem (c : value)
| InstallListClick
| Fetch (r : request)
| ClipboardWrite (s : string)
| ExecCopy
| Download (filename content : string)
| ConsoleError.

Record page := {
  content : elem -> string;
  disabled : button -> bool;
  searchIncludeMeta : bool;            (* [.checked] *)
  ingestFile : list file;              (* [.files] *)
  has_caseId : bool;                   (* does [getElementById("caseId")] find one *)
  value_kept : elem -> string -> string; (* what [.value] reads after [.value = s] *)
  has_clipboard : bool;                (* [navigator.clipboard.writeText] exists *)
  execCommand_copy : option bool;      (* [None]: [execCommand] throws *)
  items : list value;                  (* the [li] children of [caseListDisplay] *)
  list_click : bool;                   (* [caseList.onclick] is installed *)
  lastCaseId : value;
  log : list event
}.

Definition emit (ev : event) (p : page) : page :=
  {| content := content p; disabled := disabled p;
     searchIncludeMeta := searchIncludeMeta p; ingestFile := ingestFile p;
     has_caseId := has_caseId p; value_kept := value_kept p;
     has_clipboard := has_clipboard p;
     execCommand_copy := execCommand_copy p; items := items p;
     list_click := list_click p; lastCaseId := lastCaseId p;
     log := log p ++ [ev] |}.

Definition write_text (e : elem) (s : string) (p : page) : page :=
  {| content := fun e' => if elem_beq e' e then s else content p e';
     disabled := disabled p;
     searchIncludeMeta := searchIncludeMeta p; ingestFile := ingestFile p;
     has_caseId := has_caseId p; value_kept := value_kept p;
     has_clipboard := has_clipboard p;
     execCommand_copy := execCommand_copy p; items := items p;
     list_click := list_click p; lastCaseId := lastCaseId p;
     log := log p |}.

Definition write_disabled (b : button) (v : bool) (p : page) : page :=
  {| content := content p;
     disabled := fun b' => if button_beq b' b then v else disabled p b';
     searchIncludeMeta := searchIncludeMeta p; ingestFile := ingestFile p;
     has_caseId := has_caseId p; value_kept := value_kept p;
     has_clipboard := has_clipboard p;
     execCommand_copy := execCommand_copy p; items := items p;
     list_click := list_click p; lastCaseId := lastCaseId p;
     log := log p |}.

Definition write_items (l : list value) (p : page) : page :=
  {| content := content p; disabled := disabled p;
     searchIncludeMeta := searchIncludeMeta p; ingestFile := ingestFile p;
     has_caseId := has_caseId p; value_kept := value_kept p;
     has_clipboard := has_clipboard p;
     execCommand_copy := execCommand_copy p; items := l;
     list_click := list_click p; lastCaseId := lastCaseId p;
     log := log p |}.

Definition write_list_click (v : bool) (p : page) : page :=
  {| content := content p; disabled := disabled p;
     searchIncludeMeta := searchIncludeMeta p; ingestFile := ingestFile p;
     has_caseId := has_caseId p; value_kept := value_kept p;
     has_clipboard := has_clipboard p;
     execCommand_copy := execCommand_copy p; items := items p;
     list_click := v; lastCaseId := lastCaseId p;
     log := log p |}.

Definition write_lastCaseId (v : value) (p : page) : page :=
  {| content := content p; disabled := disabled p;
     searchIncludeMeta := searchIncludeMeta p; ingestFile := ingestFile p;
     has_caseId := has_caseId p; value_kept := value_kept p;
     has_clipboard := has_clipboard p;
     execCommand_copy := execCommand_copy p; items := items p;
     list_click := list_click p; lastCaseId := v;
     log := log p |}.

Definition write_checked (v : bool) (p : page) : page :=
  {| content := content p; disabled := disabled p;
     searchIncludeMeta := v; ingestFile := ingestFile p;
     has_caseId := has_caseId p; value_kept := value_kept p;
     has_clipboard := has_clipboard p;
     execCommand_copy := execCommand_copy p; items := items p;
     list_click := list_click p; lastCaseId := lastCaseId p;
     log := log p |}.

Definition write_files (l : list file) (p : page) : page :=
  {| content := content p; disabled := disabled p;
     searchIncludeMeta := searchIncludeMeta p; ingestFile := l;
     has_caseId := has_caseId p; value_kept := value_kept p;
     has_clipboard := has_clipboard p;
     execCommand_copy := execCommand_copy p; items := items p;
     list_click := list_click p; lastCaseId := lastCaseId p;
     log := log p |}.

(** The observable assignments: each one changes the page and is recorded. *)
Definition set_text (e : elem) (s : string) (p : page) : page :=
  emit (SetText e s) (write_text e s p).

Definition set_disabled (b : button) (v : bool) (p : page) : page :=
  emit (SetDisabled b v) (write_disabled b v p).

(** The text [el.textContent = v] leaves: [null] and [undefined] give the
    empty text. *)
Definition rendered (v : value) : string :=
  if nullish v then "" else ToString v.

Definition set_textContent (e : elem) (v : value) (p : page) : page :=
  set_text e (rendered v) p.

(** The value sanitization of a single-line text input: line feeds and
    carriage returns are dropped. *)
Fixpoint strip_newlines (s : string) : string :=
  match s with
  | EmptyString => EmptyString
  | String c rest =>
      if ((nat_of_ascii c =? 10) || (nat_of_ascii c =? 13))%nat
      then strip_newlines rest
      else String c (strip_newlines rest)
  end.

(** The string [input.value = v] assigns: [null] gives the empty one. *)
Definition value_text (v : value) : string :=
  match v with VNull => "" | _ => ToString v end.

(** [input.value = v]: the control keeps what its kind of field lets
    through (a text input drops line breaks, a text area turns carriage
    returns into line feeds). *)
Definition set_value (e : elem) (v : value) (p : page) : page :=
  set_text e (value_kept p e (value_text v)) p.

(** Statements that run to completion without suspending: the next page and
    either a result or the value thrown. *)
Definition M (A : Type) : Type := page -> (A + value) * page.

Definition ret {A} (a : A) : M A := fun p => (inl a, p).
Definition throw {A} (e : value) : M A := fun p => (inr e, p).
Definition bind {A B} (m : M A) (k : A -> M B) : M B :=
  fun p => match m p with
           | (inl a, p') => k a p'
           | (inr e, p') => (inr e, p')
           end.
Definition lift {A} (r : A + value) : M A := fun p => (r, p).
Definition act (f : page -> page) : M unit := fun p => (inl tt, f p).
Definition read {A} (f : page -> A) : M A := fun p => (inl (f p), p).

(** [try { m } catch (err) { h err }] and [try { m } finally { f }]. *)
Definition try_catch {A} (m : M A) (h : value -> M A) : M A :=
  fun p => match m p with
           | (inl a, p') => (inl a, p')
           | (inr e, p') => h e p'
           end.

Definition try_finally {A} (m : M A) (f : M unit) : M A :=
  fun p => match m p with
           | (r, p') => match f p' with
                        | (inl _, p'') => (r, p'')
                        | (inr e, p'') => (inr e, p'')
                        end
           end.

(** The page a completed statement leaves; a value thrown out of a handler
    is an unhandled rejection, which changes nothing. *)
Definition exec {A} (m : M A) (p : page) : page := snd (m p).

(** A handler run: finished, or suspended on one answer. *)
Inductive proc :=
| Done (p : page)
| AwaitFetch (p : page) (r : request) (k : fetch_result -> page -> page)
| AwaitClipboard (p : page) (s : string) (k : bool -> page -> page).

Definition handler := page -> proc.

Definition page_of (c : proc) : page :=
  match c with
  | Done p | AwaitFetch p _ _ | AwaitClipboard p _ _ => p
  end.

(** Run a handler against the answer its one suspension receives, with no
    other handler in between. *)
Definition run (h : handler) (net : fetch_result) (clip : bool) (p : page) : page :=
  match h p with
  | Done p' => p'
  | AwaitFetch p' _ k => k net p'
  | AwaitClipboard p' _ k => k clip p'
  end.

(** The request a suspended handler has issued, and a key of its JSON
    body. *)
Definition request_of (c : proc) : option request :=
  match c with
  | AwaitFetch _ r _ => Some r
  | _ => None
  end.

Definition json_body (c : proc) : option value :=
  match request_of c with
  | Some r => match body r with
              | Some (JsonText v) => Some v
              | _ => None
              end
  | None => None
  end.

Definition sent (k : string) (c : proc) : option value :=
  match json_body c with
  | Some (VObj fields) => Some (lookup k fields)
  | _ => None
  end.

Definition is_fetch (ev : event) : bool :=
  match ev with Fetch _ => true | _ => false end.

Definition fetches (l : list event) : list event := filter is_fetch l.

Definition is_export (ev : event) : bool :=
  match ev with ClipboardWrite _ | ExecCopy | Download _ _ => true | _ => false end.

End Dom.
Import Dom.

Declare Scope js_scope.
Delimit Scope js_scope with js.
Notation "x <- m ;; k" := (bind m (fun x => k))
  (at level 61, m at next level, right associativity) : js_scope.
Notation "m ;; k" := (bind m (fun _ => k))
  (at level 61, right associativity) : js_scope.

Open Scope js_scope.

(** ** [callApi] and [pretty], the same in the four scripts *)

Module Api.
Section WithPlatform.
Context `{Platform}.

Definition baseUrl : string := "".

(** The [options] argument; an absent key is [None]. *)
Record options := {
  opt_method : option string;
  opt_headers : option (list (string * string));
  opt_body : option payload
}.

Definition no_options : options :=
  {| opt_method := None; opt_headers := None; opt_body := None |}.

Definition post (b : payload) : options :=
  {| opt_method := Some "POST"; opt_headers := None; opt_body := Some b |}.

(** [{ headers: { "Content-Type": "application/json" }, ...options }]. *)
Definition fetch_request (path : string) (o : options) : request :=
  {| url := baseUrl ++ path;
     method := match opt_method o with Some m => m | None => "GET" end;
     headers := match opt_headers o with
                | Some h => h
                | None => [("Content-Type", "application/json")]
                end;
     body := opt_body o |}.

(** [try { data = JSON.parse(text); } catch { data = text; }]. *)
Definition decode (text : string) : value :=
  match JSON_parse text with
  | Some data => data
  | None => VStr text
  end.

(** [resp.ok]. *)
Definition ok (status : Z) : bool := ((200 <=? status) && (status <=? 299))%Z.

Definition ApiError (status : Z) (data : value) : value :=
  VObj [("status", VNum (Int status)); ("body", data)].

(** What [callApi] does once [fetch] has settled: [inl] is the value
    returned, [inr] the value thrown. *)
Definition callApi_settle (ans : fetch_result) : value + value :=
  match ans with
  | NetworkError => inr TypeError
  | Response status text =>
      let data := decode text in
      if negb (ok status) then inr (ApiError status data) else inl data
  end.

(** [await callApi(path, options)], with the rest of the caller as [k]. *)
Definition callApi (path : string) (o : options)
    (k : value + value -> page -> page) : handler :=
  fun p =>
    let r := fetch_request path o in
    AwaitFetch (emit (Fetch r) p) r (fun ans => k (callApi_settle ans)).

Definition pretty (obj : value) : value :=
  match JSON_stringify obj 2 with
  | Some s => VStr s
  | None => VUndef
  end.

(** [res && res.k]. *)
Definition and_get (res : value) (k : string) : M value :=
  if truthy res then lift (get res k) else ret res.

(** [if (res && res.case_id) { lastCaseId = res.case_id; }]. *)
Definition remember_case_id (res : value) : M unit :=
  c <- and_get res "case_id" ;;
  if truthy c
  then (c' <- lift (get res "case_id") ;; act (write_lastCaseId c'))
  else ret tt.

End WithPlatform.
End Api.
Import Api.

(** ** [static/rag_console.js]: no case identifier at all *)

Module RagConsole.
Section WithPlatform.
Context `{Platform}.

Definition render_error (status result : elem) (err : value) : M unit :=
  st <- lift (get err "status") ;;
  act (set_text status ("Error: " ++ ToString st)) ;;
  b <- lift (get err "body") ;;
  act (set_textContent result (pretty b)).

Definition ingestBtn_click : handler := fun p =>
  let text := trim (content p ingestText) in
  let metadataRaw := trim (content p ingestMetadata) in
  let status := ingestStatus in
  let result := ingestResult in
  if negb (nonempty text) then Done (set_text status "Enter text." p)
  else
    match (if nonempty metadataRaw then JSON_parse metadataRaw else Some VUndef) with
    | None => Done (set_text status "Invalid metadata JSON." p)
    | Some metadata =>
        let p := set_disabled ingestBtn true p in
        let p := set_text status "Ingesting..." p in
        let p := set_text result "{}" p in
        let body := VObj (("text", VStr text)
                          :: if truthy metadata then [("metadata", metadata)] else []) in
        callApi "/ingest" (post (JsonText body))
          (fun settled => exec
             (try_finally
                (try_catch
                   (res <- lift settled ;;
                    act (set_text status "Ingest OK.") ;;
                    act (set_textContent result (pretty res)))
                   (render_error status result))
                (act (set_disabled ingestBtn false))))
          p
    end.

Definition ingestClearBtn_click : handler := fun p =>
  let p := set_text ingestText "" p in
  let p := set_text ingestMetadata "" p in
  let p := set_text ingestStatus "" p in
  Done (set_text ingestResult "{}" p).

Definition searchBtn_click : handler := fun p =>
  let query := trim (content p searchQuery) in
  let top_k :=
    parseInt (if nonempty (content p searchTopK) then content p searchTopK else "5")
             None in
  let include_metadata := searchIncludeMeta p in
  let status := searchStatus in
  let result := searchResult in
  if negb (nonempty query) then Done (set_text status "Enter query." p)
  else
    let p := set_disabled searchBtn true p in
    let p := set_text status "Searching..." p in
    let p := set_text result "{}" p in
    let body := VObj [("query", VStr query); ("top_k", VNum top_k);
                      ("include_metadata", VBool include_metadata)] in
    callApi "/search" (post (JsonText body))
      (fun settled => exec
         (try_finally
            (try_catch
               (res <- lift settled ;;
                act (set_text status "Search OK.") ;;
                act (set_textContent result (pretty res)))
               (render_error status result))
            (act (set_disabled searchBtn false))))
      p.

Definition searchClearBtn_click : handler := fun p =>
  let p := set_text searchQuery "" p in
  let p := set_text searchResult "{}" p in
  Done (set_text searchStatus "" p).

End WithPlatform.
End RagConsole.

(** ** The script with [lastCaseId] and the text case viewer *)

Module Console2.

Definition dq : string := String (ascii_of_nat 34) EmptyString.

(** The longest run of characters other than the double quote, and what
    follows it. *)
Fixpoint span_unquoted (s : string) : string * string :=
  match s with
  | EmptyString => (EmptyString, EmptyString)
  | String c rest =>
      if Ascii.eqb c (ascii_of_nat 34) then (EmptyString, s)
      else let '(run, tail) := span_unquoted rest in (String c run, tail)
  end.

Definition case_id_at (s : string) : option string :=
  match strip_prefix (dq ++ "case_id" ++ dq ++ ": " ++ dq) s with
  | None => None
  | Some rest =>
      let '(run, tail) := span_unquoted rest in
      match run, tail with
      | String _ _, String _ _ => Some run
      | _, _ => None
      end
  end.

(** Group 1 of the first match of the script's pattern in [s]: the key
    case_id in double quotes, a colon, a space, a double quote, one or more
    characters other than the double quote, a double quote. *)
Fixpoint match_case_id (s : string) : option string :=
  match case_id_at s with
  | Some id => Some id
  | None =>
      match s with
      | EmptyString => None
      | String _ rest => match_case_id rest
      end
  end.

Section WithPlatform.
Context `{Platform}.

Definition render_error (status result : elem) (err : value) : M unit :=
  st <- lift (get err "status") ;;
  act (set_text status ("Error: " ++ ToString (coalesce st (VStr "?")))) ;;
  b <- lift (get err "body") ;;
  act (set_textContent result (pretty b)).

Definition ingestBtn_click : handler := fun p =>
  let text := trim (content p ingestText) in
  let metadataRaw := trim (content p ingestMetadata) in
  let status := ingestStatus in
  let result := ingestResult in
  if negb (nonempty text) then Done (set_text status "Enter text." p)
  else
    match (if nonempty metadataRaw then JSON_parse metadataRaw
           else Some (VObj [("source", VStr "ui")])) with
    | None => Done (set_text status "Invalid metadata JSON." p)
    | Some metadata =>
        let p := set_disabled ingestBtn true p in
        let p := set_text status "Ingesting..." p in
        let p := set_text result "{}" p in
        let body := VObj [("text", VStr text); ("metadata", metadata)] in
        callApi "/ingest" (post (JsonText body))
          (fun settled => exec
             (try_finally
                (try_catch
                   (res <- lift settled ;;
                    act (set_text status "Ingest OK.") ;;
                    act (set_textContent result (pretty res)) ;;
                    remember_case_id res)
                   (render_error status result))
                (act (set_disabled ingestBtn false))))
          p
    end.

Definition ingestClearBtn_click : handler := fun p =>
  let p := set_text ingestText "" p in
  let p := set_text ingestMetadata "" p in
  let p := set_text ingestStatus "" p in
  Done (set_text ingestResult "{}" p).

Definition searchBtn_click : handler := fun p =>
  let query := trim (content p searchQuery) in
  let top_k :=
    parseInt (if nonempty (content p searchTopK) then content p searchTopK else "5")
             (Some 10%Z) in
  let include_metadata := searchIncludeMeta p in
  let status := searchStatus in
  let result := searchResult in
  let case_id := lastCaseId p in
  if negb (nonempty query) then Done (set_text status "Enter query." p)
  else if negb (truthy case_id)
  then Done (set_text status "Missing case_id: ingest first." p)
  else
    let p := set_disabled searchBtn true p in
    let p := set_text status "Searching..." p in
    let p := set_text result "{}" p in
    let body := VObj [("case_id", case_id); ("query", VStr query);
                      ("top_k", VNum top_k);
                      ("include_metadata", VBool include_metadata)] in
    callApi "/search" (post (JsonText body))
      (fun settled => exec
         (try_finally
            (try_catch
               (res <- lift settled ;;
                act (set_text status "Search OK.") ;;
                act (set_textContent result (pretty res)))
               (render_error status result))
            (act (set_disabled searchBtn false))))
      p.

Definition searchClearBtn_click : handler := fun p =>
  let p := set_text searchQuery "" p in
  let p := set_text searchResult "{}" p in
  Done (set_text searchStatus "" p).

Definition loadCasesBtn_click : handler := fun p =>
  let p := set_text caseList "Loading..." p in
  callApi "/cases" no_options
    (fun settled => exec
       (try_catch
          (res <- lift settled ;;
           act (set_textContent caseList (pretty res)) ;;
           act (fun p => emit InstallListClick (write_list_click true p)))
          (fun err =>
             b <- lift (get err "body") ;;
             act (set_textContent caseList (pretty b)))))
    p.

(** [caseList.onclick], once installed. *)
Definition caseList_click : handler := fun p =>
  if negb (list_click p) then Done p
  else
    let text := content p caseList in
    match match_case_id text with
    | None => Done p
    | Some case_id =>
        callApi ("/cases/" ++ case_id) no_options
          (fun settled => exec
             (details <- lift settled ;;
              act (set_textContent caseDetails (pretty details))))
          p
    end.

End WithPlatform.
End Console2.

(** ** The script with file ingest, Explain, MITRE and report export *)

Module Console3.
Section WithPlatform.
Context `{Platform}.

(** [catch (err)] of every guarded handler of this script. *)
Definition render_error (status result : elem) (err : value) : M unit :=
  st <- lift (get err "status") ;;
  act (set_text status ("Error: " ++ ToString (coalesce st (VStr "?")))) ;;
  b <- lift (get err "body") ;;
  act (set_textContent result (pretty (coalesce b err))).

Definition ingestBtn_click : handler := fun p =>
  let text := trim (content p ingestText) in
  let metadataRaw := trim (content p ingestMetadata) in
  let status := ingestStatus in
  let result := ingestResult in
  if negb (nonempty text) then Done (set_text status "Enter text." p)
  else
    match (if nonempty metadataRaw then JSON_parse metadataRaw
           else Some (VObj [("source", VStr "ui")])) with
    | None => Done (set_text status "Invalid metadata JSON." p)
    | Some metadata =>
        let p := set_disabled ingestBtn true p in
        let p := set_text status "Ingesting..." p in
        let p := set_text result "{}" p in
        let body := VObj [("text", VStr text); ("metadata", metadata)] in
        callApi "/ingest" (post (JsonText body))
          (fun settled => exec
             (try_finally
                (try_catch
                   (res <- lift settled ;;
                    act (set_text status "Ingest OK.") ;;
                    act (set_textContent result (pretty res)) ;;
                    remember_case_id res)
                   (render_error status result))
                (act (set_disabled ingestBtn false))))
          p
    end.

Definition ingestClearBtn_click : handler := fun p =>
  let p := set_text ingestText "" p in
  let p := set_text ingestMetadata "" p in
  let p := set_text ingestStatus "" p in
  Done (set_text ingestResult "{}" p).

Definition ingestFileBtn_click : handler := fun p =>
  let file := hd_error (ingestFile p) in
  let p := set_text ingestFileStatus "" p in
  let p := set_text ingestFileResult "{}" p in
  match file with
  | None => Done (set_text ingestFileStatus "Choose a file first." p)
  | Some f =>
      let form := FormData "file" f in
      let p := set_disabled ingestFileBtn true p in
      let p := set_text ingestFileStatus "Uploading & ingesting file..." p in
      let r := {| url := baseUrl ++ "/ingest_file"; method := "POST";
                  headers := []; body := Some form |} in
      AwaitFetch (emit (Fetch r) p) r
        (fun ans => exec
           (try_finally
              (try_catch
                 (data <- match ans with
                          | NetworkError => throw TypeError
                          | Response status text =>
                              let data := decode text in
                              if negb (ok status)
                              then throw (ApiError status data)
                              else ret data
                          end ;;
                  act (set_text ingestFileStatus "File ingest OK.") ;;
                  act (set_textContent ingestFileResult (pretty data)) ;;
                  remember_case_id data)
                 (render_error ingestFileStatus ingestFileResult))
              (act (set_disabled ingestFileBtn false))))
  end.

Definition searchBtn_click : handler := fun p =>
  let query := trim (content p searchQuery) in
  let top_k :=
    parseInt (if nonempty (content p searchTopK) then content p searchTopK else "5")
             (Some 10%Z) in
  let include_metadata := searchIncludeMeta p in
  let status := searchStatus in
  let result := searchResult in
  let case_id := lastCaseId p in
  if negb (nonempty query) then Done (set_text status "Enter query." p)
  else if negb (truthy case_id)
  then Done (set_text status "Missing case_id: ingest first (text or file)." p)
  else
    let p := set_disabled searchBtn true p in
    let p := set_text status "Searching..." p in
    let p := set_text result "{}" p in
    let body := VObj [("case_id", case_id); ("query", VStr query);
                      ("top_k", VNum top_k);
                      ("include_metadata", VBool include_metadata)] in
    callApi "/search" (post (JsonText body))
      (fun settled => exec
         (try_finally
            (try_catch
               (res <- lift settled ;;
                act (set_text status "Search OK.") ;;
                act (set_textContent result (pretty res)))
               (render_error status result))
            (act (set_disabled searchBtn false))))
      p.

Definition searchClearBtn_click : handler := fun p =>
  let p := set_text searchQuery "" p in
  let p := set_text searchResult "{}" p in
  Done (set_text searchStatus "" p).

(** [caseListDisplay.innerHTML = s] and [caseListDisplay.textContent = s]
    both replace the children of the list. *)
Definition replace_list (s : value) (p : page) : page :=
  set_textContent caseListDisplay s (write_items [] p).

(** What [for (const c of v)] iterates. *)
Definition iterate (v : value) : list value + value :=
  match v with
  | VArr l => inl l
  | VStr s => inl (map (fun c => VStr (String c EmptyString)) (list_ascii_of_string s))
  | _ => inr TypeError
  end.

Fixpoint append_items (cs : list value) : M unit :=
  match cs with
  | [] => ret tt
  | c :: rest =>
      id <- lift (get c "case_id") ;;
      act (fun p => emit (AppendItem c) (write_items (items p ++ [c]) p)) ;;
      append_items rest
  end.

Definition loadCasesBtn_click : handler := fun p =>
  let p := replace_list (VStr "Loading...") p in
  callApi "/cases" no_options
    (fun settled => exec
       (try_catch
          (res <- lift settled ;;
           act (replace_list (VStr "")) ;;
           cases <- lift (get res "cases") ;;
           cs <- lift (iterate (or_else cases (VArr []))) ;;
           append_items cs ;;
           cases <- lift (get res "cases") ;;
           len <- (if truthy cases then lift (get cases "length") else ret VUndef) ;;
           if negb (truthy cases) || match len with VNum (Int 0) => true | _ => false end
           then act (replace_list (VStr "No cases yet. Ingest something first."))
           else ret tt)
          (fun err =>
             b <- lift (get err "body") ;;
             act (replace_list (pretty (coalesce b err))))))
    p.

(** [li.onclick] of the [i]-th listed case. *)
Definition li_click (i : nat) : handler := fun p =>
  match nth_error (items p) i with
  | None => Done p
  | Some c =>
      match get c "case_id" with
      | inr _ => Done p
      | inl id =>
          callApi ("/cases/" ++ ToString id) no_options
            (fun settled => exec
               (details <- lift settled ;;
                act (set_textContent caseDetails (pretty details))))
            p
      end
  end.

Definition explainCaseBtn_click : handler := fun p =>
  if negb (truthy (lastCaseId p))
  then Done (set_text explainStatus "No case selected." p)
  else
    let p := set_disabled explainCaseBtn true p in
    let p := set_text explainStatus "Summarizing case..." p in
    let p := set_text explainResult "{}" p in
    callApi "/explain_case" (post (JsonText (VObj [("case_id", lastCaseId p)])))
      (fun settled => exec
         (try_finally
            (try_catch
               (res <- lift settled ;;
                act (set_text explainStatus "AI summary ready.") ;;
                summary <- lift (get res "summary") ;;
                act (set_textContent explainResult
                       (if truthy summary then summary else pretty res)))
               (render_error explainStatus explainResult))
            (act (set_disabled explainCaseBtn false))))
      p.

(** [!text || text === "{}"]. *)
Definition nothing_to_export (text : string) : bool :=
  negb (nonempty text) || (text =? "{}").

Definition copyExplainBtn_click : handler := fun p =>
  let text := trim (content p explainResult) in
  if nothing_to_export text
  then Done (set_text explainStatus "Nothing to copy yet. Run Explain Case first." p)
  else if has_clipboard p
  then AwaitClipboard (emit (ClipboardWrite text) p) text
         (fun written p =>
            if written then set_text explainStatus "Report copied to clipboard." p
            else emit ConsoleError (set_text explainStatus "Copy failed." p))
  else
    let p := emit ExecCopy p in
    match execCommand_copy p with
    | Some copied =>
        Done (set_text explainStatus
                (if copied then "Report copied to clipboard." else "Copy failed.") p)
    | None => Done (emit ConsoleError (set_text explainStatus "Copy failed." p))
    end.

Definition downloadExplainBtn_click : handler := fun p =>
  let text := trim (content p explainResult) in
  if nothing_to_export text
  then Done (set_text explainStatus
               "Nothing to download yet. Run Explain Case first." p)
  else
    let caseIdForName :=
      match lastCaseId p with
      | VStr s => if nonempty s then s else "unknown_case"
      | _ => "unknown_case"
      end in
    let filename := "dfir_report_" ++ caseIdForName ++ ".md" in
    let p := emit (Download filename text) p in
    Done (set_text explainStatus ("Report downloaded as " ++ filename ++ ".") p).

Definition mitreExtractBtn_click : handler := fun p =>
  let summary := trim (content p explainResult) in
  if negb (truthy (lastCaseId p))
  then Done (set_text mitreStatus "No case selected." p)
  else if nothing_to_export summary
  then Done (set_text mitreStatus "No summary yet. Run Explain Case first." p)
  else
    let p := set_disabled mitreExtractBtn true p in
    let p := set_text mitreStatus "Extracting MITRE techniques..." p in
    let p := set_text mitreResult "{}" p in
    let body := VObj [("case_id", lastCaseId p); ("summary", VStr summary)] in
    callApi "/mitre_tags" (post (JsonText body))
      (fun settled => exec
         (try_finally
            (try_catch
               (res <- lift settled ;;
                act (set_text mitreStatus "MITRE extraction OK.") ;;
                tags <- lift (get res "tags") ;;
                act (set_textContent mitreResult
                       (if truthy tags then pretty tags else pretty res)))
               (render_error mitreStatus mitreResult))
            (act (set_disabled mitreExtractBtn false))))
      p.

End WithPlatform.
End Console3.

(** ** The script with the optional [caseId] input field *)

Module Console4.
Section WithPlatform.
Context `{Platform}.

Definition render_error (status result : elem) (err : value) : M unit :=
  st <- lift (get err "status") ;;
  act (set_text status ("Error: " ++ ToString (coalesce st (VStr "?")))) ;;
  b <- lift (get err "body") ;;
  act (set_textContent result (pretty b)).

(** The [if (res && res.case_id)] block of this script, which also fills
    the input field when the page has one. *)
Definition remember_and_show (res : value) : M unit :=
  c <- and_get res "case_id" ;;
  if truthy c
  then (c' <- lift (get res "case_id") ;;
        act (write_lastCaseId c') ;;
        caseInput <- read has_caseId ;;
        if (caseInput : bool)
        then (c'' <- lift (get res "case_id") ;; act (set_value caseId c''))
        else ret tt)
  else ret tt.

Definition ingestBtn_click : handler := fun p =>
  let text := trim (content p ingestText) in
  let metadataRaw := trim (content p ingestMetadata) in
  let status := ingestStatus in
  let result := ingestResult in
  if negb (nonempty text) then Done (set_text status "Enter text." p)
  else
    match (if nonempty metadataRaw then JSON_parse metadataRaw
           else Some (VObj [("source", VStr "ui")])) with
    | None => Done (set_text status "Invalid metadata JSON." p)
    | Some metadata =>
        let p := set_disabled ingestBtn true p in
        let p := set_text status "Ingesting..." p in
        let p := set_text result "{}" p in
        let body := VObj (("text", VStr text)
                          :: if truthy metadata then [("metadata", metadata)] else []) in
        callApi "/ingest" (post (JsonText body))
          (fun settled => exec
             (try_finally
                (try_catch
                   (res <- lift settled ;;
                    act (set_text status "Ingest OK.") ;;
                    act (set_textContent result (pretty res)) ;;
                    remember_and_show res)
                   (render_error status result))
                (act (set_disabled ingestBtn false))))
          p
    end.

Definition ingestClearBtn_click : handler := fun p =>
  let p := set_text ingestText "" p in
  let p := set_text ingestMetadata "" p in
  let p := set_text ingestStatus "" p in
  Done (set_text ingestResult "{}" p).

(** [(caseInput && caseInput.value.trim()) || lastCaseId]. *)
Definition search_case_id (p : page) : value :=
  or_else (if has_caseId p then VStr (trim (content p caseId)) else VNull)
          (lastCaseId p).

Definition searchBtn_click : handler := fun p =>
  let query := trim (content p searchQuery) in
  let top_k :=
    parseInt (if nonempty (content p searchTopK) then content p searchTopK else "5")
             (Some 10%Z) in
  let include_metadata := searchIncludeMeta p in
  let status := searchStatus in
  let result := searchResult in
  let case_id := search_case_id p in
  if negb (nonempty query) then Done (set_text status "Enter query." p)
  else if negb (truthy case_id)
  then Done (set_text status
               "Missing case_id: ingest text first or enter a case id." p)
  else
    let p := set_disabled searchBtn true p in
    let p := set_text status "Searching..." p in
    let p := set_text result "{}" p in
    let body := VObj [("case_id", case_id); ("query", VStr query);
                      ("top_k", VNum top_k);
                      ("include_metadata", VBool include_metadata)] in
    callApi "/search" (post (JsonText body))
      (fun settled => exec
         (try_finally
            (try_catch
               (res <- lift settled ;;
                act (set_text status "Search OK.") ;;
                act (set_textContent result (pretty res)))
               (render_error status result))
            (act (set_disabled searchBtn false))))
      p.

Definition searchClearBtn_click : handler := fun p =>
  let p := set_text searchQuery "" p in
  let p := set_text searchResult "{}" p in
  Done (set_text searchStatus "" p).

End WithPlatform.
End Console4.

(** ** A reference platform, to run the scripts on concrete inputs

    [JSON.stringify] and [JSON.parse] written out for the values of the
    model.  The parser covers JSON whose numbers are integers and whose
    strings stay below code unit 256; the examples use nothing else. *)

Module Reference.

Definition nl : string := String (ascii_of_nat 10) EmptyString.
Definition quote : string := String (ascii_of_nat 34) EmptyString.
Definition backslash : string := String (ascii_of_nat 92) EmptyString.

Definition hex_digit (n : nat) : string :=
  String (ascii_of_nat (if (n <? 10)%nat then 48 + n else 87 + n)) EmptyString.

Definition escape (c : ascii) : string :=
  let n := nat_of_ascii c in
  if (n =? 8)%nat then backslash ++ "b"
  else if (n =? 9)%nat then backslash ++ "t"
  else if (n =? 10)%nat then backslash ++ "n"
  else if (n =? 12)%nat then backslash ++ "f"
  else if (n =? 13)%nat then backslash ++ "r"
  else if (n =? 34)%nat then backslash ++ quote
  else if (n =? 92)%nat then backslash ++ backslash
  else if (n <? 32)%nat
  then backslash ++ "u00" ++ hex_digit (n / 16) ++ hex_digit (n mod 16)
  else String c EmptyString.

Fixpoint escape_all (s : string) : string :=
  match s with
  | EmptyString => EmptyString
  | String c rest => escape c ++ escape_all rest
  end.

Definition QuoteJSONString (s : string) : string := quote ++ escape_all s ++ quote.

Definition wrap (gap indent inner opening closing : string) (parts : list string)
  : string :=
  match parts with
  | [] => opening ++ closing
  | _ =>
      if gap =? "" then opening ++ join "," parts ++ closing
      else opening ++ nl ++ inner ++ join ("," ++ nl ++ inner) parts
           ++ nl ++ indent ++ closing
  end.

Fixpoint serialize (gap indent : string) (v : value) : option string :=
  match v with
  | VUndef => None
  | VNull => Some "null"
  | VBool true => Some "true"
  | VBool false => Some "false"
  | VNum NaN | VNum (Infinity _) => Some "null"
  | VNum (Int z) => Some (decimal z)
  | VStr s => Some (QuoteJSONString s)
  | VArr items =>
      let inner := indent ++ gap in
      Some (wrap gap indent inner "[" "]"
              (map (fun x => match serialize gap inner x with
                             | Some s => s
                             | None => "null"
                             end) items))
  | VObj fields =>
      let inner := indent ++ gap in
      Some (wrap gap indent inner "{" "}"
              (flat_map (fun kv => match serialize gap inner (snd kv) with
                                   | Some s =>
                                       [QuoteJSONString (fst kv)
                                        ++ (if gap =? "" then ":" else ": ") ++ s]
                                   | None => []
                                   end) fields))
  | VError _ => Some "{}"
  end.

Fixpoint spaces (n : nat) : string :=
  match n with
  | O => EmptyString
  | S n' => String " "%char (spaces n')
  end.

Definition stringify (v : value) (indent : nat) : option string :=
  serialize (spaces (Nat.min indent 10)) EmptyString v.

(** Parsing. *)
Definition is_json_space (c : ascii) : bool :=
  let n := nat_of_ascii c in
  ((n =? 32) || (n =? 9) || (n =? 10) || (n =? 13))%nat.

Fixpoint skip_ws (s : string) : string :=
  match s with
  | String c rest => if is_json_space c then skip_ws rest else s
  | EmptyString => EmptyString
  end.

Definition is_digit (c : ascii) : bool :=
  let n := nat_of_ascii c in ((48 <=? n) && (n <=? 57))%nat.

Fixpoint span_digits (s : string) : string * string :=
  match s with
  | String c rest =>
      if is_digit c
      then let '(ds, tail) := span_digits rest in (String c ds, tail)
      else (EmptyString, s)
  | EmptyString => (EmptyString, EmptyString)
  end.

Definition digits_value (ds : string) : Z :=
  match digits 10 ds None with Some z => z | None => 0%Z end.

(** An integer literal; a fraction or an exponent is outside the fragment. *)
Definition parse_number (s : string) : option (value * string) :=
  let '(sign, s1) := match s with
                     | String "-"%char rest => ((-1)%Z, rest)
                     | _ => (1%Z, s)
                     end in
  let '(ds, tail) := span_digits s1 in
  let well_formed :=
    match ds with
    | EmptyString => false
    | String "0"%char (String _ _) => false
    | _ => true
    end in
  let continues :=
    match tail with
    | String c _ => (Ascii.eqb c "."%char || Ascii.eqb c "e"%char || Ascii.eqb c "E"%char)
    | EmptyString => false
    end in
  if well_formed && negb continues
  then Some (VNum (Int (sign * digits_value ds)), tail)
  else None.

Definition unescape (c : ascii) : option ascii :=
  let n := nat_of_ascii c in
  if (n =? 34)%nat then Some c
  else if (n =? 92)%nat then Some c
  else if (n =? 47)%nat then Some c
  else if (n =? 98)%nat then Some (ascii_of_nat 8)
  else if (n =? 102)%nat then Some (ascii_of_nat 12)
  else if (n =? 110)%nat then Some (ascii_of_nat 10)
  else if (n =? 114)%nat then Some (ascii_of_nat 13)
  else if (n =? 116)%nat then Some (ascii_of_nat 9)
  else None.

(** The characters of a string literal after its opening quote. *)
Fixpoint parse_chars (s : string) : option (string * string) :=
  match s with
  | EmptyString => None
  | String c rest =>
      let n := nat_of_ascii c in
      if (n =? 34)%nat then Some (EmptyString, rest)
      else if (n <? 32)%nat then None
      else if (n =? 92)%nat then
        match rest with
        | String e rest' =>
            match unescape e, parse_chars rest' with
            | Some c', Some (str, tail) => Some (String c' str, tail)
            | _, _ => None
            end
        | EmptyString => None
        end
      else
        match parse_chars rest with
        | Some (str, tail) => Some (String c str, tail)
        | None => None
        end
  end.

Definition is_array_index (k : string) : bool :=
  match k with
  | EmptyString => false
  | String "0"%char (String _ _) => false
  | _ =>
      let '(ds, tail) := span_digits k in
      (tail =? "") && (digits_value ds <? 4294967295)%Z
  end.

(** Where a new own property goes: array indices first, ascending, then the
    other keys in the order they were created. *)
Fixpoint place (k : string) (v : value) (fields : list (string * value))
  : list (string * value) :=
  match fields with
  | [] => [(k, v)]
  | (k', v') :: rest =>
      if is_array_index k
         && (negb (is_array_index k') || (digits_value k <? digits_value k')%Z)
      then (k, v) :: fields
      else (k', v') :: place k v rest
  end.

Fixpoint replace (k : string) (v : value) (fields : list (string * value))
  : option (list (string * value)) :=
  match fields with
  | [] => None
  | (k', v') :: rest =>
      if k' =? k then Some ((k', v) :: rest)
      else match replace k v rest with
           | Some rest' => Some ((k', v') :: rest')
           | None => None
           end
  end.

Definition define (k : string) (v : value) (fields : list (string * value))
  : list (string * value) :=
  match replace k v fields with
  | Some fields' => fields'
  | None => place k v fields
  end.

Fixpoint parse_value (fuel : nat) (s : string) : option (value * string) :=
  match fuel with
  | O => None
  | S fuel' =>
      match skip_ws s with
      | EmptyString => None
      | String c rest as s' =>
          let n := nat_of_ascii c in
          if (n =? 34)%nat then
            match parse_chars rest with
            | Some (str, tail) => Some (VStr str, tail)
            | None => None
            end
          else if (n =? 91)%nat then
            match skip_ws rest with
            | String "]"%char tail => Some (VArr [], tail)
            | rest' => parse_items fuel' rest' []
            end
          else if (n =? 123)%nat then
            match skip_ws rest with
            | String "}"%char tail => Some (VObj [], tail)
            | rest' => parse_members fuel' rest' []
            end
          else
            match strip_prefix "null" s', strip_prefix "true" s',
                  strip_prefix "false" s' with
            | Some tail, _, _ => Some (VNull, tail)
            | _, Some tail, _ => Some (VBool true, tail)
            | _, _, Some tail => Some (VBool false, tail)
            | _, _, _ => parse_number s'
            end
      end
  end
with parse_items (fuel : nat) (s : string) (acc : list value)
  : option (value * string) :=
  match fuel with
  | O => None
  | S fuel' =>
      match parse_value fuel' s with
      | None => None
      | Some (v, tail) =>
          match skip_ws tail with
          | String ","%char tail' => parse_items fuel' tail' (acc ++ [v])
          | String "]"%char tail' => Some (VArr (acc ++ [v]), tail')
          | _ => None
          end
      end
  end
with parse_members (fuel : nat) (s : string) (acc : list (string * value))
  : option (value * string) :=
  match fuel with
  | O => None
  | S fuel' =>
      match skip_ws s with
      | String c rest =>
          if (nat_of_ascii c =? 34)%nat then
            match parse_chars rest with
            | None => None
            | Some (k, tail) =>
                match skip_ws tail with
                | String ":"%char tail' =>
                    match parse_value fuel' tail' with
                    | None => None
                    | Some (v, tail'') =>
                        match skip_ws tail'' with
                        | String ","%char more =>
                            parse_members fuel' more (define k v acc)
                        | String "}"%char more => Some (VObj (define k v acc), more)
                        | _ => None
                        end
                    end
                | _ => None
                end
            end
          else None
      | EmptyString => None
      end
  end.

Definition parse (s : string) : option value :=
  match parse_value (2 * String.length s + 2) s with
  | Some (v, tail) => if skip_ws tail =? "" then Some v else None
  | None => None
  end.

#[export] Instance platform : Platform :=
  {| JSON_parse := parse; JSON_stringify := stringify |}.

End Reference.

(** ** A session: clicks, user edits and answers in any interleaving *)

Module Session.

(** What the user does to the page between clicks. *)
Inductive edit :=
| TypeInto (e : elem) (s : string)
| Tick (v : bool)
| Choose (files : list file).

Definition apply_edit (u : edit) (p : page) : page :=
  match u with
  | TypeInto e s => write_text e s p
  | Tick v => write_checked v p
  | Choose files => write_files files p
  end.

Inductive answer :=
| FetchAnswer (ans : fetch_result)
| ClipboardAnswer (written : bool).

Definition resume (c : proc) (a : answer) (p : page) : option page :=
  match c, a with
  | AwaitFetch _ _ k, FetchAnswer ans => Some (k ans p)
  | AwaitClipboard _ _ k, ClipboardAnswer written => Some (k written p)
  | _, _ => None
  end.

Definition suspended (c : proc) : bool :=
  match c with
  | Done _ => false
  | _ => true
  end.

Section Machine.
Context `{Platform}.
Variable op : Type.
Variable script : op -> handler.
(** The button whose [disabled] flag keeps the click from being delivered. *)
Variable trigger : op -> option button.
Variable is_ingest : op -> bool.

Record world := { pg : page; pending : list (op * proc) }.

Inductive label :=
| Edit (u : edit)
| Click (o : op)
| Settle (o : op) (a : answer).

Inductive step : world -> label -> world -> Prop :=
| step_edit u w :
    step w (Edit u) {| pg := apply_edit u (pg w); pending := pending w |}
| step_click o w :
    (forall b, trigger o = Some b -> disabled (pg w) b = false) ->
    step w (Click o)
         {| pg := page_of (script o (pg w));
            pending := if suspended (script o (pg w))
                       then pending w ++ [(o, script o (pg w))]
                       else pending w |}
| step_settle o c a before after w p' :
    pending w = (before ++ (o, c) :: after)%list ->
    resume c a (pg w) = Some p' ->
    step w (Settle o a) {| pg := p'; pending := (before ++ after)%list |}.

Inductive steps : world -> list label -> world -> Prop :=
| steps_nil w : steps w [] w
| steps_cons w l w' ls w'' :
    step w l w' -> steps w' ls w'' -> steps w (l :: ls) w''.

(** Every suspended handler of the world was started by its script. *)
Definition started (w : world) : Prop :=
  Forall (fun oc => exists p, script (fst oc) p = snd oc) (pending w).

(** The value of [res && res.case_id]. *)
Definition returned_case_id (res : value) : value :=
  if truthy res
  then match get res "case_id" with inl c => c | inr _ => VUndef end
  else res.

(** The case identifier after an ingest has settled with [ans]: the one
    returned, when the response is in 200..299 and carries a truthy one. *)
Definition case_id_after (ans : fetch_result) (old : value) : value :=
  match ans with
  | Response status text =>
      if ok status && truthy (returned_case_id (decode text))
      then returned_case_id (decode text)
      else old
  | NetworkError => old
  end.

(** The case identifier a session should hold after one more step. *)
Definition stored_after (l : label) (old : value) : value :=
  match l with
  | Settle o (FetchAnswer ans) =>
      if is_ingest o then case_id_after ans old else old
  | _ => old
  end.

Fixpoint stored (ls : list label) (old : value) : value :=
  match ls with
  | [] => old
  | l :: rest => stored rest (stored_after l old)
  end.

End Machine.

Section Scripts.
Context `{Platform}.

Inductive op2 :=
| Ingest2 | IngestClear2 | Search2 | SearchClear2 | LoadCases2 | ListClick2.

Definition script2 (o : op2) : handler :=
  match o with
  | Ingest2 => Console2.ingestBtn_click
  | IngestClear2 => Console2.ingestClearBtn_click
  | Search2 => Console2.searchBtn_click
  | SearchClear2 => Console2.searchClearBtn_click
  | LoadCases2 => Console2.loadCasesBtn_click
  | ListClick2 => Console2.caseList_click
  end.

Definition trigger2 (o : op2) : option button :=
  match o with
  | Ingest2 => Some ingestBtn
  | Search2 => Some searchBtn
  | _ => None
  end.

Definition is_ingest2 (o : op2) : bool :=
  match o with Ingest2 => true | _ => false end.

Inductive op3 :=
| Ingest3 | IngestClear3 | IngestFile3 | Search3 | SearchClear3
| LoadCases3 | ListItem3 (i : nat)
| Explain3 | Copy3 | Download3 | Mitre3.

Definition script3 (o : op3) : handler :=
  match o with
  | Ingest3 => Console3.ingestBtn_click
  | IngestClear3 => Console3.ingestClearBtn_click
  | IngestFile3 => Console3.ingestFileBtn_click
  | Search3 => Console3.searchBtn_click
  | SearchClear3 => Console3.searchClearBtn_click
  | LoadCases3 => Console3.loadCasesBtn_click
  | ListItem3 i => Console3.li_click i
  | Explain3 => Console3.explainCaseBtn_click
  | Copy3 => Console3.copyExplainBtn_click
  | Download3 => Console3.downloadExplainBtn_click
  | Mitre3 => Console3.mitreExtractBtn_click
  end.

Definition trigger3 (o : op3) : option button :=
  match o with
  | Ingest3 => Some ingestBtn
  | IngestFile3 => Some ingestFileBtn
  | Search3 => Some searchBtn
  | Explain3 => Some explainCaseBtn
  | Mitre3 => Some mitreExtractBtn
  | _ => None
  end.

Definition is_ingest3 (o : op3) : bool :=
  match o with Ingest3 | IngestFile3 => true | _ => false end.

Inductive op4 := Ingest4 | IngestClear4 | Search4 | SearchClear4.

Definition script4 (o : op4) : handler :=
  match o with
  | Ingest4 => Console4.ingestBtn_click
  | IngestClear4 => Console4.ingestClearBtn_click
  | Search4 => Console4.searchBtn_click
  | SearchClear4 => Console4.searchClearBtn_click
  end.

Definition trigger4 (o : op4) : option button :=
  match o with
  | Ingest4 => Some ingestBtn
  | Search4 => Some searchBtn
  | _ => None
  end.

Definition is_ingest4 (o : op4) : bool :=
  match o with Ingest4 => true | _ => false end.

End Scripts.

Arguments pg {op} w.
Arguments pending {op} w.
Arguments Build_world {op} pg pending.
Arguments Edit {op} u.
Arguments Click {op} o.
Arguments Settle {op} o a.
Arguments step {op} script trigger _ _ _.
Arguments steps {op} script trigger _ _ _.
Arguments started {op} script w.
Arguments stored_after {H op} is_ingest l old.
Arguments stored {H op} is_ingest ls old.

End Session.

(** ** Concrete pages and answers for the examples *)

Module Examples.
Import Reference.

(** A freshly loaded page: empty inputs, nothing disabled, no case yet. *)
Definition blank : page :=
  {| content := fun _ => EmptyString;
     disabled := fun _ => false;
     searchIncludeMeta := false;
     ingestFile := [];
     has_caseId := true;
     value_kept := fun _ => strip_newlines;
     has_clipboard := true;
     execCommand_copy := Some true;
     items := [];
     list_click := false;
     lastCaseId := VStr "";
     log := [] |}.

(** The user types [s] into [e]. *)
Definition typed (e : elem) (s : string) (p : page) : page := write_text e s p.

(** A page on which an earlier ingest stored [c]. *)
Definition with_case (c : value) (p : page) : page := write_lastCaseId c p.

(** The compact JSON text of [v], as a server would send it. *)
Definition json (v : value) : string :=
  match stringify v 0 with
  | Some s => s
  | None => EmptyString
  end.

(** A session of the third script: an ingest that returns [c-123], then a
    search and an Explain in flight together, the Explain failing, and a
    second ingest that loses the network. *)
Definition idle : Session.world Session.op3 :=
  {| Session.pg := blank; Session.pending := [] |}.

Definition session : list (Session.label Session.op3) :=
  [ Session.Edit (Session.TypeInto ingestText "evidence log");
    Session.Click Session.Ingest3;
    Session.Settle Session.Ingest3
      (Session.FetchAnswer (Response 200 (json (VObj [("case_id", VStr "c-123")]))));
    Session.Edit (Session.TypeInto searchQuery "beacon");
    Session.Click Session.Search3;
    Session.Click Session.Explain3;
    Session.Settle Session.Explain3
      (Session.FetchAnswer (Response 500 "backend down"));
    Session.Settle Session.Search3 (Session.FetchAnswer (Response 200 "[]"));
    Session.Click Session.Ingest3;
    Session.Settle Session.Ingest3 (Session.FetchAnswer NetworkError) ].

End Examples.
Import Examples.

(** ** Vocabulary of the properties *)

Module Contract.

Definition is_set_text (ev : event) : bool :=
  match ev with SetText _ _ => true | _ => false end.

(** A statement that only renders: every event it records is a text
    assignment and it leaves the [disabled] flags alone. *)
Definition quiet {A} (m : M A) : Prop :=
  forall p,
    (exists evs, log (snd (m p)) = (log p ++ evs)%list
                 /\ forallb is_set_text evs = true)
    /\ (forall b, disabled (snd (m p)) b = disabled p b).

(** A statement that leaves the stored case identifier alone. *)
Definition keeps {A} (m : M A) : Prop :=
  forall p, lastCaseId (snd (m p)) = lastCaseId p.

(** What [searchBtn] computes for [top_k] from the field's value. *)
Definition top_k_of (field : string) (radix : option Z) : number :=
  parseInt (if nonempty field then field else "5") radix.

(** The integer a string of decimal digits denotes. *)
Definition decimal_value (ds : string) : Z :=
  fold_left (fun acc c => (acc * 10 + (Z.of_nat (nat_of_ascii c) - 48))%Z)
            (list_ascii_of_string ds) 0%Z.

Definition all_digits (ds : string) : bool :=
  forallb Reference.is_digit (list_ascii_of_string ds).

Section WithPlatform.
Context `{Platform}.

(** When the inputs of a click pass the handler's own checks. *)
Definition metadata_ok (p : page) : bool :=
  negb (nonempty (trim (content p ingestMetadata)))
  || match JSON_parse (trim (content p ingestMetadata)) with
     | Some _ => true
     | None => false
     end.

Definition ingest_valid (p : page) : bool :=
  nonempty (trim (content p ingestText)) && metadata_ok p.

Definition query_given (p : page) : bool :=
  nonempty (trim (content p searchQuery)).

Definition file_chosen (p : page) : bool :=
  match ingestFile p with
  | [] => false
  | _ :: _ => true
  end.

Definition summary_shown (p : page) : bool :=
  negb (Console3.nothing_to_export (trim (content p explainResult))).

(** How a script's [catch] renders: what follows [Error: ] when the error
    has no status, and what it pretty-prints for an API error with this
    status and body, and for an error without a body. *)
Record style := {
  no_status : string;
  api_error_shown : Z -> value -> value;
  other_error_shown : value
}.

(** [rag_console.js]: [err.status] and [err.body] as they are. *)
Definition style1 : style :=
  {| no_status := "undefined";
     api_error_shown := fun _ data => data;
     other_error_shown := VUndef |}.

(** [err.status ?? "?"] and [err.body]. *)
Definition style2 : style :=
  {| no_status := "?";
     api_error_shown := fun _ data => data;
     other_error_shown := VUndef |}.

(** [err.status ?? "?"] and [err.body ?? err]. *)
Definition style3 : style :=
  {| no_status := "?";
     api_error_shown := fun code data => coalesce data (ApiError code data);
     other_error_shown := TypeError |}.

(** What a handler puts into its result region for the decoded value of a
    response in 200..299 ([None]: reading the value throws before anything
    is put there): the whole value pretty-printed, or a field of it when
    that is truthy. *)
Definition whole (res : value) : option value := Some (pretty res).

Definition summary_or_whole (res : value) : option value :=
  match get res "summary" with
  | inl summary => Some (if truthy summary then summary else pretty res)
  | inr _ => None
  end.

Definition tags_or_whole (res : value) : option value :=
  match get res "tags" with
  | inl tags => Some (if truthy tags then pretty tags else pretty res)
  | inr _ => None
  end.

(** What a handler assigns after the result: nothing, or in the fourth
    script the identifier an ingest returned, to the [caseId] field. *)
Definition nothing_else (res : value) (q : page) : list event := [].

Definition case_id_shown (res : value) (q : page) : list event :=
  if truthy (Session.returned_case_id res) && has_caseId q
  then [SetText caseId
          (value_kept q caseId (value_text (Session.returned_case_id res)))]
  else [].

(** One click of a guarded control on page [p].  When the inputs are not
    [valid] it ends at once with status messages only.  When they are, it
    disables [trigger], issues one request and, whatever the answer and
    whatever happened to the page meanwhile, renders and then enables
    [trigger] again.  After a response in 200..299 it sets the [success]
    message, then the result region to what [shown] gives for the decoded
    value, then what [also] lists; after one outside it sets [Error: status]
    and the pretty-printed body; after a lost connection, or when reading
    the decoded value throws, the error without a status. *)
Definition sequential (h : handler) (trigger : button) (status result : elem)
    (success : string) (shown : value -> option value)
    (also : value -> page -> list event)
    (st : style) (valid : bool) (p : page) : Prop :=
  if valid then
    exists before after r k p1,
      h p = AwaitFetch p1 r k /\
      forallb is_set_text before = true /\ forallb is_set_text after = true /\
      log p1 = (log p ++ before ++ [SetDisabled trigger true] ++ after
                  ++ [Fetch r])%list /\
      forall ans q,
        disabled (k ans q) trigger = false /\
        match ans with
        | Response code text =>
            if ok code then
              match shown (decode text) with
              | Some v =>
                  log (k ans q)
                  = (log q ++ SetText status success
                       :: SetText result (rendered v)
                       :: also (decode text) q
                       ++ [SetDisabled trigger false])%list
              | None =>
                  log (k ans q)
                  = (log q ++ [SetText status success;
                               SetText status ("Error: " ++ no_status st);
                               SetText result
                                 (rendered (pretty (other_error_shown st)));
                               SetDisabled trigger false])%list
              end
            else
              log (k ans q)
              = (log q ++ [SetText status ("Error: " ++ decimal code);
                           SetText result
                             (rendered (pretty (api_error_shown st code
                                                  (decode text))));
                           SetDisabled trigger false])%list
        | NetworkError =>
            log (k ans q)
            = (log q ++ [SetText status ("Error: " ++ no_status st);
                         SetText result
                           (rendered (pretty (other_error_shown st)));
                         SetDisabled trigger false])%list
        end
  else
    exists p' msgs,
      h p = Done p' /\ log p' = (log p ++ msgs)%list
      /\ forallb is_set_text msgs = true.

End WithPlatform.
End Contract.
Import Contract.

(** ** Vocabulary for the rest of the scripts *)

Module Coverage.

(** A statement that leaves the observation [see] of the page alone. *)
Definition preserves {A B} (see : page -> B) (m : M A) : Prop :=
  forall p, see (snd (m p)) = see p.

(** The literal that opens a match of the case viewer's pattern: the key
    case_id in double quotes, a colon, a space and a double quote. *)
Definition opening : string :=
  Console2.dq ++ "case_id" ++ Console2.dq ++ ": " ++ Console2.dq.

Definition no_quote (s : string) : bool :=
  forallb (fun c => negb (Ascii.eqb c (ascii_of_nat 34))) (list_ascii_of_string s).

(** Every element of a case list can be read for its [case_id]. *)
Definition listable (cs : list value) : bool :=
  forallb (fun c => negb (nullish c)) cs.

(** Does a click on [b] start the operation whose button is [trig]. *)
Definition pulls (trig : option button) (b : button) : bool :=
  match trig with
  | Some t => button_beq b t
  | None => false
  end.

(** How many suspended handlers of a world were started by button [b]. *)
Definition in_flight {op} (trigger : op -> option button) (b : button)
    (waiting : list (op * proc)) : nat :=
  length (filter (fun oc => pulls (trigger (fst oc)) b) waiting).

(** How a handler treats the [disabled] flags: one that ends at once leaves
    them alone; one that awaits a response has disabled its own button, if
    it has one, and enables it when it resumes; one that awaits the
    clipboard has no button of its own and touches none. *)
Definition guards (h : handler) (trig : option button) : Prop :=
  forall p,
    match h p with
    | Done p' => forall b, disabled p' b = disabled p b
    | AwaitFetch p1 _ k =>
        (forall b, disabled p1 b = pulls trig b || disabled p b) /\
        (forall ans q b,
           disabled (k ans q) b = negb (pulls trig b) && disabled q b)
    | AwaitClipboard p1 _ k =>
        trig = None /\
        (forall b, disabled p1 b = disabled p b) /\
        (forall (written : bool) q b, disabled (k written q) b = disabled q b)
    end.

(** A button is disabled exactly while one handler it started is
    suspended, and never more than one is. *)
Definition one_at_a_time {op} (trigger : op -> option button)
    (w : Session.world op) : Prop :=
  forall b,
    in_flight trigger b (Session.pending w)
    = if disabled (Session.pg w) b then 1%nat else 0%nat.

Section Scripts.
Context `{Platform}.

Inductive op1 := Ingest1 | IngestClear1 | Search1 | SearchClear1.

Definition script1 (o : op1) : handler :=
  match o with
  | Ingest1 => RagConsole.ingestBtn_click
  | IngestClear1 => RagConsole.ingestClearBtn_click
  | Search1 => RagConsole.searchBtn_click
  | SearchClear1 => RagConsole.searchClearBtn_click
  end.

Definition trigger1 (o : op1) : option button :=
  match o with
  | Ingest1 => Some ingestBtn
  | Search1 => Some searchBtn
  | _ => None
  end.

End Scripts.

End Coverage.
Import Coverage.

#[local] Existing Instance Reference.platform.

(** * Properties *)

(** ** Bookkeeping on pages and logs *)

Lemma fetches_app (l1 l2 : list event) :
  fetches (l1 ++ l2) = (fetches l1 ++ fetches l2)%list.
Proof. apply filter_app. Qed.

Lemma fetches_set_text (e : elem) (s : string) (p : page) :
  fetches (log (set_text e s p)) = fetches (log p).
Proof.
  unfold set_text, emit; simpl. rewrite fetches_app; simpl. apply app_nil_r.
Qed.

(** ** The platform functions on small inputs *)

Example parseInt_plain : parseInt "12" (Some 10%Z) = Int 12.
Proof. reflexivity. Qed.

Example parseInt_prefix : parseInt " -7px" (Some 10%Z) = Int (-7).
Proof. reflexivity. Qed.

Example parseInt_hex_without_radix : parseInt "0x1f" None = Int 31.
Proof. reflexivity. Qed.

Example parseInt_hex_radix_10 : parseInt "0x1f" (Some 10%Z) = Int 0.
Proof. reflexivity. Qed.

Example parseInt_fraction : parseInt ".5" (Some 10%Z) = NaN.
Proof. reflexivity. Qed.

Example parseInt_beyond_2_53 :
  parseInt "9007199254740993" (Some 10%Z) = Int 9007199254740992 /\
  parseInt "9007199254740995" (Some 10%Z) = Int 9007199254740996 /\
  parseInt "-18014398509481987" (Some 10%Z) = Int (-18014398509481988) /\
  to_number (2 ^ 1024 - 2 ^ 970 - 1) = Int (2 ^ 1024 - 2 ^ 971) /\
  to_number (2 ^ 1024 - 2 ^ 970) = Infinity false /\
  to_number (- 2 ^ 1024) = Infinity true.
Proof. repeat split; vm_compute; reflexivity. Qed.

Example trim_both_ends : trim "  a b  " = "a b".
Proof. reflexivity. Qed.

Example parse_after_stringify :
  JSON_parse (json (VObj [("case_id", VStr "c-123"); ("chunks", VNum (Int 4));
                          ("tags", VArr [VNull; VBool true])]))
  = Some (VObj [("case_id", VStr "c-123"); ("chunks", VNum (Int 4));
                ("tags", VArr [VNull; VBool true])]).
Proof. reflexivity. Qed.

Example parse_rejects_blank : JSON_parse " " = None.
Proof. reflexivity. Qed.

Example match_case_id_first :
  Console2.match_case_id
    (rendered (pretty (VObj [("cases", VArr [VObj [("case_id", VStr "a1")];
                                            VObj [("case_id", VStr "b2")]])])))
  = Some "a1".
Proof. reflexivity. Qed.

(** ** [callApi] *)

(** C2: [callApi] issues one request to [baseUrl + path]; once the body text
    has arrived it decodes it as JSON, keeping the raw text when that fails;
    outside the success range 200..299 it throws an error object carrying
    the status code and the decoded-or-raw body, and otherwise it returns the
    decoded value. *)
Theorem callApi_contract `{Platform} (path : string) (o : options)
    (k : value + value -> page -> page) (p : page)
    (status : Z) (text : string) :
  let data := match JSON_parse text with Some d => d | None => VStr text end in
  let in_success_range := ((200 <=? status) && (status <=? 299))%Z in
  exists p1 r continue,
    callApi path o k p = AwaitFetch p1 r continue /\
    fetches (log p1) = (fetches (log p) ++ [Fetch r])%list /\
    url r = baseUrl ++ path /\
    continue (Response status text) =
      k (if in_success_range then inl data else inr (ApiError status data)) /\
    get (ApiError status data) "status" = inl (VNum (Int status)) /\
    get (ApiError status data) "body" = inl data.
Proof.
  intros data in_success_range.
  eexists _, _, _. split; [reflexivity|].
  split; [simpl; rewrite fetches_app; reflexivity|].
  split; [reflexivity|].
  split; [|split; reflexivity].
  unfold callApi_settle, decode, ok.
  fold data. fold in_success_range.
  destruct in_success_range; reflexivity.
Qed.

(** ** Clearing *)

(** C9: each ingest-clear and search-clear control resets its inputs, status
    and result regions, issues no request and leaves [lastCaseId] and the
    [caseId] field as they were, so the next search sends the identifier it
    would have sent before. *)
Theorem clear_controls_keep_case_id `{Platform} (p : page) :
  (forall h,
     In h [RagConsole.ingestClearBtn_click; Console2.ingestClearBtn_click;
           Console3.ingestClearBtn_click; Console4.ingestClearBtn_click] ->
     exists p',
       h p = Done p' /\
       content p' ingestText = "" /\ content p' ingestMetadata = "" /\
       content p' ingestStatus = "" /\ content p' ingestResult = "{}" /\
       fetches (log p') = fetches (log p) /\
       lastCaseId p' = lastCaseId p /\
       Console4.search_case_id p' = Console4.search_case_id p) /\
  (forall h,
     In h [RagConsole.searchClearBtn_click; Console2.searchClearBtn_click;
           Console3.searchClearBtn_click; Console4.searchClearBtn_click] ->
     exists p',
       h p = Done p' /\
       content p' searchQuery = "" /\ content p' searchResult = "{}" /\
       content p' searchStatus = "" /\
       fetches (log p') = fetches (log p) /\
       lastCaseId p' = lastCaseId p /\
       Console4.search_case_id p' = Console4.search_case_id p) /\
  (forall query,
     sent "case_id"
       (Console3.searchBtn_click
          (write_text searchQuery query
             (page_of (Console3.searchClearBtn_click
                         (page_of (Console3.ingestClearBtn_click p))))))
     = sent "case_id" (Console3.searchBtn_click (write_text searchQuery query p))).
Proof.
  split; [|split].
  - intros h Hh. simpl in Hh.
    destruct Hh as [<-|[<-|[<-|[<-|[]]]]];
      (eexists; split; [reflexivity|];
       repeat split; try reflexivity;
       simpl; rewrite !fetches_app; simpl; now rewrite !app_nil_r).
  - intros h Hh. simpl in Hh.
    destruct Hh as [<-|[<-|[<-|[<-|[]]]]];
      (eexists; split; [reflexivity|];
       repeat split; try reflexivity;
       simpl; rewrite !fetches_app; simpl; now rewrite !app_nil_r).
  - intros query. unfold Console3.searchBtn_click; simpl.
    destruct (nonempty (trim query)); [|reflexivity].
    simpl. destruct (truthy (lastCaseId p)); reflexivity.
Qed.

(** ** Report export *)

(** C10: while the summary region is empty or holds the placeholder, the
    copy and the download control only set the status message that asks for
    Explain Case first: no clipboard write, no copy command, no download. *)
Theorem export_needs_a_summary (p : page) :
  content p explainResult = "" \/ content p explainResult = "{}" ->
  Console3.copyExplainBtn_click p
    = Done (set_text explainStatus
              "Nothing to copy yet. Run Explain Case first." p) /\
  Console3.downloadExplainBtn_click p
    = Done (set_text explainStatus
              "Nothing to download yet. Run Explain Case first." p) /\
  (forall h, In h [Console3.copyExplainBtn_click; Console3.downloadExplainBtn_click] ->
     filter is_export (log (page_of (h p))) = filter is_export (log p) /\
     fetches (log (page_of (h p))) = fetches (log p)).
Proof.
  intros Hsummary.
  assert (Hguard : Console3.nothing_to_export (trim (content p explainResult)) = true)
    by (destruct Hsummary as [-> | ->]; reflexivity).
  assert (Hcopy : Console3.copyExplainBtn_click p
    = Done (set_text explainStatus
              "Nothing to copy yet. Run Explain Case first." p))
    by (unfold Console3.copyExplainBtn_click; now rewrite Hguard).
  assert (Hdown : Console3.downloadExplainBtn_click p
    = Done (set_text explainStatus
              "Nothing to download yet. Run Explain Case first." p))
    by (unfold Console3.downloadExplainBtn_click; now rewrite Hguard).
  split; [exact Hcopy|]. split; [exact Hdown|].
  intros h [<-|[<-|[]]]; rewrite ?Hcopy, ?Hdown; simpl;
    unfold fetches; rewrite !filter_app; simpl; now rewrite !app_nil_r.
Qed.

Lemma export_needs_a_summary_witness :
  Console3.copyExplainBtn_click (typed explainResult "{}" blank)
    = Done (set_text explainStatus
              "Nothing to copy yet. Run Explain Case first."
              (typed explainResult "{}" blank)) /\
  Console3.downloadExplainBtn_click (typed explainResult "{}" blank)
    = Done (set_text explainStatus
              "Nothing to download yet. Run Explain Case first."
              (typed explainResult "{}" blank)).
Proof.
  pose proof (export_needs_a_summary (typed explainResult "{}" blank)
                (or_intror eq_refl)) as [Hcopy [Hdown _]].
  split; [exact Hcopy | exact Hdown].
Defined.

(** ** Search *)

Lemma digit_value_of_digit (c : ascii) :
  Reference.is_digit c = true ->
  digit_value c = Some (Z.of_nat (nat_of_ascii c) - 48)%Z
  /\ (Z.of_nat (nat_of_ascii c) - 48 <? 10)%Z = true.
Proof.
  unfold Reference.is_digit, digit_value. intros Hd.
  apply andb_true_iff in Hd as [Hlo Hhi].
  apply Nat.leb_le in Hlo. apply Nat.leb_le in Hhi.
  replace (48 <=? Z.of_nat (nat_of_ascii c))%Z with true
    by (symmetry; apply Z.leb_le; lia).
  replace (Z.of_nat (nat_of_ascii c) <=? 57)%Z with true
    by (symmetry; apply Z.leb_le; lia).
  split; [reflexivity | apply Z.ltb_lt; lia].
Qed.

Lemma digits_all_digits (ds : string) (acc : Z) (seen : option Z) :
  all_digits ds = true ->
  (seen = Some acc \/ (seen = None /\ acc = 0%Z /\ ds <> "")) ->
  digits 10 ds seen
  = Some (fold_left (fun a c => (a * 10 + (Z.of_nat (nat_of_ascii c) - 48))%Z)
                    (list_ascii_of_string ds) acc).
Proof.
  revert acc seen. induction ds as [|c ds IH]; intros acc seen Hall Hseen.
  - destruct Hseen as [-> | [_ [_ Hne]]]; [reflexivity | congruence].
  - unfold all_digits in Hall. simpl in Hall.
    apply andb_true_iff in Hall as [Hc Hall].
    destruct (digit_value_of_digit c Hc) as [Hv Hlt].
    simpl. rewrite Hv, Hlt.
    apply IH; [exact Hall|]. left.
    destruct Hseen as [-> | [-> [-> _]]]; reflexivity.
Qed.

Lemma digit_not_sign (c : ascii) :
  Reference.is_digit c = true -> forall s, strip_sign (String c s) = (1%Z, String c s).
Proof.
  intros Hd s. unfold strip_sign.
  destruct c as [[] [] [] [] [] [] [] []]; try reflexivity; discriminate Hd.
Qed.

Lemma digit_not_space (c : ascii) :
  Reference.is_digit c = true -> is_space c = false.
Proof.
  destruct c as [[] [] [] [] [] [] [] []]; intros Hd; try reflexivity; discriminate Hd.
Qed.

Lemma all_digits_no_hex (ds : string) :
  all_digits ds = true -> strip_hex ds = None.
Proof.
  destruct ds as [|a ds]; [reflexivity|].
  destruct a as [[] [] [] [] [] [] [] []]; try reflexivity.
  destruct ds as [|b ds]; [reflexivity|].
  intros Hall.
  destruct b as [[] [] [] [] [] [] [] []]; try reflexivity;
    unfold all_digits in Hall; simpl in Hall; discriminate Hall.
Qed.

(** Up to 2^53 in magnitude an integer is a Number as it is. *)
Lemma to_number_exact (z : Z) :
  (Z.abs z <= 2 ^ 53)%Z -> to_number z = Int z.
Proof.
  intros Hz. destruct (Z.eq_dec (Z.abs z) (2 ^ 53)) as [Htop | Hbelow].
  - assert (Hcases : z = (2 ^ 53)%Z \/ z = (- 2 ^ 53)%Z) by lia.
    destruct Hcases as [-> | ->]; vm_compute; reflexivity.
  - unfold to_number.
    assert (Hlog : (Z.log2 (Z.abs z) - 52 <= 0)%Z).
    { destruct (Z.eq_dec (Z.abs z) 0) as [-> | Hpos]; [simpl; lia|].
      assert (Z.log2 (Z.abs z) < 53)%Z; [|lia].
      apply Z.log2_lt_pow2; lia. }
    apply Z.leb_le in Hlog. now rewrite Hlog.
Qed.

Lemma decimal_value_nonneg (ds : string) :
  all_digits ds = true -> (0 <= decimal_value ds)%Z.
Proof.
  unfold decimal_value, all_digits.
  assert (Hfold : forall l acc,
            forallb Reference.is_digit l = true -> (0 <= acc)%Z ->
            (0 <= fold_left
                    (fun a c => (a * 10 + (Z.of_nat (nat_of_ascii c) - 48))%Z)
                    l acc)%Z).
  { induction l as [|c l IH]; intros acc Hall Hacc; [exact Hacc|].
    simpl in Hall. apply andb_true_iff in Hall as [Hc Hall].
    simpl. apply IH; [exact Hall|].
    unfold Reference.is_digit in Hc. apply andb_true_iff in Hc as [Hlo _].
    apply Nat.leb_le in Hlo. lia. }
  intros Hall. apply Hfold; [exact Hall | lia].
Qed.

(** On a non-empty string of decimal digits [parseInt] yields the Number
    for the integer the digits denote, with radix 10 and with no radix
    alike. *)
Lemma parseInt_decimal (ds : string) (radix : option Z) :
  radix = None \/ radix = Some 10%Z ->
  ds <> "" -> all_digits ds = true ->
  parseInt ds radix = to_number (decimal_value ds).
Proof.
  intros Hradix Hne Hall.
  destruct ds as [|c ds]; [congruence|].
  assert (Hc : Reference.is_digit c = true).
  { unfold all_digits in Hall; simpl in Hall.
    now apply andb_true_iff in Hall as [Hc _]. }
  unfold parseInt. simpl trimStart. rewrite (digit_not_space c Hc).
  rewrite (digit_not_sign c Hc).
  destruct Hradix as [-> | ->].
  - rewrite (all_digits_no_hex _ Hall). cbn -[digits decimal_value Z.mul].
    rewrite (digits_all_digits (String c ds) 0 None Hall)
      by (right; repeat split; congruence).
    unfold decimal_value. now rewrite Z.mul_1_l.
  - cbn -[digits decimal_value Z.mul].
    rewrite (digits_all_digits (String c ds) 0 None Hall)
      by (right; repeat split; congruence).
    unfold decimal_value. now rewrite Z.mul_1_l.
Qed.

(** A value whose first character is neither white space, a sign nor a
    decimal digit has no integer prefix. *)
Lemma parseInt_no_digit (c : ascii) (rest : string) (radix : option Z) :
  radix = None \/ radix = Some 10%Z ->
  is_space c = false -> c <> "-"%char -> c <> "+"%char ->
  digit_value c = None \/ (exists d, digit_value c = Some d /\ (10 <= d)%Z) ->
  parseInt (String c rest) radix = NaN.
Proof.
  intros Hradix Hsp Hminus Hplus Hdigit.
  unfold parseInt. simpl trimStart. rewrite Hsp.
  assert (Hsign : strip_sign (String c rest) = (1%Z, String c rest)).
  { unfold strip_sign.
    destruct (Ascii.eqb_spec c "-"%char) as [->|_]; [congruence|].
    destruct (Ascii.eqb_spec c "+"%char) as [->|_]; [congruence|].
    destruct c as [[] [] [] [] [] [] [] []]; try reflexivity; congruence. }
  assert (Hhex : strip_hex (String c rest) = None).
  { unfold strip_hex.
    destruct (Ascii.eqb_spec c "0"%char) as [->|Hzero].
    - destruct Hdigit as [Hd | [d [Hd Hten]]]; vm_compute in Hd;
        [discriminate Hd | injection Hd as <-; lia].
    - destruct c as [[] [] [] [] [] [] [] []]; try reflexivity; congruence. }
  rewrite Hsign.
  assert (Hnone : digits 10 (String c rest) None = None).
  { simpl. destruct Hdigit as [-> | [d [-> Hd]]]; [reflexivity|].
    replace (d <? 10)%Z with false by (symmetry; apply Z.ltb_ge; lia).
    reflexivity. }
  destruct Hradix as [-> | ->]; cbn -[digits strip_hex].
  - rewrite Hhex, Hnone. reflexivity.
  - rewrite Hnone. reflexivity.
Qed.

(** C5 (as amended): a search click that issues a request sends
    [top_k = parseInt(value || "5", radix)], radix 10 in the three later
    scripts and none in [rag_console.js]: 5 when the field's value is empty;
    the integer denoted when the value is a run of decimal digits that
    denotes at most 2^53, and the nearest double when a run of at most
    twenty digits denotes more; [NaN] when the first character of the value
    is neither white space, a sign nor a decimal digit; and in general
    whatever [parseInt] reads from the value. *)
Theorem top_k_sent `{Platform} (p : page) :
  let field := content p searchTopK in
  let query := nonempty (trim (content p searchQuery)) in
  sent "top_k" (RagConsole.searchBtn_click p)
    = (if query then Some (VNum (top_k_of field None)) else None) /\
  sent "top_k" (Console2.searchBtn_click p)
    = (if query && truthy (lastCaseId p)
       then Some (VNum (top_k_of field (Some 10%Z))) else None) /\
  sent "top_k" (Console3.searchBtn_click p)
    = (if query && truthy (lastCaseId p)
       then Some (VNum (top_k_of field (Some 10%Z))) else None) /\
  sent "top_k" (Console4.searchBtn_click p)
    = (if query && truthy (Console4.search_case_id p)
       then Some (VNum (top_k_of field (Some 10%Z))) else None) /\
  (forall radix, radix = None \/ radix = Some 10%Z ->
     (field = "" -> top_k_of field radix = Int 5) /\
     (field <> "" -> top_k_of field radix = parseInt field radix) /\
     (field <> "" -> all_digits field = true ->
      (decimal_value field <= 2 ^ 53)%Z ->
      top_k_of field radix = Int (decimal_value field)) /\
     (field <> "" -> all_digits field = true ->
      (String.length field <= 20)%nat ->
      top_k_of field radix = to_number (decimal_value field)) /\
     (forall c rest,
        field = String c rest ->
        is_space c = false -> c <> "-"%char -> c <> "+"%char ->
        digit_value c = None
        \/ (exists d, digit_value c = Some d /\ (10 <= d)%Z) ->
        top_k_of field radix = NaN)).
Proof.
  intros field query.
  split; [|split; [|split; [|split]]].
  - unfold RagConsole.searchBtn_click. fold query. destruct query; reflexivity.
  - unfold Console2.searchBtn_click. fold query.
    destruct query; [|reflexivity]. simpl.
    destruct (truthy (lastCaseId p)); reflexivity.
  - unfold Console3.searchBtn_click. fold query.
    destruct query; [|reflexivity]. simpl.
    destruct (truthy (lastCaseId p)); reflexivity.
  - unfold Console4.searchBtn_click. fold query.
    destruct query; [|reflexivity]. simpl.
    destruct (truthy (Console4.search_case_id p)); reflexivity.
  - intros radix Hradix.
    assert (Hread : field <> "" -> top_k_of field radix = parseInt field radix).
    { intros Hne. unfold top_k_of, nonempty.
      destruct (String.eqb_spec field ""); [contradiction | reflexivity]. }
    split; [|split; [|split; [|split]]].
    + intros ->. destruct Hradix as [-> | ->]; reflexivity.
    + exact Hread.
    + intros Hne Hall Hsmall.
      rewrite (Hread Hne), (parseInt_decimal field radix Hradix Hne Hall).
      apply to_number_exact.
      pose proof (decimal_value_nonneg field Hall). lia.
    + intros Hne Hall _.
      rewrite (Hread Hne). now apply parseInt_decimal.
    + intros c rest Hfield Hsp Hminus Hplus Hdigit.
      rewrite Hread by (rewrite Hfield; discriminate).
      rewrite Hfield. now apply parseInt_no_digit.
Qed.

Lemma top_k_sent_witness :
  sent "top_k"
    (Console3.searchBtn_click
       (typed searchTopK "12"
          (typed searchQuery "beacon" (with_case (VStr "c-123") blank))))
  = Some (VNum (Int 12)).
Proof.
  pose proof (top_k_sent
                (typed searchTopK "12"
                   (typed searchQuery "beacon" (with_case (VStr "c-123") blank))))
    as [_ [_ [H3 _]]].
  exact H3.
Defined.

(** C5, as stated, fails: with the text [abc] in the field the request
    carries [NaN] (which [JSON.stringify] writes as [null]), not 5. *)
Lemma top_k_not_a_number :
  sent "top_k"
    (Console2.searchBtn_click
       (typed searchTopK "abc"
          (typed searchQuery "beacon" (with_case (VStr "c-123") blank))))
  = Some (VNum NaN).
Proof. reflexivity. Qed.

(** C4 (as amended): in the three scripts that keep [lastCaseId], a search
    click with no current case identifier -- nothing stored and, in the
    script with the [caseId] field, no field or only white space in it --
    only sets a validation message in the search status and issues no
    request. *)
Theorem search_needs_a_case_id `{Platform} (p : page) :
  truthy (lastCaseId p) = false ->
  let query := nonempty (trim (content p searchQuery)) in
  Console2.searchBtn_click p
    = Done (set_text searchStatus
              (if query then "Missing case_id: ingest first." else "Enter query.") p) /\
  Console3.searchBtn_click p
    = Done (set_text searchStatus
              (if query then "Missing case_id: ingest first (text or file)."
               else "Enter query.") p) /\
  (has_caseId p = false \/ trim (content p caseId) = "" ->
   Console4.searchBtn_click p
     = Done (set_text searchStatus
               (if query
                then "Missing case_id: ingest text first or enter a case id."
                else "Enter query.") p)) /\
  (forall msg, fetches (log (set_text searchStatus msg p)) = fetches (log p)).
Proof.
  intros Hnone query. repeat split.
  - unfold Console2.searchBtn_click. fold query. rewrite Hnone.
    destruct query; reflexivity.
  - unfold Console3.searchBtn_click. fold query. rewrite Hnone.
    destruct query; reflexivity.
  - intros Hfield. unfold Console4.searchBtn_click. fold query.
    assert (Hid : truthy (Console4.search_case_id p) = false).
    { unfold Console4.search_case_id, or_else.
      destruct Hfield as [-> | Hblank]; simpl; [exact Hnone|].
      destruct (has_caseId p); simpl; [|exact Hnone].
      rewrite Hblank. simpl. exact Hnone. }
    rewrite Hid. destruct query; reflexivity.
  - intros msg. apply fetches_set_text.
Qed.

Lemma search_needs_a_case_id_witness :
  Console3.searchBtn_click (typed searchQuery "beacon" blank)
  = Done (set_text searchStatus "Missing case_id: ingest first (text or file)."
            (typed searchQuery "beacon" blank)).
Proof.
  pose proof (search_needs_a_case_id (typed searchQuery "beacon" blank) eq_refl)
    as [_ [H3 _]].
  exact H3.
Defined.

(** C4, as stated, fails in [rag_console.js]: it has no case identifier, and
    a search with a query goes to the network. *)
Lemma rag_console_searches_without_case_id :
  lastCaseId (typed searchQuery "beacon" blank) = VStr "" /\
  content (typed searchQuery "beacon" blank) caseId = "" /\
  fetches (log (page_of (RagConsole.searchBtn_click
                           (typed searchQuery "beacon" blank))))
  = [Fetch {| url := "/search"; method := "POST";
              headers := [("Content-Type", "application/json")];
              body := Some (JsonText
                              (VObj [("query", VStr "beacon");
                                     ("top_k", VNum (Int 5));
                                     ("include_metadata", VBool false)])) |}].
Proof. repeat split. Qed.

(** ** Statements that only render *)

Create HintDb quiet.

Lemma quiet_ret {A} (a : A) : quiet (ret a).
Proof. intros p; split; [exists []; simpl; now rewrite app_nil_r | reflexivity]. Qed.

Lemma quiet_throw {A} (e : value) : quiet (@throw A e).
Proof. intros p; split; [exists []; simpl; now rewrite app_nil_r | reflexivity]. Qed.

Lemma quiet_lift {A} (r : A + value) : quiet (lift r).
Proof. intros p; split; [exists []; simpl; now rewrite app_nil_r | reflexivity]. Qed.

Lemma quiet_read {A} (f : page -> A) : quiet (read f).
Proof. intros p; split; [exists []; simpl; now rewrite app_nil_r | reflexivity]. Qed.

Lemma quiet_set_text (e : elem) (s : string) : quiet (act (set_text e s)).
Proof. intros p; split; [exists [SetText e s]; now split | reflexivity]. Qed.

Lemma quiet_set_textContent (e : elem) (v : value) :
  quiet (act (set_textContent e v)).
Proof. apply quiet_set_text. Qed.

Lemma quiet_set_value (e : elem) (v : value) : quiet (act (set_value e v)).
Proof.
  intros p; split; [|reflexivity].
  exists [SetText e (value_kept p e (value_text v))]. now split.
Qed.

Lemma quiet_write_lastCaseId (c : value) : quiet (act (write_lastCaseId c)).
Proof. intros p; split; [exists []; simpl; now rewrite app_nil_r | reflexivity]. Qed.

Lemma quiet_bind {A B} (m : M A) (k : A -> M B) :
  quiet m -> (forall a, quiet (k a)) -> quiet (bind m k).
Proof.
  intros Hm Hk p. unfold bind.
  destruct (Hm p) as [[evs [Hlog Hevs]] Hdis].
  destruct (m p) as [[a | e] p']; simpl in *.
  - destruct (Hk a p') as [[evs' [Hlog' Hevs']] Hdis'].
    split.
    + exists (evs ++ evs')%list. rewrite Hlog', Hlog, app_assoc.
      split; [reflexivity|]. rewrite forallb_app, Hevs, Hevs'. reflexivity.
    + intros b. now rewrite Hdis', Hdis.
  - split; [exists evs; now split | exact Hdis].
Qed.

Lemma quiet_try_catch {A} (m : M A) (h : value -> M A) :
  quiet m -> (forall e, quiet (h e)) -> quiet (try_catch m h).
Proof.
  intros Hm Hh p. unfold try_catch.
  destruct (Hm p) as [[evs [Hlog Hevs]] Hdis].
  destruct (m p) as [[a | e] p']; simpl in *.
  - split; [exists evs; now split | exact Hdis].
  - destruct (Hh e p') as [[evs' [Hlog' Hevs']] Hdis'].
    split.
    + exists (evs ++ evs')%list. rewrite Hlog', Hlog, app_assoc.
      split; [reflexivity|]. rewrite forallb_app, Hevs, Hevs'. reflexivity.
    + intros b. now rewrite Hdis', Hdis.
Qed.

Lemma quiet_if {A} (b : bool) (m1 m2 : M A) :
  quiet m1 -> quiet m2 -> quiet (if b then m1 else m2).
Proof. destruct b; auto. Qed.

#[local] Hint Resolve quiet_ret quiet_throw quiet_lift quiet_read quiet_set_text
  quiet_set_textContent quiet_set_value quiet_write_lastCaseId
  quiet_bind quiet_try_catch quiet_if : quiet.

Lemma quiet_and_get (res : value) (k : string) : quiet (and_get res k).
Proof. unfold and_get. auto with quiet. Qed.

#[local] Hint Resolve quiet_and_get : quiet.

Lemma quiet_remember_case_id (res : value) : quiet (remember_case_id res).
Proof. unfold remember_case_id. auto 10 with quiet. Qed.

Lemma quiet_remember_and_show (res : value) : quiet (Console4.remember_and_show res).
Proof.
  unfold Console4.remember_and_show.
  apply quiet_bind; [auto with quiet|]. intros c.
  apply quiet_if; [|auto with quiet].
  apply quiet_bind; [auto with quiet|]. intros c'.
  apply quiet_bind; [auto with quiet|]. intros _.
  apply quiet_bind; [auto with quiet|]. intros shown.
  destruct shown; auto 10 with quiet.
Qed.

#[local] Hint Resolve quiet_remember_case_id quiet_remember_and_show : quiet.

Section ErrorRendering.
Context `{Platform}.

Lemma quiet_render_error1 status result err :
  quiet (RagConsole.render_error status result err).
Proof. unfold RagConsole.render_error. auto 10 with quiet. Qed.

Lemma quiet_render_error2 status result err :
  quiet (Console2.render_error status result err).
Proof. unfold Console2.render_error. auto 10 with quiet. Qed.

Lemma quiet_render_error3 status result err :
  quiet (Console3.render_error status result err).
Proof. unfold Console3.render_error. auto 10 with quiet. Qed.

Lemma quiet_render_error4 status result err :
  quiet (Console4.render_error status result err).
Proof. unfold Console4.render_error. auto 10 with quiet. Qed.

End ErrorRendering.

#[local] Hint Resolve quiet_render_error1 quiet_render_error2
  quiet_render_error3 quiet_render_error4 : quiet.

(** [try { m } catch (err) { h err } finally { trigger.disabled = false; }]
    with rendering [m] and [h]: the log grows by text assignments and then
    the enabling of [trigger], which ends enabled. *)
Lemma finish_guarded {A} (m : M A) (h : value -> M A) (trigger : button)
    (q : page) :
  quiet m -> (forall e, quiet (h e)) ->
  (exists render,
     forallb is_set_text render = true /\
     log (exec (try_finally (try_catch m h)
                            (act (set_disabled trigger false))) q)
     = (log q ++ render ++ [SetDisabled trigger false])%list) /\
  disabled (exec (try_finally (try_catch m h)
                              (act (set_disabled trigger false))) q) trigger
  = false.
Proof.
  intros Hm Hh.
  destruct (quiet_try_catch m h Hm Hh q) as [[evs [Hlog Hevs]] _].
  unfold exec, try_finally.
  destruct (try_catch m h q) as [r p']; simpl in *.
  split.
  - exists evs. split; [exact Hevs|]. now rewrite Hlog, app_assoc.
  - destruct trigger; reflexivity.
Qed.

(** ** What remembering the case identifier does *)

Lemma truthy_get_inl (res : value) (k : string) :
  truthy res = true -> exists c, get res k = inl c.
Proof. destruct res; try discriminate; simpl; eauto. Qed.

(** A truthy property read means the value read from is truthy itself. *)
Lemma returned_of_get (res c : value) :
  get res "case_id" = inl c -> truthy c = true -> Session.returned_case_id res = c.
Proof.
  intros Hget Hc. unfold Session.returned_case_id.
  destruct res; simpl in Hget; try discriminate Hget;
    injection Hget as <-; try discriminate Hc; reflexivity.
Qed.

Lemma remember_case_id_spec (res : value) (q : page) :
  remember_case_id res q
  = (inl tt, if truthy (Session.returned_case_id res)
             then write_lastCaseId (Session.returned_case_id res) q else q).
Proof.
  unfold remember_case_id, Session.returned_case_id, and_get, bind, ret, lift, act.
  destruct (truthy res) eqn:Hres.
  - destruct (truthy_get_inl res "case_id" Hres) as [c Hc]. rewrite Hc.
    destruct (truthy c); reflexivity.
  - unfold ret. rewrite Hres. reflexivity.
Qed.

Lemma remember_and_show_spec (res : value) (q : page) :
  Console4.remember_and_show res q
  = (inl tt,
     if truthy (Session.returned_case_id res)
     then (if has_caseId q
           then set_value caseId (Session.returned_case_id res)
                  (write_lastCaseId (Session.returned_case_id res) q)
           else write_lastCaseId (Session.returned_case_id res) q)
     else q).
Proof.
  unfold Console4.remember_and_show, Session.returned_case_id, and_get,
         bind, ret, lift, act, read.
  destruct (truthy res) eqn:Hres.
  - destruct (truthy_get_inl res "case_id" Hres) as [c Hc]. rewrite Hc.
    destruct (truthy c); [|reflexivity]. simpl.
    destruct (has_caseId q); reflexivity.
  - unfold ret. rewrite Hres. reflexivity.
Qed.

(** ** The order of the steps of a guarded operation *)

(** The log of a handler's continuation, statement by statement. *)
Ltac run_statements :=
  unfold whole, summary_or_whole, tags_or_whole, nothing_else, case_id_shown;
  unfold exec, try_finally, try_catch, bind, lift, act, ret, throw;
  rewrite ?remember_case_id_spec, ?remember_and_show_spec.

Ltac settle_answer :=
  intros ans q; split;
  [ apply finish_guarded; auto 12 with quiet
  | destruct ans as [|code text];
    [ simpl; rewrite <- ?app_assoc; reflexivity
    | cbn beta; unfold callApi_settle;
      destruct (ok code); simpl negb; cbv iota;
      [ run_statements
      | simpl; rewrite <- ?app_assoc; reflexivity ] ] ].

Ltac ends_locally := eexists _, [_]; repeat split.

Ltac goes_out finish :=
  eexists [], [_; _], _, _, _;
  split; [reflexivity|]; split; [reflexivity|];
  refine (conj _ (conj _ _));
  [ | simpl; rewrite <- ?app_assoc; reflexivity | settle_answer; finish ];
  reflexivity.

(** Only text was assigned since [log q]. *)
Ltac rendered_whole :=
  simpl; rewrite <- ?app_assoc; reflexivity.

(** The same after the case identifier was remembered, or not. *)
Ltac rendered_and_remembered :=
  simpl;
  match goal with
  | |- context [truthy (Session.returned_case_id ?res)] =>
      destruct (truthy (Session.returned_case_id res))
  end;
  simpl; rewrite <- ?app_assoc; reflexivity.

(** The same when the response is read for a field first. *)
Ltac rendered_field :=
  match goal with
  | |- context [decode ?text] => destruct (decode text)
  end;
  simpl; rewrite <- ?app_assoc; reflexivity.

Section Sequential.
Context `{Platform}.

Ltac split_ingest p finish :=
  unfold sequential, ingest_valid, metadata_ok;
  destruct (nonempty (trim (content p ingestText))); simpl;
  [ destruct (nonempty (trim (content p ingestMetadata))); simpl;
    [ destruct (JSON_parse (trim (content p ingestMetadata))) as [metadata|];
      [goes_out finish | ends_locally]
    | goes_out finish ]
  | ends_locally ].

Lemma ingest1_sequential (p : page) :
  sequential RagConsole.ingestBtn_click ingestBtn ingestStatus ingestResult
             "Ingest OK." whole nothing_else style1 (ingest_valid p) p.
Proof.
  unfold RagConsole.ingestBtn_click. split_ingest p rendered_whole.
Qed.

Lemma search1_sequential (p : page) :
  sequential RagConsole.searchBtn_click searchBtn searchStatus searchResult
             "Search OK." whole nothing_else style1 (query_given p) p.
Proof.
  unfold sequential, query_given, RagConsole.searchBtn_click.
  destruct (nonempty (trim (content p searchQuery))); simpl;
    [goes_out rendered_whole | ends_locally].
Qed.

Lemma ingest2_sequential (p : page) :
  sequential Console2.ingestBtn_click ingestBtn ingestStatus ingestResult
             "Ingest OK." whole nothing_else style2 (ingest_valid p) p.
Proof.
  unfold Console2.ingestBtn_click. split_ingest p rendered_and_remembered.
Qed.

Lemma search2_sequential (p : page) :
  sequential Console2.searchBtn_click searchBtn searchStatus searchResult
             "Search OK." whole nothing_else style2
             (query_given p && truthy (lastCaseId p)) p.
Proof.
  unfold sequential, query_given, Console2.searchBtn_click.
  destruct (nonempty (trim (content p searchQuery))); simpl; [|ends_locally].
  destruct (truthy (lastCaseId p)); simpl;
    [goes_out rendered_whole | ends_locally].
Qed.

Lemma ingest3_sequential (p : page) :
  sequential Console3.ingestBtn_click ingestBtn ingestStatus ingestResult
             "Ingest OK." whole nothing_else style3 (ingest_valid p) p.
Proof.
  unfold Console3.ingestBtn_click. split_ingest p rendered_and_remembered.
Qed.

Lemma ingestFile3_sequential (p : page) :
  sequential Console3.ingestFileBtn_click ingestFileBtn
             ingestFileStatus ingestFileResult
             "File ingest OK." whole nothing_else style3 (file_chosen p) p.
Proof.
  unfold sequential, file_chosen, Console3.ingestFileBtn_click.
  destruct (ingestFile p) as [|f files]; simpl.
  - eexists _, [_; _; _]. split; [reflexivity|].
    split; [simpl; rewrite <- ?app_assoc|]; reflexivity.
  - eexists [_; _], [_], _, _, _.
    split; [reflexivity|].
    refine (conj _ (conj _ (conj _ _)));
      [ | | simpl; rewrite <- ?app_assoc; reflexivity | ];
      [reflexivity | reflexivity |].
    intros ans q. split.
    + apply finish_guarded; [|auto with quiet].
      apply quiet_bind; [|auto 12 with quiet].
      destruct ans as [|code text]; [auto with quiet|].
      destruct (negb (ok code)); auto with quiet.
    + destruct ans as [|code text];
        [simpl; rewrite <- ?app_assoc; reflexivity|].
      destruct (ok code); simpl negb; cbv iota.
      * run_statements. rendered_and_remembered.
      * simpl. rewrite <- ?app_assoc. reflexivity.
Qed.

Lemma search3_sequential (p : page) :
  sequential Console3.searchBtn_click searchBtn searchStatus searchResult
             "Search OK." whole nothing_else style3
             (query_given p && truthy (lastCaseId p)) p.
Proof.
  unfold sequential, query_given, Console3.searchBtn_click.
  destruct (nonempty (trim (content p searchQuery))); simpl; [|ends_locally].
  destruct (truthy (lastCaseId p)); simpl;
    [goes_out rendered_whole | ends_locally].
Qed.

Lemma explain3_sequential (p : page) :
  sequential Console3.explainCaseBtn_click explainCaseBtn
             explainStatus explainResult
             "AI summary ready." summary_or_whole nothing_else style3
             (truthy (lastCaseId p)) p.
Proof.
  unfold sequential, Console3.explainCaseBtn_click.
  destruct (truthy (lastCaseId p)); simpl;
    [goes_out rendered_field | ends_locally].
Qed.

Lemma mitre3_sequential (p : page) :
  sequential Console3.mitreExtractBtn_click mitreExtractBtn
             mitreStatus mitreResult
             "MITRE extraction OK." tags_or_whole nothing_else style3
             (truthy (lastCaseId p) && summary_shown p) p.
Proof.
  unfold sequential, summary_shown, Console3.mitreExtractBtn_click.
  destruct (truthy (lastCaseId p)); simpl; [|ends_locally].
  destruct (Console3.nothing_to_export (trim (content p explainResult)));
    simpl; [ends_locally | goes_out rendered_field].
Qed.

Ltac rendered_and_shown :=
  simpl;
  match goal with
  | |- context [truthy (Session.returned_case_id ?res)] =>
      destruct (truthy (Session.returned_case_id res))
  end;
  simpl;
  try match goal with
      | |- context [has_caseId ?q] => destruct (has_caseId q)
      end;
  simpl; rewrite <- ?app_assoc; reflexivity.

Lemma ingest4_sequential (p : page) :
  sequential Console4.ingestBtn_click ingestBtn ingestStatus ingestResult
             "Ingest OK." whole case_id_shown style2 (ingest_valid p) p.
Proof.
  unfold Console4.ingestBtn_click. split_ingest p rendered_and_shown.
Qed.

Lemma search4_sequential (p : page) :
  sequential Console4.searchBtn_click searchBtn searchStatus searchResult
             "Search OK." whole nothing_else style2
             (query_given p && truthy (Console4.search_case_id p)) p.
Proof.
  unfold sequential, query_given, Console4.searchBtn_click.
  destruct (nonempty (trim (content p searchQuery))); simpl; [|ends_locally].
  destruct (truthy (Console4.search_case_id p)); simpl;
    [goes_out rendered_whole | ends_locally].
Qed.

End Sequential.


(** A failing ingest, step by step. *)
Example failing_ingest_log :
  log (run Console2.ingestBtn_click (Response 500 "backend down") true
           (typed ingestText "evidence log" blank))
  = [SetDisabled ingestBtn true;
     SetText ingestStatus "Ingesting...";
     SetText ingestResult "{}";
     Fetch {| url := "/ingest"; method := "POST";
              headers := [("Content-Type", "application/json")];
              body := Some (JsonText
                              (VObj [("text", VStr "evidence log");
                                     ("metadata", VObj [("source", VStr "ui")])])) |};
     SetText ingestStatus "Error: 500";
     SetText ingestResult (Reference.quote ++ "backend down" ++ Reference.quote);
     SetDisabled ingestBtn false].
Proof. reflexivity. Qed.

(** A successful ingest of the fourth script, step by step. *)
Example successful_ingest_log :
  log (run Console4.ingestBtn_click
           (Response 200 (json (VObj [("case_id", VStr "c-123")]))) true
           (typed ingestText "evidence log" blank))
  = [SetDisabled ingestBtn true;
     SetText ingestStatus "Ingesting...";
     SetText ingestResult "{}";
     Fetch {| url := "/ingest"; method := "POST";
              headers := [("Content-Type", "application/json")];
              body := Some (JsonText
                              (VObj [("text", VStr "evidence log");
                                     ("metadata", VObj [("source", VStr "ui")])])) |};
     SetText ingestStatus "Ingest OK.";
     SetText ingestResult (rendered (pretty (VObj [("case_id", VStr "c-123")])));
     SetText caseId "c-123";
     SetDisabled ingestBtn false].
Proof. vm_compute. reflexivity. Qed.


(** ** Local validation of the inputs *)

(** C3 (as amended): a click of an ingest control whose text is empty or
    white space, of the file-ingest control with no file chosen, of a search
    control whose query is empty or white space, or of an ingest control
    whose metadata, white space around it dropped, is non-empty and does not
    parse as JSON, only sets a validation message and issues no request. *)
Theorem invalid_input_stays_local `{Platform} (p : page) :
  (trim (content p ingestText) = "" ->
   forall h,
     In h [RagConsole.ingestBtn_click; Console2.ingestBtn_click;
           Console3.ingestBtn_click; Console4.ingestBtn_click] ->
     h p = Done (set_text ingestStatus "Enter text." p)) /\
  (trim (content p ingestMetadata) <> "" ->
   JSON_parse (trim (content p ingestMetadata)) = None ->
   forall h,
     In h [RagConsole.ingestBtn_click; Console2.ingestBtn_click;
           Console3.ingestBtn_click; Console4.ingestBtn_click] ->
     h p = Done (set_text ingestStatus
                   (if nonempty (trim (content p ingestText))
                    then "Invalid metadata JSON." else "Enter text.") p)) /\
  (ingestFile p = [] ->
   Console3.ingestFileBtn_click p
   = Done (set_text ingestFileStatus "Choose a file first."
             (set_text ingestFileResult "{}"
                (set_text ingestFileStatus "" p)))) /\
  (trim (content p searchQuery) = "" ->
   forall h,
     In h [RagConsole.searchBtn_click; Console2.searchBtn_click;
           Console3.searchBtn_click; Console4.searchBtn_click] ->
     h p = Done (set_text searchStatus "Enter query." p)) /\
  (forall e s q, fetches (log (set_text e s q)) = fetches (log q)).
Proof.
  split; [|split; [|split; [|split]]].
  - intros Htext h Hh. simpl in Hh.
    destruct Hh as [<-|[<-|[<-|[<-|[]]]]];
      unfold RagConsole.ingestBtn_click, Console2.ingestBtn_click,
             Console3.ingestBtn_click, Console4.ingestBtn_click;
      rewrite Htext; reflexivity.
  - intros Hmeta Hparse h Hh. simpl in Hh.
    assert (Hne : nonempty (trim (content p ingestMetadata)) = true).
    { unfold nonempty.
      destruct (String.eqb_spec (trim (content p ingestMetadata)) "");
        [contradiction | reflexivity]. }
    destruct Hh as [<-|[<-|[<-|[<-|[]]]]];
      unfold RagConsole.ingestBtn_click, Console2.ingestBtn_click,
             Console3.ingestBtn_click, Console4.ingestBtn_click;
      rewrite Hne, Hparse;
      destruct (nonempty (trim (content p ingestText))); reflexivity.
  - intros Hfile. unfold Console3.ingestFileBtn_click. now rewrite Hfile.
  - intros Hquery h Hh. simpl in Hh.
    destruct Hh as [<-|[<-|[<-|[<-|[]]]]];
      unfold RagConsole.searchBtn_click, Console2.searchBtn_click,
             Console3.searchBtn_click, Console4.searchBtn_click;
      rewrite Hquery; reflexivity.
  - intros e s q. apply fetches_set_text.
Qed.

Lemma invalid_input_stays_local_witness :
  Console2.ingestBtn_click
    (typed ingestMetadata "{source" (typed ingestText "evidence log" blank))
  = Done (set_text ingestStatus "Invalid metadata JSON."
            (typed ingestMetadata "{source" (typed ingestText "evidence log" blank)))
  /\ Console3.ingestFileBtn_click blank
     = Done (set_text ingestFileStatus "Choose a file first."
               (set_text ingestFileResult "{}" (set_text ingestFileStatus "" blank))).
Proof.
  pose proof (invalid_input_stays_local
                (typed ingestMetadata "{source"
                   (typed ingestText "evidence log" blank)))
    as [_ [Hmeta _]].
  pose proof (invalid_input_stays_local blank) as [_ [_ [Hfile _]]].
  split.
  - apply (Hmeta ltac:(discriminate) eq_refl). right; left; reflexivity.
  - apply Hfile. reflexivity.
Defined.

(** C3, as stated, fails: a metadata field holding one space is not empty
    and is not JSON, yet the ingest goes out, with the default metadata. *)
Lemma blank_metadata_is_submitted :
  content (typed ingestMetadata " " (typed ingestText "evidence log" blank))
          ingestMetadata = " " /\
  JSON_parse " " = None /\
  fetches (log (page_of (Console2.ingestBtn_click
                           (typed ingestMetadata " "
                              (typed ingestText "evidence log" blank)))))
  = [Fetch {| url := "/ingest"; method := "POST";
              headers := [("Content-Type", "application/json")];
              body := Some (JsonText
                              (VObj [("text", VStr "evidence log");
                                     ("metadata", VObj [("source", VStr "ui")])])) |}].
Proof. repeat split. Qed.

(** ** Explain Case *)

(** C8 (as amended): with no current case identifier the Explain control
    only sets [No case selected.]; with one it posts [{case_id}] to
    [/explain_case], and for a response in 200..299 whose decoded value is
    not [null] it renders the [summary] field when that is truthy and the
    whole pretty-printed response otherwise. *)
Theorem explain_case_contract `{Platform} (p : page) :
  (truthy (lastCaseId p) = false ->
   Console3.explainCaseBtn_click p
   = Done (set_text explainStatus "No case selected." p)) /\
  (truthy (lastCaseId p) = true ->
   exists p1 k,
     Console3.explainCaseBtn_click p
     = AwaitFetch p1
         (fetch_request "/explain_case"
            (post (JsonText (VObj [("case_id", lastCaseId p)])))) k /\
     fetches (log p1)
     = (fetches (log p)
        ++ [Fetch (fetch_request "/explain_case"
                     (post (JsonText (VObj [("case_id", lastCaseId p)]))))])%list /\
     forall code text summary q,
       ok code = true ->
       get (decode text) "summary" = inl summary ->
       content (k (Response code text) q) explainStatus = "AI summary ready." /\
       content (k (Response code text) q) explainResult
       = (if truthy summary then rendered summary
          else rendered (pretty (decode text)))).
Proof.
  split; intros Hid; unfold Console3.explainCaseBtn_click; rewrite Hid.
  - reflexivity.
  - eexists _, _. split; [reflexivity|].
    split; [simpl; rewrite !fetches_app; simpl; now rewrite !app_nil_r|].
    intros code text summary q Hok Hsummary.
    cbn beta. unfold callApi_settle. rewrite Hok. simpl.
    unfold exec, try_finally, try_catch, bind, lift, act. simpl.
    rewrite Hsummary. simpl.
    destruct (truthy summary); split; reflexivity.
Qed.

Lemma explain_case_contract_witness :
  content (run Console3.explainCaseBtn_click
               (Response 200 (json (VObj [("summary", VStr "Lateral movement.")])))
               true (with_case (VStr "c-123") blank))
          explainResult
  = "Lateral movement.".
Proof.
  pose proof (explain_case_contract (with_case (VStr "c-123") blank))
    as [_ Hposts].
  destruct (Hposts eq_refl) as [p1 [k [Hclick [_ Hrender]]]].
  unfold run. rewrite Hclick.
  destruct (Hrender 200%Z (json (VObj [("summary", VStr "Lateral movement.")]))
                    (VStr "Lateral movement.") p1 eq_refl eq_refl)
    as [_ Hresult].
  exact Hresult.
Defined.

(** C8, as stated, fails: a response whose [summary] field is present but
    empty is rendered whole -- the result region then holds the 19 characters
    of the pretty-printed object, not the empty summary. *)
Lemma empty_summary_renders_whole_response :
  get (decode (json (VObj [("summary", VStr "")]))) "summary" = inl (VStr "") /\
  content (run Console3.explainCaseBtn_click
               (Response 200 (json (VObj [("summary", VStr "")])))
               true (with_case (VStr "c-123") blank))
          explainResult
  = rendered (pretty (VObj [("summary", VStr "")])) /\
  String.length (rendered (pretty (VObj [("summary", VStr "")]))) = 19%nat.
Proof. repeat split. Qed.

(** ** The stored case identifier *)

Create HintDb keeps.

Lemma keeps_ret {A} (a : A) : keeps (ret a).
Proof. intros p; reflexivity. Qed.

Lemma keeps_throw {A} (e : value) : keeps (@throw A e).
Proof. intros p; reflexivity. Qed.

Lemma keeps_lift {A} (r : A + value) : keeps (lift r).
Proof. intros p; reflexivity. Qed.

Lemma keeps_read {A} (f : page -> A) : keeps (read f).
Proof. intros p; reflexivity. Qed.

Lemma keeps_act (f : page -> page) :
  (forall p, lastCaseId (f p) = lastCaseId p) -> keeps (act f).
Proof. intros Hf p; apply Hf. Qed.

Lemma keeps_bind {A B} (m : M A) (k : A -> M B) :
  keeps m -> (forall a, keeps (k a)) -> keeps (bind m k).
Proof.
  intros Hm Hk p. unfold bind. specialize (Hm p).
  destruct (m p) as [[a | e] p']; simpl in *; [|exact Hm].
  now rewrite Hk.
Qed.

Lemma keeps_try_catch {A} (m : M A) (h : value -> M A) :
  keeps m -> (forall e, keeps (h e)) -> keeps (try_catch m h).
Proof.
  intros Hm Hh p. unfold try_catch. specialize (Hm p).
  destruct (m p) as [[a | e] p']; simpl in *; [exact Hm|].
  now rewrite Hh.
Qed.

Lemma keeps_try_finally {A} (m : M A) (f : M unit) :
  keeps m -> keeps f -> keeps (try_finally m f).
Proof.
  intros Hm Hf p. unfold try_finally. specialize (Hm p).
  destruct (m p) as [r p']; simpl in *. specialize (Hf p').
  destruct (f p') as [[u | e] p'']; simpl in *; congruence.
Qed.

Lemma keeps_if {A} (b : bool) (m1 m2 : M A) :
  keeps m1 -> keeps m2 -> keeps (if b then m1 else m2).
Proof. destruct b; auto. Qed.

Lemma keeps_exec {A} (m : M A) (q : page) :
  keeps m -> lastCaseId (exec m q) = lastCaseId q.
Proof. intros Hm; apply Hm. Qed.

#[local] Hint Resolve keeps_ret keeps_throw keeps_lift keeps_read
  keeps_bind keeps_try_catch keeps_try_finally keeps_if : keeps.
#[local] Hint Extern 1 (keeps (act _)) =>
  (apply keeps_act; intros; reflexivity) : keeps.

Section Keeping.
Context `{Platform}.

Lemma keeps_render_error1 status result err :
  keeps (RagConsole.render_error status result err).
Proof. unfold RagConsole.render_error. auto 10 with keeps. Qed.

Lemma keeps_render_error2 status result err :
  keeps (Console2.render_error status result err).
Proof. unfold Console2.render_error. auto 10 with keeps. Qed.

Lemma keeps_render_error3 status result err :
  keeps (Console3.render_error status result err).
Proof. unfold Console3.render_error. auto 10 with keeps. Qed.

Lemma keeps_render_error4 status result err :
  keeps (Console4.render_error status result err).
Proof. unfold Console4.render_error. auto 10 with keeps. Qed.

Lemma keeps_append_items (cs : list value) : keeps (Console3.append_items cs).
Proof.
  induction cs as [|c cs IH]; simpl; auto 10 with keeps.
Qed.

End Keeping.

#[local] Hint Resolve keeps_render_error1 keeps_render_error2
  keeps_render_error3 keeps_render_error4 keeps_append_items : keeps.

Section Settling.
Context `{Platform}.

(** What a settled ingest leaves in [lastCaseId], script by script. *)
Lemma ingest2_settles (p p1 : page) r k :
  Console2.ingestBtn_click p = AwaitFetch p1 r k ->
  forall ans q, lastCaseId (k ans q) = Session.case_id_after ans (lastCaseId q).
Proof.
  unfold Console2.ingestBtn_click.
  destruct (negb _); [discriminate|].
  destruct (if nonempty _ then _ else _); [|discriminate].
  intros E ans q. injection E as <- <- <-.
  unfold callApi_settle, Session.case_id_after.
  destruct ans as [|code text]; [reflexivity|].
  destruct (ok code); [|reflexivity]. simpl negb. cbv iota.
  unfold exec, try_finally, try_catch, bind, lift, act.
  rewrite remember_case_id_spec. simpl.
  destruct (truthy (Session.returned_case_id (decode text))); reflexivity.
Qed.

Lemma ingest3_settles (p p1 : page) r k :
  Console3.ingestBtn_click p = AwaitFetch p1 r k ->
  forall ans q, lastCaseId (k ans q) = Session.case_id_after ans (lastCaseId q).
Proof.
  unfold Console3.ingestBtn_click.
  destruct (negb _); [discriminate|].
  destruct (if nonempty _ then _ else _); [|discriminate].
  intros E ans q. injection E as <- <- <-.
  unfold callApi_settle, Session.case_id_after.
  destruct ans as [|code text]; [reflexivity|].
  destruct (ok code); [|reflexivity]. simpl negb. cbv iota.
  unfold exec, try_finally, try_catch, bind, lift, act.
  rewrite remember_case_id_spec. simpl.
  destruct (truthy (Session.returned_case_id (decode text))); reflexivity.
Qed.

Lemma ingestFile3_settles (p p1 : page) r k :
  Console3.ingestFileBtn_click p = AwaitFetch p1 r k ->
  forall ans q, lastCaseId (k ans q) = Session.case_id_after ans (lastCaseId q).
Proof.
  unfold Console3.ingestFileBtn_click.
  destruct (hd_error _); [|discriminate].
  intros E ans q. injection E as <- <- <-.
  unfold Session.case_id_after.
  destruct ans as [|code text]; [reflexivity|].
  destruct (ok code); [|reflexivity]. simpl negb. cbv iota.
  unfold exec, try_finally, try_catch, bind, ret, act.
  rewrite remember_case_id_spec. simpl.
  destruct (truthy (Session.returned_case_id (decode text))); reflexivity.
Qed.

Lemma ingest4_settles (p p1 : page) r k :
  Console4.ingestBtn_click p = AwaitFetch p1 r k ->
  forall ans q,
    lastCaseId (k ans q) = Session.case_id_after ans (lastCaseId q) /\
    has_caseId (k ans q) = has_caseId q.
Proof.
  unfold Console4.ingestBtn_click.
  destruct (negb _); [discriminate|].
  destruct (if nonempty _ then _ else _); [|discriminate].
  intros E ans q. injection E as <- <- <-.
  unfold callApi_settle, Session.case_id_after.
  destruct ans as [|code text]; [split; reflexivity|].
  destruct (ok code); [|split; reflexivity].
  simpl negb. cbv iota.
  unfold exec, try_finally, try_catch, bind, lift, act.
  rewrite remember_and_show_spec. simpl.
  destruct (truthy (Session.returned_case_id (decode text)));
    [destruct (has_caseId _) eqn:Hq|]; simpl; split;
    try reflexivity; exact Hq.
Qed.

(** The fourth script also assigns the stored identifier to the [caseId]
    field, when the page has one; the field shows what it keeps of it. *)
Lemma ingest4_shows (p p1 : page) r k :
  Console4.ingestBtn_click p = AwaitFetch p1 r k ->
  forall code text q,
    ok code = true ->
    truthy (Session.returned_case_id (decode text)) = true ->
    has_caseId q = true ->
    content (k (Response code text) q) caseId
    = value_kept q caseId (ToString (Session.returned_case_id (decode text))).
Proof.
  unfold Console4.ingestBtn_click.
  destruct (negb _); [discriminate|].
  destruct (if nonempty _ then _ else _); [|discriminate].
  intros E code text q Hok Hc Hq. injection E as <- <- <-.
  unfold callApi_settle. rewrite Hok. simpl negb. cbv iota.
  unfold exec, try_finally, try_catch, bind, lift, act.
  rewrite remember_and_show_spec, Hc.
  change (has_caseId (set_textContent ingestResult (pretty (decode text))
                        (set_text ingestStatus "Ingest OK." q)))
    with (has_caseId q).
  rewrite Hq. simpl.
  destruct (Session.returned_case_id (decode text)); try reflexivity.
  discriminate Hc.
Qed.


End Settling.

(** ** Sessions *)

Lemma edit_keeps (u : Session.edit) (p : page) :
  lastCaseId (Session.apply_edit u p) = lastCaseId p.
Proof. destruct u; reflexivity. Qed.

Section MachineFacts.
Import Session.
Context `{Platform}.
Variable op : Type.
Variable script : op -> handler.
Variable trigger : op -> option button.
Variable is_ingest : op -> bool.

Hypothesis start_keeps :
  forall o p, lastCaseId (page_of (script o p)) = lastCaseId p.
Hypothesis fetch_settles :
  forall o p p1 r k,
    script o p = AwaitFetch p1 r k ->
    forall ans q,
      lastCaseId (k ans q)
      = stored_after is_ingest (Settle o (FetchAnswer ans)) (lastCaseId q).
Hypothesis clipboard_keeps :
  forall o p p1 s k,
    script o p = AwaitClipboard p1 s k ->
    forall written q, lastCaseId (k written q) = lastCaseId q.

Lemma step_keeps_started w l w' :
  started script w -> step script trigger w l w' -> started script w'.
Proof.
  intros Hw Hstep. destruct Hstep as [u w | o w Henabled | o c a before after w p' Hpending Hresume];
    unfold started in *; simpl.
  - exact Hw.
  - destruct (suspended (script o (pg w))); [|exact Hw].
    apply Forall_app. split; [exact Hw|].
    constructor; [|constructor]. exists (pg w). reflexivity.
  - rewrite Hpending in Hw. apply Forall_app in Hw as [Hbefore Hafter].
    inversion Hafter as [|x l' _ Hrest]; subst.
    apply Forall_app. split; assumption.
Qed.

Lemma step_stores w l w' :
  started script w -> step script trigger w l w' ->
  lastCaseId (pg w') = stored_after is_ingest l (lastCaseId (pg w)).
Proof.
  intros Hw Hstep. destruct Hstep as [u w | o w Henabled | o c a before after w p' Hpending Hresume];
    simpl.
  - apply edit_keeps.
  - apply start_keeps.
  - unfold started in Hw. rewrite Hpending in Hw.
    apply Forall_app in Hw as [_ Hafter].
    inversion Hafter as [|x l' [p Hp] _]; subst. simpl in Hp.
    destruct c as [p0 | p0 r k | p0 s k], a as [ans | written];
      simpl in Hresume; try discriminate Hresume;
      injection Hresume as <-.
    + apply (fetch_settles o p p0 r k Hp).
    + apply (clipboard_keeps o p p0 s k Hp).
Qed.

(** Along any session the stored identifier is what the answers to the
    ingests dictate. *)
Lemma steps_store w ls w' :
  started script w -> steps script trigger w ls w' ->
  lastCaseId (pg w') = stored is_ingest ls (lastCaseId (pg w)).
Proof.
  intros Hw Hsteps. induction Hsteps as [w | w l w1 ls w2 Hstep Hsteps IH].
  - reflexivity.
  - simpl. rewrite IH by (eapply step_keeps_started; eassumption).
    now rewrite (step_stores w l w1 Hw Hstep).
Qed.

End MachineFacts.

Ltac by_cases :=
  repeat match goal with
         | |- context [if ?b then _ else _] => destruct b eqn:?
         | |- context [match ?x with _ => _ end] => destruct x eqn:?
         end;
  simpl; first [reflexivity | assumption].

Ltac invert_click E :=
  repeat match type of E with
         | context [if ?b then _ else _] => destruct b
         | context [match ?x with _ => _ end] => destruct x
         end;
  try discriminate E.

Section ScriptFacts.
Import Session.
Context `{Platform}.

Lemma start_keeps2 (o : op2) (p : page) :
  lastCaseId (page_of (script2 o p)) = lastCaseId p.
Proof.
  destruct o; simpl;
    unfold Console2.ingestBtn_click, Console2.searchBtn_click,
           Console2.caseList_click;
    by_cases.
Qed.

Lemma fetch_settles2 (o : op2) (p p1 : page) r k :
  script2 o p = AwaitFetch p1 r k ->
  forall ans q,
    lastCaseId (k ans q)
    = stored_after is_ingest2 (Settle o (FetchAnswer ans)) (lastCaseId q).
Proof.
  destruct o; simpl; intros E ans q.
  - exact (ingest2_settles p p1 r k E ans q).
  - discriminate E.
  - unfold Console2.searchBtn_click in E. invert_click E;
      injection E as <- <- <-; apply keeps_exec; auto 12 with keeps.
  - discriminate E.
  - injection E as <- <- <-. apply keeps_exec. auto 12 with keeps.
  - unfold Console2.caseList_click in E. invert_click E;
      injection E as <- <- <-; apply keeps_exec; auto 12 with keeps.
Qed.

Lemma clipboard_keeps2 (o : op2) (p p1 : page) s k :
  script2 o p = AwaitClipboard p1 s k ->
  forall (written : bool) q, lastCaseId (k written q) = lastCaseId q.
Proof.
  destruct o; simpl; intros E;
    unfold Console2.ingestBtn_click, Console2.searchBtn_click,
           Console2.caseList_click in E;
    invert_click E.
Qed.

Lemma start_keeps3 (o : op3) (p : page) :
  lastCaseId (page_of (script3 o p)) = lastCaseId p.
Proof.
  destruct o; simpl;
    unfold Console3.ingestBtn_click, Console3.ingestFileBtn_click,
           Console3.searchBtn_click, Console3.li_click,
           Console3.explainCaseBtn_click, Console3.copyExplainBtn_click,
           Console3.downloadExplainBtn_click, Console3.mitreExtractBtn_click;
    by_cases.
Qed.

Lemma fetch_settles3 (o : op3) (p p1 : page) r k :
  script3 o p = AwaitFetch p1 r k ->
  forall ans q,
    lastCaseId (k ans q)
    = stored_after is_ingest3 (Settle o (FetchAnswer ans)) (lastCaseId q).
Proof.
  destruct o; simpl; intros E ans q.
  - exact (ingest3_settles p p1 r k E ans q).
  - discriminate E.
  - exact (ingestFile3_settles p p1 r k E ans q).
  - unfold Console3.searchBtn_click in E. invert_click E;
      injection E as <- <- <-; apply keeps_exec; auto 12 with keeps.
  - discriminate E.
  - injection E as <- <- <-. apply keeps_exec.
    apply keeps_try_catch; [|auto 12 with keeps].
    apply keeps_bind; [auto with keeps|]. intros res.
    apply keeps_bind; [auto with keeps|]. intros _.
    apply keeps_bind; [auto with keeps|]. intros cases.
    apply keeps_bind; [auto with keeps|]. intros cs.
    apply keeps_bind; [auto with keeps|]. intros _.
    apply keeps_bind; [auto with keeps|]. intros cases'.
    apply keeps_bind; [auto with keeps|]. intros len.
    auto with keeps.
  - unfold Console3.li_click in E. invert_click E;
      injection E as <- <- <-; apply keeps_exec; auto 12 with keeps.
  - unfold Console3.explainCaseBtn_click in E. invert_click E;
      injection E as <- <- <-; apply keeps_exec; auto 12 with keeps.
  - unfold Console3.copyExplainBtn_click in E. invert_click E.
  - unfold Console3.downloadExplainBtn_click in E. invert_click E.
  - unfold Console3.mitreExtractBtn_click in E. invert_click E;
      injection E as <- <- <-; apply keeps_exec; auto 12 with keeps.
Qed.

Lemma clipboard_keeps3 (o : op3) (p p1 : page) s k :
  script3 o p = AwaitClipboard p1 s k ->
  forall (written : bool) q, lastCaseId (k written q) = lastCaseId q.
Proof.
  destruct o; simpl; intros E;
    unfold Console3.ingestBtn_click, Console3.ingestFileBtn_click,
           Console3.searchBtn_click, Console3.li_click,
           Console3.explainCaseBtn_click, Console3.copyExplainBtn_click,
           Console3.downloadExplainBtn_click, Console3.mitreExtractBtn_click in E;
    invert_click E.
  all: injection E as <- <- <-; intros [|] q; reflexivity.
Qed.

Lemma start_keeps4 (o : op4) (p : page) :
  lastCaseId (page_of (script4 o p)) = lastCaseId p.
Proof.
  destruct o; simpl;
    unfold Console4.ingestBtn_click, Console4.searchBtn_click;
    by_cases.
Qed.

Lemma fetch_settles4 (o : op4) (p p1 : page) r k :
  script4 o p = AwaitFetch p1 r k ->
  forall ans q,
    lastCaseId (k ans q)
    = stored_after is_ingest4 (Settle o (FetchAnswer ans)) (lastCaseId q).
Proof.
  destruct o; simpl; intros E ans q.
  - exact (proj1 (ingest4_settles p p1 r k E ans q)).
  - discriminate E.
  - unfold Console4.searchBtn_click in E. invert_click E;
      injection E as <- <- <-; apply keeps_exec; auto 12 with keeps.
  - discriminate E.
Qed.

Lemma clipboard_keeps4 (o : op4) (p p1 : page) s k :
  script4 o p = AwaitClipboard p1 s k ->
  forall (written : bool) q, lastCaseId (k written q) = lastCaseId q.
Proof.
  destruct o; simpl; intros E;
    unfold Console4.ingestBtn_click, Console4.searchBtn_click in E;
    invert_click E.
Qed.

End ScriptFacts.

(** C6 (as amended): along any session of a script that keeps
    [lastCaseId] -- clicks, user edits and answers in any interleaving --
    the stored identifier is overwritten exactly when a text or file ingest
    settles with a response in 200..299 whose [case_id] is truthy, and then
    with that [case_id]; every other step (an ingest that fails or returns no
    identifier, search, Explain, MITRE extraction, clearing, export, case
    listing, typing) leaves it as it was. *)
Theorem case_id_changes_only_on_ingest `{Platform} :
  (forall w ls w',
     Session.pending w = [] ->
     Session.steps Session.script2 Session.trigger2 w ls w' ->
     lastCaseId (Session.pg w')
     = Session.stored Session.is_ingest2 ls (lastCaseId (Session.pg w))) /\
  (forall w ls w',
     Session.pending w = [] ->
     Session.steps Session.script3 Session.trigger3 w ls w' ->
     lastCaseId (Session.pg w')
     = Session.stored Session.is_ingest3 ls (lastCaseId (Session.pg w))) /\
  (forall w ls w',
     Session.pending w = [] ->
     Session.steps Session.script4 Session.trigger4 w ls w' ->
     lastCaseId (Session.pg w')
     = Session.stored Session.is_ingest4 ls (lastCaseId (Session.pg w))).
Proof.
  split; [|split]; intros w ls w' Hidle Hsteps.
  - apply (steps_store _ Session.script2 Session.trigger2 Session.is_ingest2
             start_keeps2 fetch_settles2 clipboard_keeps2 w ls w');
      [unfold Session.started; rewrite Hidle; constructor | exact Hsteps].
  - apply (steps_store _ Session.script3 Session.trigger3 Session.is_ingest3
             start_keeps3 fetch_settles3 clipboard_keeps3 w ls w');
      [unfold Session.started; rewrite Hidle; constructor | exact Hsteps].
  - apply (steps_store _ Session.script4 Session.trigger4 Session.is_ingest4
             start_keeps4 fetch_settles4 clipboard_keeps4 w ls w');
      [unfold Session.started; rewrite Hidle; constructor | exact Hsteps].
Qed.

(** C6, as stated, fails: a successful ingest whose response carries no
    [case_id] does not overwrite the stored identifier. *)
Lemma ingest_without_case_id_keeps_the_old_one :
  content (run Console3.ingestBtn_click
               (Response 200 (json (VObj [("chunks", VNum (Int 4))]))) true
               (typed ingestText "evidence log" (with_case (VStr "c-old") blank)))
          ingestStatus = "Ingest OK." /\
  lastCaseId (run Console3.ingestBtn_click
                  (Response 200 (json (VObj [("chunks", VNum (Int 4))]))) true
                  (typed ingestText "evidence log"
                     (with_case (VStr "c-old") blank)))
  = VStr "c-old".
Proof. split; reflexivity. Qed.

Lemma case_id_changes_only_on_ingest_witness :
  exists w',
    Session.steps Session.script3 Session.trigger3 idle session w' /\
    lastCaseId (Session.pg w') = VStr "c-123".
Proof.
  assert (Hrun : { w' | Session.steps Session.script3 Session.trigger3
                                      idle session w' }).
  { eexists. unfold session.
    eapply Session.steps_cons; [apply Session.step_edit|].
    eapply Session.steps_cons;
      [apply Session.step_click; intros b [= <-]; reflexivity|].
    eapply Session.steps_cons;
      [eapply Session.step_settle with (before := []); reflexivity|].
    eapply Session.steps_cons; [apply Session.step_edit|].
    eapply Session.steps_cons;
      [apply Session.step_click; intros b [= <-]; reflexivity|].
    eapply Session.steps_cons;
      [apply Session.step_click; intros b [= <-]; reflexivity|].
    eapply Session.steps_cons;
      [eapply Session.step_settle with (before := [_]); reflexivity|].
    eapply Session.steps_cons;
      [eapply Session.step_settle with (before := []); reflexivity|].
    eapply Session.steps_cons;
      [apply Session.step_click; intros b [= <-]; reflexivity|].
    eapply Session.steps_cons;
      [eapply Session.step_settle with (before := []); reflexivity|].
    apply Session.steps_nil. }
  destruct Hrun as [w' Hsteps].
  exists w'. split; [exact Hsteps|].
  rewrite (proj1 (proj2 case_id_changes_only_on_ingest) idle session w'
             eq_refl Hsteps).
  reflexivity.
Defined.

(** ** From ingest to search *)

Section Sending.
Context `{Platform}.

Lemma search2_sends (s : page) :
  nonempty (trim (content s searchQuery)) = true ->
  truthy (lastCaseId s) = true ->
  sent "case_id" (Console2.searchBtn_click s) = Some (lastCaseId s).
Proof.
  intros Hq Hid. unfold Console2.searchBtn_click. rewrite Hq, Hid. reflexivity.
Qed.

Lemma search3_sends (s : page) :
  nonempty (trim (content s searchQuery)) = true ->
  truthy (lastCaseId s) = true ->
  sent "case_id" (Console3.searchBtn_click s) = Some (lastCaseId s).
Proof.
  intros Hq Hid. unfold Console3.searchBtn_click. rewrite Hq, Hid. reflexivity.
Qed.

Lemma search4_sends (s : page) :
  nonempty (trim (content s searchQuery)) = true ->
  truthy (Console4.search_case_id s) = true ->
  sent "case_id" (Console4.searchBtn_click s) = Some (Console4.search_case_id s).
Proof.
  intros Hq Hid. unfold Console4.searchBtn_click. rewrite Hq, Hid. reflexivity.
Qed.

Lemma case_id_after_ok (code : Z) (text : string) (c old : value) :
  ok code = true ->
  get (decode text) "case_id" = inl c -> truthy c = true ->
  Session.case_id_after (Response code text) old = c.
Proof.
  intros Hok Hget Hc. unfold Session.case_id_after.
  rewrite Hok, (returned_of_get _ _ Hget Hc), Hc. reflexivity.
Qed.

End Sending.




(** A text input drops a line break of the identifier it is assigned, and
    the search of the fourth script then sends what is left. *)
Example line_break_is_not_searched :
  lastCaseId (run Console4.ingestBtn_click
                  (Response 200
                     (json (VObj [("case_id",
                                   VStr ("c" ++ Reference.nl ++ "1"))])))
                  true (typed ingestText "evidence log" blank))
  = VStr ("c" ++ Reference.nl ++ "1") /\
  sent "case_id"
       (Console4.searchBtn_click
          (typed searchQuery "beacon"
             (run Console4.ingestBtn_click
                  (Response 200
                     (json (VObj [("case_id",
                                   VStr ("c" ++ Reference.nl ++ "1"))])))
                  true (typed ingestText "evidence log" blank))))
  = Some (VStr "c1").
Proof. split; vm_compute; reflexivity. Qed.

(** * The rest of the scripts *)

(** ** The case viewer's pattern *)

Lemma strip_prefix_app (pre rest : string) :
  strip_prefix pre (pre ++ rest) = Some rest.
Proof.
  induction pre as [|c pre IH]; simpl; [reflexivity|].
  now rewrite Ascii.eqb_refl.
Qed.

Lemma strip_prefix_inv (pre s rest : string) :
  strip_prefix pre s = Some rest -> s = pre ++ rest.
Proof.
  revert s. induction pre as [|c pre IH]; intros s Hs; simpl in *.
  - now injection Hs as ->.
  - destruct s as [|d s]; [discriminate|].
    destruct (Ascii.eqb_spec c d) as [->|]; [|discriminate].
    now rewrite (IH s Hs).
Qed.

Lemma span_unquoted_inv (s run tail : string) :
  Console2.span_unquoted s = (run, tail) ->
  s = run ++ tail /\ no_quote run = true /\
  (tail = "" \/ exists t, tail = String (ascii_of_nat 34) t).
Proof.
  revert run tail. induction s as [|c s IH]; intros run tail Hs; simpl in Hs.
  - injection Hs as <- <-. repeat split. now left.
  - destruct (Ascii.eqb_spec c (ascii_of_nat 34)) as [->|Hc].
    + injection Hs as <- <-. repeat split. right. now exists s.
    + destruct (Console2.span_unquoted s) as [run' tail'] eqn:E.
      injection Hs as <- <-.
      destruct (IH run' tail' eq_refl) as [-> [Hrun Htail]].
      repeat split; [|exact Htail].
      unfold no_quote in *. simpl.
      destruct (Ascii.eqb_spec c (ascii_of_nat 34)); [contradiction|].
      exact Hrun.
Qed.

Lemma span_unquoted_app (id post : string) :
  no_quote id = true ->
  Console2.span_unquoted (id ++ String (ascii_of_nat 34) post)
  = (id, String (ascii_of_nat 34) post).
Proof.
  induction id as [|c id IH]; intros Hid.
  - reflexivity.
  - unfold no_quote in Hid. simpl in Hid.
    apply andb_true_iff in Hid as [Hc Hid].
    simpl. destruct (Ascii.eqb c (ascii_of_nat 34)); [discriminate|].
    now rewrite (IH Hid).
Qed.

(** What the pattern matches at the very start of a text. *)
Lemma case_id_at_iff (s id : string) :
  Console2.case_id_at s = Some id <->
  exists post,
    s = opening ++ id ++ Console2.dq ++ post /\ id <> "" /\ no_quote id = true.
Proof.
  unfold Console2.case_id_at. fold opening. split.
  - destruct (strip_prefix opening s) as [rest|] eqn:Hrest; [|discriminate].
    apply strip_prefix_inv in Hrest.
    destruct (Console2.span_unquoted rest) as [run tail] eqn:Hspan.
    destruct (span_unquoted_inv _ _ _ Hspan) as [-> [Hrun Htail]].
    destruct run as [|c run]; [discriminate|].
    destruct tail as [|d tail]; [discriminate|].
    intros [= <-].
    destruct Htail as [|[t [= -> ->]]]; [discriminate|].
    exists t. now repeat split.
  - intros [post [-> [Hne Hid]]].
    rewrite strip_prefix_app.
    change (Console2.dq ++ post) with (String (ascii_of_nat 34) post).
    rewrite (span_unquoted_app id post Hid).
    destruct id; [contradiction | reflexivity].
Qed.

Lemma case_id_at_empty : Console2.case_id_at "" = None.
Proof. reflexivity. Qed.

Lemma match_case_id_step (c : ascii) (s : string) :
  Console2.match_case_id (String c s)
  = match Console2.case_id_at (String c s) with
    | Some id => Some id
    | None => Console2.match_case_id s
    end.
Proof. reflexivity. Qed.

(** The matcher returns what the pattern matches at the first position
    where it matches at all. *)
Lemma match_case_id_found (s id : string) :
  Console2.match_case_id s = Some id <->
  exists pre rest,
    s = pre ++ rest /\ Console2.case_id_at rest = Some id /\
    forall pre1 rest1,
      s = pre1 ++ rest1 -> (String.length pre1 < String.length pre)%nat ->
      Console2.case_id_at rest1 = None.
Proof.
  revert id. induction s as [|c s IH]; intros id.
  - split.
    + discriminate.
    + intros [pre [rest [Hs [Hat _]]]].
      destruct pre; [|discriminate]. simpl in Hs. subst rest. discriminate.
  - rewrite match_case_id_step. split.
    + destruct (Console2.case_id_at (String c s)) as [id'|] eqn:Hhere.
      * intros [= <-]. exists "", (String c s).
        repeat split; [exact Hhere|]. intros pre1 rest1 _ Hlt. inversion Hlt.
      * intros Hrec. apply IH in Hrec as [pre [rest [-> [Hat Hfirst]]]].
        exists (String c pre), rest. repeat split; [exact Hat|].
        intros pre1 rest1 Hs Hlt. destruct pre1 as [|d pre1].
        -- simpl in Hs. now subst rest1.
        -- simpl in Hs. injection Hs as <- Hs. apply (Hfirst pre1 rest1 Hs).
           simpl in Hlt. apply PeanoNat.lt_S_n. exact Hlt.
    + intros [pre [rest [Hs [Hat Hfirst]]]].
      destruct pre as [|d pre].
      * simpl in Hs. subst rest. now rewrite Hat.
      * simpl in Hs. injection Hs as <- ->.
        rewrite (Hfirst "" (String c (pre ++ rest)) eq_refl)
          by (simpl; apply PeanoNat.Nat.lt_0_succ).
        apply IH. exists pre, rest. repeat split; [exact Hat|].
        intros pre1 rest1 Hs Hlt.
        apply (Hfirst (String c pre1) rest1); simpl; [now rewrite Hs|].
        now apply -> PeanoNat.Nat.succ_lt_mono.
Qed.

Lemma match_case_id_none (s : string) :
  Console2.match_case_id s = None <->
  forall pre rest, s = pre ++ rest -> Console2.case_id_at rest = None.
Proof.
  induction s as [|c s IH].
  - split; [|reflexivity]. intros _ pre rest Hs.
    destruct pre; [|discriminate]. simpl in Hs. now subst rest.
  - rewrite match_case_id_step. split.
    + destruct (Console2.case_id_at (String c s)) eqn:Hhere; [discriminate|].
      intros Hrec pre rest Hs. destruct pre as [|d pre].
      * simpl in Hs. now subst rest.
      * simpl in Hs. injection Hs as <- Hs.
        exact (proj1 IH Hrec pre rest Hs).
    + intros Hnone. rewrite (Hnone "" (String c s) eq_refl).
      apply IH. intros pre rest Hs. apply (Hnone (String c pre) rest).
      simpl. now rewrite Hs.
Qed.

(** X1: when the case viewer's matcher finds an identifier in a text, the
    identifier is not empty, holds no double quote, and stands in the text
    between the opening literal and a double quote; and no such occurrence
    starts earlier in the text. *)
Theorem match_case_id_is_leftmost (s id : string) :
  Console2.match_case_id s = Some id ->
  exists pre post,
    s = pre ++ opening ++ id ++ Console2.dq ++ post /\
    id <> "" /\ no_quote id = true /\
    forall pre1 id1 post1,
      s = pre1 ++ opening ++ id1 ++ Console2.dq ++ post1 ->
      id1 <> "" -> no_quote id1 = true ->
      (String.length pre <= String.length pre1)%nat.
Proof.
  intros Hfound.
  apply match_case_id_found in Hfound as [pre [rest [-> [Hat Hfirst]]]].
  apply case_id_at_iff in Hat as [post [-> [Hne Hid]]].
  exists pre, post. repeat split; try assumption.
  intros pre1 id1 post1 Hs Hne1 Hid1.
  destruct (PeanoNat.Nat.le_gt_cases (String.length pre) (String.length pre1))
    as [Hle | Hlt]; [exact Hle|].
  specialize (Hfirst pre1 _ Hs Hlt).
  assert (Hsome : Console2.case_id_at (opening ++ id1 ++ Console2.dq ++ post1)
                  = Some id1)
    by (apply case_id_at_iff; exists post1; now repeat split).
  congruence.
Qed.

Lemma match_case_id_is_leftmost_witness :
  exists pre post,
    "x" ++ opening ++ "a1" ++ Console2.dq ++ ", " ++ opening ++ "b2" ++ Console2.dq
    = pre ++ opening ++ "a1" ++ Console2.dq ++ post /\
    "a1" <> "" /\ no_quote "a1" = true /\
    forall pre1 id1 post1,
      "x" ++ opening ++ "a1" ++ Console2.dq ++ ", " ++ opening ++ "b2" ++ Console2.dq
      = pre1 ++ opening ++ id1 ++ Console2.dq ++ post1 ->
      id1 <> "" -> no_quote id1 = true ->
      (String.length pre <= String.length pre1)%nat.
Proof.
  exact (match_case_id_is_leftmost
           ("x" ++ opening ++ "a1" ++ Console2.dq ++ ", "
                ++ opening ++ "b2" ++ Console2.dq)
           "a1" eq_refl).
Defined.

(** X2: the matcher finds nothing exactly when the text holds no
    occurrence of the opening literal followed by a non-empty run without
    double quotes and a double quote. *)
Theorem match_case_id_misses_only_without_occurrence (s : string) :
  Console2.match_case_id s = None <->
  ~ exists pre id post,
      s = pre ++ opening ++ id ++ Console2.dq ++ post /\
      id <> "" /\ no_quote id = true.
Proof.
  rewrite match_case_id_none. split.
  - intros Hnone [pre [id [post [Hs [Hne Hid]]]]].
    specialize (Hnone pre _ Hs).
    assert (Hsome : Console2.case_id_at (opening ++ id ++ Console2.dq ++ post)
                    = Some id)
      by (apply case_id_at_iff; exists post; now repeat split).
    congruence.
  - intros Hnever pre rest Hs.
    destruct (Console2.case_id_at rest) as [id|] eqn:Hat; [|reflexivity].
    exfalso. apply Hnever.
    apply case_id_at_iff in Hat as [post [-> [Hne Hid]]].
    now exists pre, id, post.
Qed.

(** ** The text case viewer of the second script *)

(** X3: Load Cases of the second script writes [Loading...], asks for
    [/cases] with GET, and then shows the pretty-printed decoded body whatever
    the status; only a response in 200..299 installs the click handler of
    the list, and a failure leaves it as it was.  After a lost connection
    the list shows what pretty-printing the missing body of the error
    gives. *)
Theorem load_cases_shows_the_body `{Platform} (p : page) :
  exists k,
    Console2.loadCasesBtn_click p
    = AwaitFetch (emit (Fetch (fetch_request "/cases" no_options))
                       (set_text caseList "Loading..." p))
                 (fetch_request "/cases" no_options) k /\
    method (fetch_request "/cases" no_options) = "GET" /\
    (forall code text q,
       content (k (Response code text) q) caseList
       = rendered (pretty (decode text)) /\
       list_click (k (Response code text) q) = (ok code || list_click q)%bool) /\
    (forall q,
       content (k NetworkError q) caseList = rendered (pretty VUndef) /\
       list_click (k NetworkError q) = list_click q).
Proof.
  eexists. split; [reflexivity|]. split; [reflexivity|]. split.
  - intros code text q. cbn beta. unfold callApi_settle.
    destruct (ok code); simpl; split; reflexivity.
  - intros q. split; reflexivity.
Qed.

(** X4: a click on the case list of the second script does nothing until a
    load has installed the handler, and nothing when the matcher finds no
    identifier in the list text.  Otherwise it asks for [/cases/<id>] with the
    identifier the matcher found; a response in 200..299 is pretty-printed
    into the details region, and any failure leaves the page as it is. *)
Theorem case_list_click_opens_the_match `{Platform} (p : page) :
  (list_click p = false \/ Console2.match_case_id (content p caseList) = None ->
   Console2.caseList_click p = Done p) /\
  (forall id,
     list_click p = true ->
     Console2.match_case_id (content p caseList) = Some id ->
     exists k,
       Console2.caseList_click p
       = AwaitFetch (emit (Fetch (fetch_request ("/cases/" ++ id) no_options)) p)
                    (fetch_request ("/cases/" ++ id) no_options) k /\
       (forall code text q,
          ok code = true ->
          k (Response code text) q
          = set_textContent caseDetails (pretty (decode text)) q) /\
       (forall code text q, ok code = false -> k (Response code text) q = q) /\
       (forall q, k NetworkError q = q)).
Proof.
  split.
  - intros [Hoff | Hnone]; unfold Console2.caseList_click.
    + now rewrite Hoff.
    + rewrite Hnone. now destruct (list_click p).
  - intros id Hon Hid. unfold Console2.caseList_click. rewrite Hon, Hid. simpl.
    eexists. split; [reflexivity|]. split; [|split].
    + intros code text q Hok. cbn beta. unfold callApi_settle. now rewrite Hok.
    + intros code text q Hok. cbn beta. unfold callApi_settle. now rewrite Hok.
    + reflexivity.
Qed.

Lemma case_list_click_opens_the_match_witness :
  request_of
    (Console2.caseList_click
       (run Console2.loadCasesBtn_click
            (Response 200
               (json (VObj [("cases",
                             VArr [VObj [("case_id", VStr "c-123")];
                                   VObj [("case_id", VStr "c-456")]])])))
            true blank))
  = Some (fetch_request "/cases/c-123" no_options) /\
  content
    (run Console2.caseList_click
         (Response 200 (json (VObj [("case_id", VStr "c-123");
                                    ("events", VNum (Int 7))])))
         true
         (run Console2.loadCasesBtn_click
              (Response 200
                 (json (VObj [("cases",
                               VArr [VObj [("case_id", VStr "c-123")];
                                     VObj [("case_id", VStr "c-456")]])])))
              true blank))
    caseDetails
  = rendered (pretty (VObj [("case_id", VStr "c-123");
                            ("events", VNum (Int 7))])).
Proof.
  set (listed := run Console2.loadCasesBtn_click
                     (Response 200
                        (json (VObj [("cases",
                                      VArr [VObj [("case_id", VStr "c-123")];
                                            VObj [("case_id", VStr "c-456")]])])))
                     true blank).
  assert (Hon : list_click listed = true) by (vm_compute; reflexivity).
  assert (Hid : Console2.match_case_id (content listed caseList) = Some "c-123")
    by (vm_compute; reflexivity).
  destruct (proj2 (case_list_click_opens_the_match listed) "c-123" Hon Hid)
    as [k [Hclick [Hshown _]]].
  unfold run at 1. rewrite Hclick. split; [reflexivity|].
  rewrite (Hshown 200%Z _ _ eq_refl).
  vm_compute. reflexivity.
Defined.

(** ** The listed case viewer of the third script *)

(** The page after the elements [cs] have been appended to the list. *)
Lemma append_items_listable `{Platform} (cs : list value) (p : page) :
  listable cs = true ->
  exists p',
    Console3.append_items cs p = (inl tt, p') /\
    items p' = (items p ++ cs)%list /\
    log p' = (log p ++ map AppendItem cs)%list /\
    content p' = content p /\ lastCaseId p' = lastCaseId p /\
    disabled p' = disabled p.
Proof.
  revert p. induction cs as [|c cs IH]; intros p Hcs.
  - exists p. simpl. now rewrite !app_nil_r.
  - unfold listable in Hcs. simpl in Hcs.
    apply andb_true_iff in Hcs as [Hc Hcs].
    simpl. unfold bind at 1. unfold lift.
    destruct c; try discriminate Hc; simpl;
      unfold bind at 1; unfold act;
      match goal with
      | |- context [Console3.append_items cs ?q] =>
          destruct (IH q Hcs) as [p' [-> [Hitems [Hlog [Hcontent [Hid Hdis]]]]]]
      end;
      exists p'; simpl in *;
      rewrite Hitems, Hlog, <- !app_assoc; repeat split; assumption.
Qed.

(** At the first element that is [null] or [undefined] the loop throws,
    with the elements before it appended. *)
Lemma append_items_stops `{Platform} (good rest : list value) (bad : value)
    (p : page) :
  listable good = true -> nullish bad = true ->
  exists p',
    Console3.append_items (good ++ bad :: rest) p = (inr TypeError, p') /\
    items p' = (items p ++ good)%list /\
    lastCaseId p' = lastCaseId p /\ disabled p' = disabled p.
Proof.
  revert p. induction good as [|c good IH]; intros p Hgood Hbad.
  - exists p. simpl. rewrite app_nil_r.
    destruct bad; try discriminate Hbad; repeat split.
  - unfold listable in Hgood. simpl in Hgood.
    apply andb_true_iff in Hgood as [Hc Hgood].
    simpl. unfold bind at 1. unfold lift.
    destruct c; try discriminate Hc; simpl;
      unfold bind at 1; unfold act;
      match goal with
      | |- context [Console3.append_items _ ?q] =>
          destruct (IH q Hgood Hbad) as [p' [-> [Hitems [Hid Hdis]]]]
      end;
      exists p'; simpl in *;
      rewrite Hitems, <- !app_assoc; repeat split; assumption.
Qed.

(** X5: Load Cases of the third script empties the list, asks for [/cases]
    with GET, and on a response in 200..299 whose [cases] is an array of
    values none of which is [null] lists exactly these, in order, replacing
    whatever was listed; when [cases] is missing, falsy or the empty array
    it shows [No cases yet. Ingest something first.] and lists nothing. *)
Theorem load_cases_lists_every_case `{Platform} (p : page) :
  exists k,
    Console3.loadCasesBtn_click p
    = AwaitFetch (emit (Fetch (fetch_request "/cases" no_options))
                       (Console3.replace_list (VStr "Loading...") p))
                 (fetch_request "/cases" no_options) k /\
    items (page_of (Console3.loadCasesBtn_click p)) = [] /\
    forall code text q,
      ok code = true ->
      (forall c cs,
         get (decode text) "cases" = inl (VArr (c :: cs)) ->
         listable (c :: cs) = true ->
         items (k (Response code text) q) = c :: cs /\
         content (k (Response code text) q) caseListDisplay = "") /\
      (forall c,
         get (decode text) "cases" = inl c ->
         truthy c = false \/ c = VArr [] ->
         items (k (Response code text) q) = [] /\
         content (k (Response code text) q) caseListDisplay
         = "No cases yet. Ingest something first.").
Proof.
  eexists. split; [reflexivity|]. split; [reflexivity|].
  intros code text q Hok. cbn beta. unfold callApi_settle. rewrite Hok.
  simpl negb. cbv iota. split.
  - intros c cs Hget Hcs.
    unfold exec, try_catch, bind, lift, act. rewrite Hget.
    unfold or_else. simpl truthy. cbv iota. simpl Console3.iterate. cbv iota.
    match goal with
    | |- context [Console3.append_items (c :: cs) ?pg] =>
        destruct (append_items_listable (c :: cs) pg Hcs)
          as [p' [-> [Hitems [_ [Hcontent _]]]]]
    end.
    simpl. rewrite Hitems, Hcontent. split; reflexivity.
  - intros c Hget Hc.
    unfold exec, try_catch, bind, lift, act. rewrite Hget.
    destruct Hc as [Hc | ->].
    + unfold or_else. rewrite Hc. simpl. split; reflexivity.
    + simpl. split; reflexivity.
Qed.

Lemma load_cases_lists_every_case_witness :
  items (run Console3.loadCasesBtn_click
             (Response 200
                (json (VObj [("cases", VArr [VObj [("case_id", VStr "a1")];
                                             VObj [("case_id", VStr "b2")]])])))
             true blank)
  = [VObj [("case_id", VStr "a1")]; VObj [("case_id", VStr "b2")]].
Proof.
  destruct (load_cases_lists_every_case blank) as [k [Hclick [_ Hlists]]].
  unfold run. rewrite Hclick.
  exact (proj1 (proj1 (Hlists 200%Z
                         (json (VObj [("cases",
                                       VArr [VObj [("case_id", VStr "a1")];
                                             VObj [("case_id", VStr "b2")]])]))
                         (emit (Fetch (fetch_request "/cases" no_options))
                               (Console3.replace_list (VStr "Loading...") blank))
                         eq_refl)
                      (VObj [("case_id", VStr "a1")])
                      [VObj [("case_id", VStr "b2")]] eq_refl eq_refl)).
Defined.

(** X6: when the [cases] array of a response in 200..299 holds a [null],
    reading its [case_id] throws: the cases listed before it are removed
    again and the list shows the pretty-printed error instead.  A response
    outside 200..299 likewise lists nothing and shows the pretty-printed
    body. *)
Theorem load_cases_gives_up_on_null `{Platform} (p : page) :
  exists k,
    Console3.loadCasesBtn_click p
    = AwaitFetch (emit (Fetch (fetch_request "/cases" no_options))
                       (Console3.replace_list (VStr "Loading...") p))
                 (fetch_request "/cases" no_options) k /\
    (forall code text q good bad rest,
       ok code = true ->
       get (decode text) "cases" = inl (VArr (good ++ bad :: rest)) ->
       listable good = true -> nullish bad = true ->
       items (k (Response code text) q) = [] /\
       content (k (Response code text) q) caseListDisplay
       = rendered (pretty TypeError)) /\
    (forall code text q,
       ok code = false ->
       items (k (Response code text) q) = [] /\
       content (k (Response code text) q) caseListDisplay
       = rendered (pretty (coalesce (decode text)
                                    (ApiError code (decode text))))).
Proof.
  eexists. split; [reflexivity|]. split.
  - intros code text q good bad rest Hok Hget Hgood Hbad.
    cbn beta. unfold callApi_settle. rewrite Hok. simpl negb. cbv iota.
    unfold exec, try_catch, bind, lift, act. rewrite Hget.
    unfold or_else. simpl truthy. cbv iota. simpl Console3.iterate. cbv iota.
    match goal with
    | |- context [Console3.append_items _ ?pg] =>
        destruct (append_items_stops good rest bad pg Hgood Hbad)
          as [p' [-> _]]
    end.
    simpl. split; reflexivity.
  - intros code text q Hok. cbn beta. unfold callApi_settle. rewrite Hok.
    simpl. split; reflexivity.
Qed.

Lemma load_cases_gives_up_on_null_witness :
  items (run Console3.loadCasesBtn_click
             (Response 200
                (json (VObj [("cases", VArr [VObj [("case_id", VStr "a1")];
                                             VNull])])))
             true blank)
  = [].
Proof.
  destruct (load_cases_gives_up_on_null blank) as [k [Hclick [Hnull _]]].
  unfold run. rewrite Hclick.
  exact (proj1 (Hnull 200%Z
                      (json (VObj [("cases",
                                    VArr [VObj [("case_id", VStr "a1")]; VNull])]))
                      (emit (Fetch (fetch_request "/cases" no_options))
                            (Console3.replace_list (VStr "Loading...") blank))
                      [VObj [("case_id", VStr "a1")]] VNull []
                      eq_refl eq_refl eq_refl eq_refl)).
Defined.



(** ** MITRE extraction *)

Lemma nothing_to_export_false (text : string) :
  text <> "" -> text <> "{}" -> Console3.nothing_to_export text = false.
Proof.
  intros Hne Hbraces. unfold Console3.nothing_to_export, nonempty.
  destruct (String.eqb_spec text ""); [contradiction|].
  destruct (String.eqb_spec text "{}"); [contradiction|]. reflexivity.
Qed.

(** X8: MITRE extraction needs a current case identifier and a summary:
    without the first it only sets [No case selected.], without the second
    (the result region of Explain empty or [{}], white space aside) it only
    sets [No summary yet. Run Explain Case first.].  Otherwise it posts the
    identifier and the trimmed summary to [/mitre_tags], and for a response in
    200..299 whose decoded value is not [null] it pretty-prints the [tags]
    field when that is truthy and the whole response otherwise. *)
Theorem mitre_extraction_contract `{Platform} (p : page) :
  (truthy (lastCaseId p) = false ->
   Console3.mitreExtractBtn_click p
   = Done (set_text mitreStatus "No case selected." p)) /\
  (truthy (lastCaseId p) = true ->
   trim (content p explainResult) = "" \/ trim (content p explainResult) = "{}" ->
   Console3.mitreExtractBtn_click p
   = Done (set_text mitreStatus "No summary yet. Run Explain Case first." p)) /\
  (truthy (lastCaseId p) = true ->
   trim (content p explainResult) <> "" ->
   trim (content p explainResult) <> "{}" ->
   exists p1 k,
     Console3.mitreExtractBtn_click p
     = AwaitFetch p1
         (fetch_request "/mitre_tags"
            (post (JsonText
                     (VObj [("case_id", lastCaseId p);
                            ("summary", VStr (trim (content p explainResult)))]))))
         k /\
     forall code text tags q,
       ok code = true ->
       get (decode text) "tags" = inl tags ->
       content (k (Response code text) q) mitreStatus = "MITRE extraction OK." /\
       content (k (Response code text) q) mitreResult
       = rendered (pretty (if truthy tags then tags else decode text))).
Proof.
  split; [|split].
  - intros Hid. unfold Console3.mitreExtractBtn_click. now rewrite Hid.
  - intros Hid Hsummary. unfold Console3.mitreExtractBtn_click. rewrite Hid.
    destruct Hsummary as [-> | ->]; reflexivity.
  - intros Hid Hne Hbraces. unfold Console3.mitreExtractBtn_click.
    rewrite Hid, (nothing_to_export_false _ Hne Hbraces). simpl.
    eexists _, _. split; [reflexivity|].
    intros code text tags q Hok Htags.
    cbn beta. unfold callApi_settle. rewrite Hok. simpl.
    unfold exec, try_finally, try_catch, bind, lift, act. simpl.
    rewrite Htags. simpl.
    destruct (truthy tags); split; reflexivity.
Qed.

Lemma mitre_extraction_contract_witness :
  sent "summary"
    (Console3.mitreExtractBtn_click
       (typed explainResult " Lateral movement. "
          (with_case (VStr "c-123") blank)))
  = Some (VStr "Lateral movement.").
Proof.
  destruct (proj2 (proj2 (mitre_extraction_contract
                            (typed explainResult " Lateral movement. "
                               (with_case (VStr "c-123") blank))))
              eq_refl ltac:(discriminate) ltac:(discriminate))
    as [p1 [k [Hclick _]]].
  rewrite Hclick. reflexivity.
Defined.

(** ** Report export *)

(** X9: with a summary to export, Download saves its trimmed text under
    [dfir_report_<id>.md], where [<id>] is the current case identifier when
    that is a non-empty string and [unknown_case] otherwise -- also when an
    ingest stored an identifier that is not a string --, reports the file
    name in the status, and neither issues a request nor changes the
    summary. *)
Theorem download_names_the_report (p : page) :
  trim (content p explainResult) <> "" ->
  trim (content p explainResult) <> "{}" ->
  exists name,
    Console3.downloadExplainBtn_click p
    = Done (set_text explainStatus
              ("Report downloaded as " ++ ("dfir_report_" ++ name ++ ".md") ++ ".")
              (emit (Download ("dfir_report_" ++ name ++ ".md")
                              (trim (content p explainResult))) p)) /\
    (forall s, lastCaseId p = VStr s -> s <> "" -> name = s) /\
    ((forall s, lastCaseId p <> VStr s) \/ lastCaseId p = VStr "" ->
     name = "unknown_case") /\
    content (page_of (Console3.downloadExplainBtn_click p)) explainResult
    = content p explainResult /\
    fetches (log (page_of (Console3.downloadExplainBtn_click p)))
    = fetches (log p).
Proof.
  intros Hne Hbraces. unfold Console3.downloadExplainBtn_click.
  rewrite (nothing_to_export_false _ Hne Hbraces).
  eexists. split; [reflexivity|]. split; [|split; [|split]].
  - intros s -> Hs. unfold nonempty.
    destruct (String.eqb_spec s ""); [contradiction | reflexivity].
  - intros [Hother | ->]; [|reflexivity].
    destruct (lastCaseId p) eqn:E; try reflexivity.
    now destruct (Hother s).
  - reflexivity.
  - simpl. rewrite !fetches_app. simpl. now rewrite !app_nil_r.
Qed.

Lemma download_names_the_report_witness :
  log (page_of (Console3.downloadExplainBtn_click
                  (typed explainResult "Lateral movement."
                     (with_case (VNum (Int 7)) blank))))
  = [Download "dfir_report_unknown_case.md" "Lateral movement.";
     SetText explainStatus
       "Report downloaded as dfir_report_unknown_case.md."].
Proof.
  destruct (download_names_the_report
              (typed explainResult "Lateral movement."
                 (with_case (VNum (Int 7)) blank))
              ltac:(discriminate) ltac:(discriminate))
    as [name [Hclick [_ [Hunknown _]]]].
  rewrite Hclick.
  assert (Hname : name = "unknown_case")
    by (apply Hunknown; left; intros s; discriminate).
  rewrite Hname. reflexivity.
Defined.

(** X10: with a summary to export, Copy hands its trimmed text to the
    clipboard when the page has one and reports [Report copied to
    clipboard.] only if the write succeeded, [Copy failed.] with a console
    error if it was refused; without a clipboard it falls back to the copy
    command and reports its outcome the same way.  It never issues a
    request and never changes the summary. *)
Theorem copy_reports_the_outcome (p : page) :
  trim (content p explainResult) <> "" ->
  trim (content p explainResult) <> "{}" ->
  (has_clipboard p = true ->
   exists k,
     Console3.copyExplainBtn_click p
     = AwaitClipboard
         (emit (ClipboardWrite (trim (content p explainResult))) p)
         (trim (content p explainResult)) k /\
     forall q,
       k true q = set_text explainStatus "Report copied to clipboard." q /\
       k false q = emit ConsoleError (set_text explainStatus "Copy failed." q)) /\
  (has_clipboard p = false ->
   filter is_export (log (page_of (Console3.copyExplainBtn_click p)))
   = (filter is_export (log p) ++ [ExecCopy])%list /\
   content (page_of (Console3.copyExplainBtn_click p)) explainStatus
   = match execCommand_copy p with
     | Some true => "Report copied to clipboard."
     | _ => "Copy failed."
     end) /\
  content (page_of (Console3.copyExplainBtn_click p)) explainResult
  = content p explainResult /\
  fetches (log (page_of (Console3.copyExplainBtn_click p))) = fetches (log p).
Proof.
  intros Hne Hbraces. unfold Console3.copyExplainBtn_click.
  rewrite (nothing_to_export_false _ Hne Hbraces).
  split; [|split; [|split]].
  - intros ->. eexists. split; [reflexivity|]. intros q. split; reflexivity.
  - intros ->. simpl.
    destruct (execCommand_copy p) as [[|]|]; simpl;
      rewrite !filter_app; simpl; rewrite ?app_nil_r; split; reflexivity.
  - destruct (has_clipboard p); [reflexivity|]. simpl.
    destruct (execCommand_copy p) as [[|]|]; reflexivity.
  - destruct (has_clipboard p); simpl.
    + rewrite fetches_app. simpl. now rewrite app_nil_r.
    + destruct (execCommand_copy p) as [[|]|]; simpl;
        rewrite !fetches_app; simpl; now rewrite !app_nil_r.
Qed.

Lemma copy_reports_the_outcome_witness :
  content (run Console3.copyExplainBtn_click NetworkError false
               (typed explainResult "Lateral movement." blank))
          explainStatus
  = "Copy failed.".
Proof.
  destruct (proj1 (copy_reports_the_outcome
                     (typed explainResult "Lateral movement." blank)
                     ltac:(discriminate) ltac:(discriminate)) eq_refl)
    as [k [Hclick Hk]].
  unfold run. rewrite Hclick. rewrite (proj2 (Hk _)). reflexivity.
Defined.

(** ** What the ingest sends *)

(** X11: an ingest that passes validation posts the trimmed text to
    [/ingest].  With no metadata typed, [rag_console.js] sends the text
    alone and the other three scripts add the default [{source: "ui"}].
    Metadata that parses is sent as it is by the second and third script,
    whatever JSON value it is; [rag_console.js] and the fourth script leave it
    out when it is falsy ([null], [false], 0 or the empty string). *)
Theorem ingest_request_body `{Platform} (p : page) :
  trim (content p ingestText) <> "" ->
  (trim (content p ingestMetadata) = "" ->
   request_of (RagConsole.ingestBtn_click p)
   = Some (fetch_request "/ingest"
             (post (JsonText
                      (VObj [("text", VStr (trim (content p ingestText)))])))) /\
   forall h,
     In h [Console2.ingestBtn_click; Console3.ingestBtn_click;
           Console4.ingestBtn_click] ->
     request_of (h p)
     = Some (fetch_request "/ingest"
               (post (JsonText
                        (VObj [("text", VStr (trim (content p ingestText)));
                               ("metadata", VObj [("source", VStr "ui")])]))))) /\
  (forall m,
     trim (content p ingestMetadata) <> "" ->
     JSON_parse (trim (content p ingestMetadata)) = Some m ->
     (forall h,
        In h [Console2.ingestBtn_click; Console3.ingestBtn_click] ->
        request_of (h p)
        = Some (fetch_request "/ingest"
                  (post (JsonText
                           (VObj [("text", VStr (trim (content p ingestText)));
                                  ("metadata", m)]))))) /\
     (forall h,
        In h [RagConsole.ingestBtn_click; Console4.ingestBtn_click] ->
        request_of (h p)
        = Some (fetch_request "/ingest"
                  (post (JsonText
                           (VObj (("text", VStr (trim (content p ingestText)))
                                  :: (if truthy m then [("metadata", m)]
                                      else [])))))))).
Proof.
  intros Htext.
  assert (Ht : nonempty (trim (content p ingestText)) = true).
  { unfold nonempty.
    destruct (String.eqb_spec (trim (content p ingestText)) "");
      [contradiction | reflexivity]. }
  split.
  - intros Hraw. split.
    + unfold RagConsole.ingestBtn_click. rewrite Ht, Hraw. reflexivity.
    + intros h [<-|[<-|[<-|[]]]];
        unfold Console2.ingestBtn_click, Console3.ingestBtn_click,
               Console4.ingestBtn_click;
        rewrite Ht, Hraw; reflexivity.
  - intros m Hraw Hm.
    assert (Hr : nonempty (trim (content p ingestMetadata)) = true).
    { unfold nonempty.
      destruct (String.eqb_spec (trim (content p ingestMetadata)) "");
        [contradiction | reflexivity]. }
    split.
    + intros h [<-|[<-|[]]];
        unfold Console2.ingestBtn_click, Console3.ingestBtn_click;
        rewrite Ht, Hr, Hm; reflexivity.
    + intros h [<-|[<-|[]]];
        unfold RagConsole.ingestBtn_click, Console4.ingestBtn_click;
        rewrite Ht, Hr, Hm; reflexivity.
Qed.

Lemma ingest_request_body_witness :
  json_body (Console2.ingestBtn_click
               (typed ingestMetadata "null"
                  (typed ingestText " evidence log " blank)))
  = Some (VObj [("text", VStr "evidence log"); ("metadata", VNull)]) /\
  json_body (Console4.ingestBtn_click
               (typed ingestMetadata "null"
                  (typed ingestText " evidence log " blank)))
  = Some (VObj [("text", VStr "evidence log")]).
Proof.
  destruct (proj2 (ingest_request_body
                     (typed ingestMetadata "null"
                        (typed ingestText " evidence log " blank))
                     ltac:(discriminate))
              VNull ltac:(discriminate) eq_refl) as [H23 H14].
  unfold json_body.
  rewrite (H23 _ (or_introl eq_refl)).
  rewrite (H14 _ (or_intror (or_introl eq_refl))).
  split; reflexivity.
Defined.

(** ** Requests, control by control *)

(** X12: each control of the third script talks to one endpoint.  A request
    of the file ingest is a POST to [/ingest_file] with no header of its own
    and the first chosen file as the [file] part of a multipart body; every
    other request carries [Content-Type: application/json] and is either a
    POST with a JSON body (to [/ingest], [/search], [/explain_case],
    [/mitre_tags]) or a GET without body (to [/cases] and [/cases/<id>]).
    The clear, copy and download controls never issue a request. *)
Theorem requests_by_control `{Platform} (o : Session.op3) (p : page)
    (r : request) :
  request_of (Session.script3 o p) = Some r ->
  match o with
  | Session.IngestFile3 =>
      url r = "/ingest_file" /\ method r = "POST" /\ headers r = [] /\
      exists f, hd_error (ingestFile p) = Some f
                /\ body r = Some (FormData "file" f)
  | Session.LoadCases3 =>
      url r = "/cases" /\ method r = "GET" /\ body r = None /\
      headers r = [("Content-Type", "application/json")]
  | Session.ListItem3 i =>
      (exists id, url r = "/cases/" ++ id) /\ method r = "GET" /\ body r = None /\
      headers r = [("Content-Type", "application/json")]
  | Session.Ingest3 | Session.Search3 | Session.Explain3 | Session.Mitre3 =>
      url r = match o with
              | Session.Ingest3 => "/ingest"
              | Session.Search3 => "/search"
              | Session.Explain3 => "/explain_case"
              | _ => "/mitre_tags"
              end /\
      method r = "POST" /\ (exists v, body r = Some (JsonText v)) /\
      headers r = [("Content-Type", "application/json")]
  | _ => False
  end.
Proof.
  destruct o; simpl;
    unfold Console3.ingestBtn_click, Console3.ingestFileBtn_click,
           Console3.searchBtn_click, Console3.li_click,
           Console3.explainCaseBtn_click, Console3.copyExplainBtn_click,
           Console3.downloadExplainBtn_click, Console3.mitreExtractBtn_click;
    intros E.
  - invert_click E; injection E as <-; repeat split; eexists; reflexivity.
  - discriminate E.
  - destruct (ingestFile p) as [|f files]; simpl in E; [discriminate|].
    injection E as <-. repeat split. exists f. split; reflexivity.
  - invert_click E; injection E as <-; repeat split; eexists; reflexivity.
  - discriminate E.
  - injection E as <-. repeat split.
  - invert_click E; injection E as <-; repeat split; eexists; reflexivity.
  - invert_click E; injection E as <-; repeat split; eexists; reflexivity.
  - invert_click E.
  - invert_click E.
  - invert_click E; injection E as <-; repeat split; eexists; reflexivity.
Qed.

Lemma requests_by_control_witness :
  url {| url := "/ingest_file"; method := "POST"; headers := [];
         body := Some (FormData "file"
                         {| file_name := "disk.evtx"; file_content := "MZ" |}) |}
  = "/ingest_file" /\
  method {| url := "/ingest_file"; method := "POST"; headers := [];
            body := Some (FormData "file"
                            {| file_name := "disk.evtx"; file_content := "MZ" |}) |}
  = "POST" /\
  headers {| url := "/ingest_file"; method := "POST"; headers := [];
             body := Some (FormData "file"
                             {| file_name := "disk.evtx"; file_content := "MZ" |}) |}
  = [] /\
  exists f,
    hd_error (ingestFile
                (Session.apply_edit
                   (Session.Choose [{| file_name := "disk.evtx";
                                       file_content := "MZ" |}]) blank))
    = Some f /\
    body {| url := "/ingest_file"; method := "POST"; headers := [];
            body := Some (FormData "file"
                            {| file_name := "disk.evtx"; file_content := "MZ" |}) |}
    = Some (FormData "file" f).
Proof.
  exact (requests_by_control Session.IngestFile3
           (Session.apply_edit
              (Session.Choose [{| file_name := "disk.evtx";
                                  file_content := "MZ" |}]) blank)
           _ eq_refl).
Defined.

(** ** From Explain to MITRE extraction and export *)

Lemma nonempty_true (s : string) : s <> "" -> nonempty s = true.
Proof.
  intros Hs. unfold nonempty.
  destruct (String.eqb_spec s ""); [contradiction | reflexivity].
Qed.

(** What a settled Explain leaves in its result region. *)
Lemma explain_settles `{Platform} (p p1 : page) r k :
  Console3.explainCaseBtn_click p = AwaitFetch p1 r k ->
  forall code text q,
    lastCaseId (k (Response code text) q) = lastCaseId q /\
    (ok code = false ->
     content (k (Response code text) q) explainResult
     = rendered (pretty (coalesce (decode text)
                                  (ApiError code (decode text))))) /\
    (forall summary,
       ok code = true -> get (decode text) "summary" = inl summary ->
       truthy summary = true ->
       content (k (Response code text) q) explainResult = rendered summary).
Proof.
  unfold Console3.explainCaseBtn_click.
  destruct (negb (truthy (lastCaseId p))); [discriminate|].
  intros E code text q. injection E as <- <- <-.
  cbn beta. unfold callApi_settle. split; [|split].
  - apply keeps_exec. auto 12 with keeps.
  - intros ->. reflexivity.
  - intros summary -> Hsummary Htruthy. simpl negb. cbv iota.
    unfold exec, try_finally, try_catch, bind, lift, act. simpl.
    rewrite Hsummary. simpl. now rewrite Htruthy.
Qed.

Lemma explain_starts `{Platform} (p : page) :
  truthy (lastCaseId p) = true ->
  exists p1 r k,
    Console3.explainCaseBtn_click p = AwaitFetch p1 r k /\
    lastCaseId p1 = lastCaseId p.
Proof.
  intros Hid. unfold Console3.explainCaseBtn_click. rewrite Hid. simpl negb.
  cbv iota. unfold callApi. eexists _, _, _. split; reflexivity.
Qed.

(** X13: MITRE extraction posts the summary Explain rendered, trimmed,
    together with the case identifier that is current when MITRE extraction
    is clicked -- the one of a later ingest when one settled in between, not
    necessarily the one the summary was made for. *)
Theorem mitre_pairs_summary_with_current_case `{Platform} (p : page) :
  truthy (lastCaseId p) = true ->
  exists p1 r k,
    Console3.explainCaseBtn_click p = AwaitFetch p1 r k /\
    lastCaseId p1 = lastCaseId p /\
    sent "case_id" (Console3.explainCaseBtn_click p) = Some (lastCaseId p) /\
    forall (code : Z) (text : string) (summary : value) (q : page),
      ok code = true ->
      get (decode text) "summary" = inl summary ->
      truthy summary = true ->
      trim (rendered summary) <> "" -> trim (rendered summary) <> "{}" ->
      truthy (lastCaseId q) = true ->
      sent "summary" (Console3.mitreExtractBtn_click (k (Response code text) q))
      = Some (VStr (trim (rendered summary))) /\
      sent "case_id" (Console3.mitreExtractBtn_click (k (Response code text) q))
      = Some (lastCaseId q).
Proof.
  intros Hp.
  destruct (explain_starts p Hp) as [p1 [r [k [Hclick Hsame]]]].
  exists p1, r, k. split; [exact Hclick|]. split; [exact Hsame|]. split.
  { unfold Console3.explainCaseBtn_click. now rewrite Hp. }
  intros code text summary q Hok Hsummary Htruthy Hne Hbraces Hid.
  destruct (explain_settles p p1 r k Hclick code text q) as [Hkeeps [_ Hshown]].
  specialize (Hshown summary Hok Hsummary Htruthy).
  set (q' := k (Response code text) q) in *.
  unfold Console3.mitreExtractBtn_click.
  rewrite Hshown, Hkeeps, Hid, (nothing_to_export_false _ Hne Hbraces).
  simpl. rewrite Hkeeps. split; reflexivity.
Qed.

Lemma mitre_pairs_summary_with_current_case_witness :
  sent "summary"
    (Console3.mitreExtractBtn_click
       (run Console3.explainCaseBtn_click
            (Response 200 (json (VObj [("summary", VStr " Lateral movement. ")])))
            true (with_case (VStr "c-123") blank)))
  = Some (VStr "Lateral movement.").
Proof.
  destruct (mitre_pairs_summary_with_current_case
              (with_case (VStr "c-123") blank) eq_refl)
    as [p1 [r [k [Hclick [Hsame [_ Hposts]]]]]].
  unfold run. rewrite Hclick.
  refine (proj1 (Hposts 200%Z
                   (json (VObj [("summary", VStr " Lateral movement. ")]))
                   (VStr " Lateral movement. ") p1
                   eq_refl eq_refl eq_refl _ _ _)).
  - discriminate.
  - discriminate.
  - rewrite Hsame. reflexivity.
Defined.

(** X14: a failed Explain passes for a summary.  After a response outside
    200..299 the status reads [Error: <status>] and the result region holds
    the pretty-printed error; unless that text is empty or [{}] the export
    and extraction controls take it for the report: Download saves it and
    MITRE extraction posts it. *)
Theorem failed_explain_is_exported `{Platform} (p : page) :
  truthy (lastCaseId p) = true ->
  exists p1 r k,
    Console3.explainCaseBtn_click p = AwaitFetch p1 r k /\
    lastCaseId p1 = lastCaseId p /\
    forall (code : Z) (text : string) (q : page),
      ok code = false ->
      trim (rendered (pretty (coalesce (decode text)
                                       (ApiError code (decode text))))) <> "" ->
      trim (rendered (pretty (coalesce (decode text)
                                       (ApiError code (decode text))))) <> "{}" ->
      content (k (Response code text) q) explainStatus
      = "Error: " ++ decimal code /\
      filter is_export
        (log (page_of (Console3.downloadExplainBtn_click
                         (k (Response code text) q))))
      = (filter is_export (log (k (Response code text) q))
         ++ [Download
               ("dfir_report_"
                ++ match lastCaseId q with
                   | VStr s => if nonempty s then s else "unknown_case"
                   | _ => "unknown_case"
                   end ++ ".md")
               (trim (rendered (pretty (coalesce (decode text)
                                                 (ApiError code (decode text))))))])%list /\
      (truthy (lastCaseId q) = true ->
       sent "summary" (Console3.mitreExtractBtn_click (k (Response code text) q))
       = Some (VStr (trim (rendered (pretty (coalesce (decode text)
                                                      (ApiError code (decode text)))))))).
Proof.
  intros Hp.
  destruct (explain_starts p Hp) as [p1 [r [k [Hclick Hsame]]]].
  exists p1, r, k. split; [exact Hclick|]. split; [exact Hsame|].
  intros code text q Hok Hne Hbraces.
  destruct (explain_settles p p1 r k Hclick code text q) as [Hkeeps [Hshown _]].
  specialize (Hshown Hok).
  assert (Hstatus : content (k (Response code text) q) explainStatus
                    = "Error: " ++ decimal code).
  { unfold Console3.explainCaseBtn_click in Hclick.
    destruct (negb (truthy (lastCaseId p))); [discriminate|].
    injection Hclick as <- <- <-. cbn beta. unfold callApi_settle.
    rewrite Hok. reflexivity. }
  set (q' := k (Response code text) q) in *.
  split; [exact Hstatus|]. split.
  - unfold Console3.downloadExplainBtn_click.
    rewrite Hshown, Hkeeps, (nothing_to_export_false _ Hne Hbraces).
    simpl. rewrite !filter_app. simpl. now rewrite app_nil_r.
  - intros Hid. unfold Console3.mitreExtractBtn_click.
    rewrite Hshown, Hkeeps, Hid, (nothing_to_export_false _ Hne Hbraces).
    reflexivity.
Qed.

Lemma failed_explain_is_exported_witness :
  sent "summary"
    (Console3.mitreExtractBtn_click
       (run Console3.explainCaseBtn_click (Response 500 "backend down") true
            (with_case (VStr "c-123") blank)))
  = Some (VStr (Reference.quote ++ "backend down" ++ Reference.quote)).
Proof.
  destruct (failed_explain_is_exported
              (with_case (VStr "c-123") blank) eq_refl)
    as [p1 [r [k [Hclick [Hsame Hfails]]]]].
  unfold run. rewrite Hclick.
  refine (proj2 (proj2 (Hfails 500%Z "backend down" p1 eq_refl _ _)) _).
  - discriminate.
  - discriminate.
  - rewrite Hsame. reflexivity.
Defined.

(** ** One request per guarded button *)

Create HintDb steady.

Lemma preserves_ret {A B} (see : page -> B) (a : A) : preserves see (ret a).
Proof. intros p; reflexivity. Qed.

Lemma preserves_throw {A B} (see : page -> B) (e : value) :
  preserves see (@throw A e).
Proof. intros p; reflexivity. Qed.

Lemma preserves_lift {A B} (see : page -> B) (r : A + value) :
  preserves see (lift r).
Proof. intros p; reflexivity. Qed.

Lemma preserves_read {A B} (see : page -> B) (f : page -> A) :
  preserves see (read f).
Proof. intros p; reflexivity. Qed.

Lemma preserves_act {B} (see : page -> B) (f : page -> page) :
  (forall p, see (f p) = see p) -> preserves see (act f).
Proof. intros Hf p; apply Hf. Qed.

Lemma preserves_bind {A A' B} (see : page -> B) (m : M A) (k : A -> M A') :
  preserves see m -> (forall a, preserves see (k a)) -> preserves see (bind m k).
Proof.
  intros Hm Hk p. unfold bind. specialize (Hm p).
  destruct (m p) as [[a | e] p']; simpl in *; [|exact Hm].
  now rewrite Hk.
Qed.

Lemma preserves_try_catch {A B} (see : page -> B) (m : M A) (h : value -> M A) :
  preserves see m -> (forall e, preserves see (h e)) ->
  preserves see (try_catch m h).
Proof.
  intros Hm Hh p. unfold try_catch. specialize (Hm p).
  destruct (m p) as [[a | e] p']; simpl in *; [exact Hm|].
  now rewrite Hh.
Qed.

Lemma preserves_if {A B} (see : page -> B) (b : bool) (m1 m2 : M A) :
  preserves see m1 -> preserves see m2 -> preserves see (if b then m1 else m2).
Proof. destruct b; auto. Qed.

#[local] Hint Resolve preserves_ret preserves_throw preserves_lift
  preserves_read preserves_bind preserves_try_catch preserves_if : steady.
#[local] Hint Extern 1 (preserves _ (act _)) =>
  (apply preserves_act; intros; reflexivity) : steady.

Section Steady.
Context `{Platform}.

Lemma steady_remember_case_id res : preserves disabled (remember_case_id res).
Proof. unfold remember_case_id, and_get. auto 10 with steady. Qed.

Lemma steady_remember_and_show res :
  preserves disabled (Console4.remember_and_show res).
Proof.
  intros p. rewrite remember_and_show_spec. simpl.
  destruct (truthy _); [destruct (has_caseId p)|]; reflexivity.
Qed.

Lemma steady_render_error1 status result err :
  preserves disabled (RagConsole.render_error status result err).
Proof. unfold RagConsole.render_error. auto 10 with steady. Qed.

Lemma steady_render_error2 status result err :
  preserves disabled (Console2.render_error status result err).
Proof. unfold Console2.render_error. auto 10 with steady. Qed.

Lemma steady_render_error3 status result err :
  preserves disabled (Console3.render_error status result err).
Proof. unfold Console3.render_error. auto 10 with steady. Qed.

Lemma steady_render_error4 status result err :
  preserves disabled (Console4.render_error status result err).
Proof. unfold Console4.render_error. auto 10 with steady. Qed.

Lemma steady_append_items cs : preserves disabled (Console3.append_items cs).
Proof. induction cs as [|c cs IH]; simpl; auto 10 with steady. Qed.

End Steady.

#[local] Hint Resolve steady_remember_case_id steady_remember_and_show
  steady_render_error1 steady_render_error2 steady_render_error3
  steady_render_error4 steady_append_items : steady.

(** [try { m } catch (err) { h err } finally { t.disabled = false; }] with
    [m] and [h] that leave the flags alone enables [t] and nothing else. *)
Lemma finish_flags {A} (m : M A) (h : value -> M A) (t : button) (q : page) :
  preserves disabled m -> (forall e, preserves disabled (h e)) ->
  forall b,
    disabled (exec (try_finally (try_catch m h)
                                (act (set_disabled t false))) q) b
    = negb (pulls (Some t) b) && disabled q b.
Proof.
  intros Hm Hh b.
  pose proof (preserves_try_catch disabled m h Hm Hh q) as Hsame.
  unfold exec, try_finally.
  destruct (try_catch m h q) as [r p']; simpl in *.
  rewrite Hsame. destruct (button_beq b t); reflexivity.
Qed.

Lemma steady_exec {A} (m : M A) (q : page) :
  preserves disabled m ->
  forall b, disabled (exec m q) b = disabled q b.
Proof. intros Hm b. unfold exec. now rewrite Hm. Qed.

Ltac flags_set :=
  intros b; simpl;
  repeat match goal with
         | |- context [button_beq ?x ?y] => destruct (button_beq x y)
         end;
  reflexivity.

Ltac guarded_flags :=
  unfold callApi; split;
  [flags_set | intros ans q b; apply finish_flags; auto 12 with steady].

Ltac unguarded_flags :=
  unfold callApi; split;
  [flags_set | intros ans q b; simpl; apply steady_exec; auto 12 with steady].

Section Guarding.
Context `{Platform}.

Lemma guards_ingest1 : guards RagConsole.ingestBtn_click (Some ingestBtn).
Proof.
  intros p. unfold RagConsole.ingestBtn_click.
  destruct (negb _); [flags_set|].
  destruct (if nonempty _ then _ else _); [|flags_set].
  guarded_flags.
Qed.

Lemma guards_search1 : guards RagConsole.searchBtn_click (Some searchBtn).
Proof.
  intros p. unfold RagConsole.searchBtn_click.
  destruct (negb _); [flags_set|]. guarded_flags.
Qed.

Lemma guards_ingest2 : guards Console2.ingestBtn_click (Some ingestBtn).
Proof.
  intros p. unfold Console2.ingestBtn_click.
  destruct (negb _); [flags_set|].
  destruct (if nonempty _ then _ else _); [|flags_set].
  guarded_flags.
Qed.

Lemma guards_search2 : guards Console2.searchBtn_click (Some searchBtn).
Proof.
  intros p. unfold Console2.searchBtn_click.
  destruct (negb _); [flags_set|].
  destruct (negb _); [flags_set|]. guarded_flags.
Qed.

Lemma guards_loadCases2 : guards Console2.loadCasesBtn_click None.
Proof.
  intros p. unfold Console2.loadCasesBtn_click. unguarded_flags.
Qed.

Lemma guards_caseList2 : guards Console2.caseList_click None.
Proof.
  intros p. unfold Console2.caseList_click.
  destruct (list_click p); [|flags_set].
  destruct (Console2.match_case_id _); [|flags_set].
  unguarded_flags.
Qed.

Lemma guards_ingest3 : guards Console3.ingestBtn_click (Some ingestBtn).
Proof.
  intros p. unfold Console3.ingestBtn_click.
  destruct (negb _); [flags_set|].
  destruct (if nonempty _ then _ else _); [|flags_set].
  guarded_flags.
Qed.

Lemma guards_ingestFile3 :
  guards Console3.ingestFileBtn_click (Some ingestFileBtn).
Proof.
  intros p. unfold Console3.ingestFileBtn_click.
  destruct (hd_error _); [|flags_set].
  split; [flags_set|].
  intros ans q b. apply finish_flags; [|auto with steady].
  apply preserves_bind; [|auto 12 with steady].
  destruct ans as [|code text]; [auto with steady|].
  destruct (negb (ok code)); auto with steady.
Qed.

Lemma guards_search3 : guards Console3.searchBtn_click (Some searchBtn).
Proof.
  intros p. unfold Console3.searchBtn_click.
  destruct (negb _); [flags_set|].
  destruct (negb _); [flags_set|]. guarded_flags.
Qed.

Lemma guards_loadCases3 : guards Console3.loadCasesBtn_click None.
Proof.
  intros p. unfold Console3.loadCasesBtn_click, callApi.
  split; [flags_set|].
  intros ans q b. simpl. apply steady_exec.
  apply preserves_try_catch; [|auto 12 with steady].
  apply preserves_bind; [auto with steady|]. intros res.
  apply preserves_bind; [auto with steady|]. intros _.
  apply preserves_bind; [auto with steady|]. intros cases.
  apply preserves_bind; [auto with steady|]. intros cs.
  apply preserves_bind; [auto with steady|]. intros _.
  apply preserves_bind; [auto with steady|]. intros cases'.
  apply preserves_bind; [auto with steady|]. intros len.
  auto with steady.
Qed.

Lemma guards_li3 i : guards (Console3.li_click i) None.
Proof.
  intros p. unfold Console3.li_click.
  destruct (nth_error _ _); [|flags_set].
  destruct (get _ _); [|flags_set].
  unguarded_flags.
Qed.

Lemma guards_explain3 :
  guards Console3.explainCaseBtn_click (Some explainCaseBtn).
Proof.
  intros p. unfold Console3.explainCaseBtn_click.
  destruct (negb _); [flags_set|]. guarded_flags.
Qed.

Lemma guards_copy3 : guards Console3.copyExplainBtn_click None.
Proof.
  intros p. unfold Console3.copyExplainBtn_click.
  destruct (Console3.nothing_to_export _); [flags_set|].
  destruct (has_clipboard p).
  - split; [reflexivity|]. split; [flags_set|].
    intros [|] q b; reflexivity.
  - simpl. destruct (execCommand_copy p) as [copied|]; flags_set.
Qed.

Lemma guards_download3 : guards Console3.downloadExplainBtn_click None.
Proof.
  intros p. unfold Console3.downloadExplainBtn_click.
  destruct (Console3.nothing_to_export _); flags_set.
Qed.

Lemma guards_mitre3 :
  guards Console3.mitreExtractBtn_click (Some mitreExtractBtn).
Proof.
  intros p. unfold Console3.mitreExtractBtn_click.
  destruct (negb _); [flags_set|].
  destruct (Console3.nothing_to_export _); [flags_set|]. guarded_flags.
Qed.

Lemma guards_ingest4 : guards Console4.ingestBtn_click (Some ingestBtn).
Proof.
  intros p. unfold Console4.ingestBtn_click.
  destruct (negb _); [flags_set|].
  destruct (if nonempty _ then _ else _); [|flags_set].
  guarded_flags.
Qed.

Lemma guards_search4 : guards Console4.searchBtn_click (Some searchBtn).
Proof.
  intros p. unfold Console4.searchBtn_click.
  destruct (negb _); [flags_set|].
  destruct (negb _); [flags_set|]. guarded_flags.
Qed.

Lemma script1_guards (o : op1) : guards (script1 o) (trigger1 o).
Proof.
  destruct o; simpl;
    [apply guards_ingest1 | flags_set | apply guards_search1 | flags_set].
Qed.

Lemma script2_guards (o : Session.op2) :
  guards (Session.script2 o) (Session.trigger2 o).
Proof.
  destruct o; simpl;
    [apply guards_ingest2 | flags_set | apply guards_search2 | flags_set
    |apply guards_loadCases2 | apply guards_caseList2].
Qed.

Lemma script3_guards (o : Session.op3) :
  guards (Session.script3 o) (Session.trigger3 o).
Proof.
  destruct o; simpl;
    [apply guards_ingest3 | flags_set | apply guards_ingestFile3
    |apply guards_search3 | flags_set | apply guards_loadCases3
    |apply guards_li3 | apply guards_explain3 | apply guards_copy3
    |apply guards_download3 | apply guards_mitre3].
Qed.

Lemma script4_guards (o : Session.op4) :
  guards (Session.script4 o) (Session.trigger4 o).
Proof.
  destruct o; simpl;
    [apply guards_ingest4 | flags_set | apply guards_search4 | flags_set].
Qed.

End Guarding.

Lemma pulls_true (trig : option button) (b : button) :
  pulls trig b = true -> trig = Some b.
Proof.
  unfold pulls. destruct trig as [t|]; [|discriminate].
  destruct b, t; try discriminate; reflexivity.
Qed.

Section Exclusion.
Import Session.
Context `{Platform}.
Variable op : Type.
Variable script : op -> handler.
Variable trigger : op -> option button.

Hypothesis script_guards : forall o, guards (script o) (trigger o).

Lemma in_flight_app b (l1 l2 : list (op * proc)) :
  in_flight trigger b (l1 ++ l2)
  = (in_flight trigger b l1 + in_flight trigger b l2)%nat.
Proof. unfold in_flight. now rewrite filter_app, length_app. Qed.

Lemma in_flight_cons b o c (l : list (op * proc)) :
  in_flight trigger b ((o, c) :: l)
  = ((if pulls (trigger o) b then 1 else 0) + in_flight trigger b l)%nat.
Proof. unfold in_flight. simpl. destruct (pulls _ _); reflexivity. Qed.

Lemma step_one_at_a_time w l w' :
  started script w -> one_at_a_time trigger w ->
  step script trigger w l w' -> one_at_a_time trigger w'.
Proof.
  intros Hstarted Hw Hstep.
  destruct Hstep as [u w | o w Henabled
                    | o c a before after w p' Hpending Hresume];
    intros b; specialize (Hw b); simpl.
  - destruct u; exact Hw.
  - pose proof (script_guards o (pg w)) as Hg.
    destruct (script o (pg w)) as [p' | p1 r k | p1 s k]; simpl.
    + now rewrite Hg.
    + destruct Hg as [Hstart _].
      rewrite in_flight_app, in_flight_cons, Hstart. simpl.
      destruct (pulls (trigger o) b) eqn:Hb; simpl.
      * rewrite (Henabled b (pulls_true _ _ Hb)) in Hw. rewrite Hw. reflexivity.
      * rewrite Hw. destruct (disabled (pg w) b); reflexivity.
    + destruct Hg as [Hnone [Hstart _]].
      rewrite in_flight_app, in_flight_cons, Hstart, Hnone. simpl.
      rewrite Hw. destruct (disabled (pg w) b); reflexivity.
  - unfold started in Hstarted. rewrite Hpending in Hstarted, Hw.
    apply Forall_app in Hstarted as [_ Hafter].
    inversion Hafter as [|x l' [p Hp] _]; subst. simpl in Hp.
    rewrite in_flight_app, in_flight_cons in Hw. rewrite in_flight_app.
    pose proof (script_guards o p) as Hg. rewrite Hp in Hg.
    destruct c as [p0 | p0 r k | p0 s k], a as [ans | written];
      simpl in Hresume; try discriminate Hresume;
      injection Hresume as <-.
    + destruct Hg as [_ Hend]. rewrite Hend.
      destruct (pulls (trigger o) b), (disabled (pg w) b); simpl in *; lia.
    + destruct Hg as [Hnone [_ Hend]]. rewrite Hend.
      rewrite Hnone in Hw. simpl in Hw. exact Hw.
Qed.

Lemma steps_one_at_a_time w ls w' :
  started script w -> one_at_a_time trigger w ->
  steps script trigger w ls w' -> one_at_a_time trigger w'.
Proof.
  intros Hstarted Hw Hsteps.
  induction Hsteps as [w | w l w1 ls w2 Hstep Hsteps IH]; [exact Hw|].
  apply IH.
  - exact (step_keeps_started op script trigger w l w1 Hstarted Hstep).
  - exact (step_one_at_a_time w l w1 Hstarted Hw Hstep).
Qed.

End Exclusion.

(** X15: in every script, along any session -- clicks, edits and answers
    in any interleaving, a click reaching only an enabled button -- a
    button that guards an operation is disabled exactly while one handler
    it started awaits its response, and no two handlers of the same button
    are ever in flight together.  Operations without a button of their own
    (clearing, case listing, case viewing, export) change no flag. *)
Theorem guarded_controls_run_one_at_a_time `{Platform} :
  (forall w ls w',
     Session.started script1 w -> one_at_a_time trigger1 w ->
     Session.steps script1 trigger1 w ls w' -> one_at_a_time trigger1 w') /\
  (forall w ls w',
     Session.started Session.script2 w -> one_at_a_time Session.trigger2 w ->
     Session.steps Session.script2 Session.trigger2 w ls w' ->
     one_at_a_time Session.trigger2 w') /\
  (forall w ls w',
     Session.started Session.script3 w -> one_at_a_time Session.trigger3 w ->
     Session.steps Session.script3 Session.trigger3 w ls w' ->
     one_at_a_time Session.trigger3 w') /\
  (forall w ls w',
     Session.started Session.script4 w -> one_at_a_time Session.trigger4 w ->
     Session.steps Session.script4 Session.trigger4 w ls w' ->
     one_at_a_time Session.trigger4 w').
Proof.
  split; [|split; [|split]]; intros w ls w'.
  - apply steps_one_at_a_time. exact script1_guards.
  - apply steps_one_at_a_time. exact script2_guards.
  - apply steps_one_at_a_time. exact script3_guards.
  - apply steps_one_at_a_time. exact script4_guards.
Qed.

Lemma guarded_controls_run_one_at_a_time_witness :
  exists w',
    Session.steps Session.script3 Session.trigger3 idle
      [Session.Edit (Session.TypeInto ingestText "evidence log");
       Session.Click Session.Ingest3;
       Session.Click Session.LoadCases3;
       Session.Click Session.LoadCases3] w' /\
    in_flight Session.trigger3 ingestBtn (Session.pending w') = 1%nat /\
    in_flight Session.trigger3 searchBtn (Session.pending w') = 0%nat /\
    length (Session.pending w') = 3%nat.
Proof.
  set (c1 := Session.script3 Session.Ingest3
               (typed ingestText "evidence log" blank)).
  set (c2 := Session.script3 Session.LoadCases3 (page_of c1)).
  set (c3 := Session.script3 Session.LoadCases3 (page_of c2)).
  exists {| Session.pg := page_of c3;
            Session.pending := [(Session.Ingest3, c1);
                                (Session.LoadCases3, c2);
                                (Session.LoadCases3, c3)] |}.
  assert (Hsteps :
    Session.steps Session.script3 Session.trigger3 idle
      [Session.Edit (Session.TypeInto ingestText "evidence log");
       Session.Click Session.Ingest3;
       Session.Click Session.LoadCases3;
       Session.Click Session.LoadCases3]
      {| Session.pg := page_of c3;
         Session.pending := [(Session.Ingest3, c1);
                             (Session.LoadCases3, c2);
                             (Session.LoadCases3, c3)] |}).
  { eapply Session.steps_cons; [apply Session.step_edit|].
    eapply Session.steps_cons;
      [apply Session.step_click; intros b [= <-]; reflexivity|].
    eapply Session.steps_cons;
      [apply Session.step_click; intros b [=]|].
    eapply Session.steps_cons;
      [apply Session.step_click; intros b [=]|].
    apply Session.steps_nil. }
  assert (Hidle : one_at_a_time Session.trigger3 idle)
    by (intros b; reflexivity).
  assert (Hstarted : Session.started Session.script3 idle) by constructor.
  pose proof (proj1 (proj2 (proj2 guarded_controls_run_one_at_a_time))
                idle _ _ Hstarted Hidle Hsteps) as Hone.
  split; [exact Hsteps|].
  split; [exact (eq_trans (Hone ingestBtn) eq_refl)|].
  split; [exact (eq_trans (Hone searchBtn) eq_refl)|].
  reflexivity.
Defined.

(** ** A stored identifier stays *)

Lemma stored_stays_truthy `{Platform} {op} (is_ingest : op -> bool)
    (ls : list (Session.label op)) (old : value) :
  truthy old = true -> truthy (Session.stored is_ingest ls old) = true.
Proof.
  revert old. induction ls as [|l ls IH]; intros old Hold; simpl;
    [exact Hold|].
  apply IH. destruct l as [u | o | o [ans | written]]; simpl; try exact Hold.
  destruct (is_ingest o); [|exact Hold].
  unfold Session.case_id_after. destruct ans as [|code text]; [exact Hold|].
  destruct (ok code && truthy _) eqn:E; [|exact Hold].
  now apply andb_prop in E.
Qed.

(** X16: no operation of the scripts that keep a case identifier ever
    clears it.  Once one is stored, every later page of the session --
    after any clicks, edits and answers, failed or not -- holds a truthy
    identifier, so a search with a query and an Explain never end on the
    missing-case message again: they are sent, with the identifier the page
    then holds. *)
Theorem a_stored_case_is_never_lost `{Platform} :
  (forall w ls w',
     Session.started Session.script2 w ->
     truthy (lastCaseId (Session.pg w)) = true ->
     Session.steps Session.script2 Session.trigger2 w ls w' ->
     truthy (lastCaseId (Session.pg w')) = true /\
     (nonempty (trim (content (Session.pg w') searchQuery)) = true ->
      sent "case_id" (Console2.searchBtn_click (Session.pg w'))
      = Some (lastCaseId (Session.pg w')))) /\
  (forall w ls w',
     Session.started Session.script3 w ->
     truthy (lastCaseId (Session.pg w)) = true ->
     Session.steps Session.script3 Session.trigger3 w ls w' ->
     truthy (lastCaseId (Session.pg w')) = true /\
     (nonempty (trim (content (Session.pg w') searchQuery)) = true ->
      sent "case_id" (Console3.searchBtn_click (Session.pg w'))
      = Some (lastCaseId (Session.pg w'))) /\
     sent "case_id" (Console3.explainCaseBtn_click (Session.pg w'))
     = Some (lastCaseId (Session.pg w'))).
Proof.
  split; intros w ls w' Hstarted Hheld Hsteps.
  - assert (Hstill : truthy (lastCaseId (Session.pg w')) = true).
    { rewrite (steps_store _ Session.script2 Session.trigger2 Session.is_ingest2
                 start_keeps2 fetch_settles2 clipboard_keeps2 w ls w'
                 Hstarted Hsteps).
      now apply stored_stays_truthy. }
    split; [exact Hstill|]. intros Hquery.
    now apply search2_sends.
  - assert (Hstill : truthy (lastCaseId (Session.pg w')) = true).
    { rewrite (steps_store _ Session.script3 Session.trigger3 Session.is_ingest3
                 start_keeps3 fetch_settles3 clipboard_keeps3 w ls w'
                 Hstarted Hsteps).
      now apply stored_stays_truthy. }
    split; [exact Hstill|]. split.
    + intros Hquery. now apply search3_sends.
    + unfold Console3.explainCaseBtn_click. now rewrite Hstill.
Qed.

Lemma a_stored_case_is_never_lost_witness :
  exists w',
    Session.steps Session.script3 Session.trigger3
      {| Session.pg := with_case (VStr "c-123") blank; Session.pending := [] |}
      [Session.Click Session.IngestClear3;
       Session.Click Session.Ingest3;
       Session.Click Session.SearchClear3;
       Session.Edit (Session.TypeInto searchQuery "beacon")] w' /\
    sent "case_id" (Console3.searchBtn_click (Session.pg w'))
    = Some (VStr "c-123").
Proof.
  set (p0 := with_case (VStr "c-123") blank).
  set (p1 := page_of (Session.script3 Session.IngestClear3 p0)).
  set (p2 := page_of (Session.script3 Session.Ingest3 p1)).
  set (p3 := page_of (Session.script3 Session.SearchClear3 p2)).
  set (w' := {| Session.pg := typed searchQuery "beacon" p3;
                Session.pending := @nil (Session.op3 * proc) |}).
  assert (Hsteps :
    Session.steps Session.script3 Session.trigger3
      {| Session.pg := p0; Session.pending := [] |}
      [Session.Click Session.IngestClear3;
       Session.Click Session.Ingest3;
       Session.Click Session.SearchClear3;
       Session.Edit (Session.TypeInto searchQuery "beacon")] w').
  { eapply Session.steps_cons;
      [apply Session.step_click; intros b [=]|].
    eapply Session.steps_cons;
      [apply Session.step_click; intros b [= <-]; reflexivity|].
    eapply Session.steps_cons;
      [apply Session.step_click; intros b [=]|].
    eapply Session.steps_cons; [apply Session.step_edit|].
    apply Session.steps_nil. }
  exists w'. split; [exact Hsteps|].
  assert (Hstarted : Session.started Session.script3
                       {| Session.pg := p0; Session.pending := [] |})
    by constructor.
  destruct (proj2 a_stored_case_is_never_lost _ _ w' Hstarted eq_refl Hsteps)
    as [_ [Hsearch _]].
  exact (eq_trans (Hsearch eq_refl) eq_refl).
Defined.
